(* ===== verification/_CoqProject ===== *)
-Q . S2P
Prelude.v
JsString.v
Json.v
Render.v
JsMap.v
Config.v
Locations.v
Http.v
Server.v
Notifications.v
Frontend.v
System.v
