(* ===== verification/Prelude.v ===== *)
(** * SafgardNetworkMap: a verification development

    The repository is a small network dashboard in JavaScript:

    - [src/Backend/server.js], an Express server that reads three
      [key:value] configuration files and a site list at start-up
      ([createMap], [buildLocationsArray]), proxies GET requests to two
      upstream REST services (a UniFi cloud controller and an OpManager
      monitoring server: [sendUnifiRequest], [sendOpManRequest],
      [fetchData]) and resolves a site name to a UniFi site id through a
      process-lifetime cache [siteNameToSiteID] that it fills lazily by
      listing every remote site ([setSiteMap], route [/devices/unifi]);
    - [src/FrontEnd/index.js], the browser client: it loads the site
      list, then for every site fetches the device list and the firewall
      record from the backend, derives per-site state (firewall healthy,
      devices offline), recolours the site's map marker ([updateMarker])
      and recomputes the site's notification ([updateNotificationMenu]);
      a sweep over all sites ([requestDeviceList]) runs at start-up and
      every ten minutes, and a click on a marker refreshes one site;
    - [src/FrontEnd/notificationMenu.js], the notification panel
      ([addNotification], [removeNotification], the counter bubble
      [updateOrAddBubble]) and [src/FrontEnd/DevicePanel.js], the device
      side panel.

    The two halves interact only through HTTP: the front end fetches
    [/locations], [/devices/unifi?locationName=..] and
    [/devices/opmanager?locationName=..] from the backend, which calls
    the upstream services.

    ** Layout of the development (library root, files in dependency order)

    - [Prelude] (this file): the exceptions of the modelled JavaScript
      ([exn]), the state-and-exception monad [M] in which every
      asynchronous function is written (an exception keeps the state
      mutated before the throw, as JavaScript does), its notation in
      [js_scope], the un-awaited call [detach], [zoom] (a computation on
      one part of the state), the invariant judgement [preserves] with
      its syntax-directed tactic [preserves_auto], and the hint databases
      [js] and [js_rw].
    - [JsString]: the string built-ins the code calls on ASCII strings:
      [String.prototype.split] with a one-character separator, [trim],
      [toUpperCase], [includes], with their round-trip and idempotence
      lemmas.
    - [Json]: JSON values as [JSON.parse] returns them, JavaScript
      property access (throwing on [null]/[undefined]), truthiness,
      template-literal conversion, [for..of] iteration, [Array.filter].
    - [Render]: the HTML the client builds as template literals:
      [escapeHtml], the device cards of [formatDeviceList] and
      [formatOpManObjForDevicePanel], the notification modal's
      [formatOpManObject] and [formatUnifiDeviceList], and [colorStatus]
      (regular-expression replacements as left-to-right scans).
    - [JsMap]: the JavaScript [Map] as an insertion-ordered association
      list ([jm_get], [jm_set]), its laws and its setoid equivalence
      [jm_equiv] with [Proper] instances.
    - [Config]: [createMap] of [server.js] (lines 87-97).
    - [Locations]: [buildLocationsArray] of [server.js] (lines 99-116):
      the declaration regex, the two global replacements that repair the
      object text into JSON, the object keyed by variable name and
      [Object.values]; [load_server_config] is the start-up of lines
      14-18.  Object literals of the site file are the type [lit] with
      the printers [loose] (as the file writes them) and [strict] (JSON).
    - [Http]: the requests and responses of the three routes and the
      interface [HttpService] between the halves: the client is proved
      against the class, the backend is an instance of it.
    - [Server]: the backend; Module [Backend] holds one definition per
      function of [server.js] ([sendRequestWithHeaders],
      [sendOpManRequest], [sendUnifiRequest], [fetchData],
      [fetchOpManData], [fetchUnifiData], [mapUnifiNameToSiteName],
      [setSiteMap]) and per route ([get_locations], [get_opmanager],
      [get_unifi]), over the state [bstate] (the cache
      [siteNameToSiteID] and the log of upstream calls);
      [Server_service] is the [HttpService] instance.
    - [Notifications]: the panel of [notificationMenu.js]
      ([addNotification], [removeNotification], [updateOrAddBubble],
      [togglePanel], and the modal: [openModal], [closeModal], the click
      on a notification [clickNotification]).
    - [Frontend]: Module [Client] holds the state [fstate] (the
      module-level variables of [index.js], the two panels, the backend's
      state and the request log) and one definition per function of
      [index.js] and [DevicePanel.js] that changes it, the user and timer
      events ([run_event]) and the reachable states ([reachable]: start-up
      by [callFunctions], then any sequence of events).
    - [System]: the two halves composed: the backend started from its
      files by [load_server_config], answering as [Server_service], and
      the client run against it.

    ** What the theorems show (claim ids of the manifest)

    - Gateway (C1): [fetchOpManData]/[fetchUnifiData] never let an
      exception escape and answer the upstream status, type and body (as
      [res.send] sends it), or the generic 500.
    - Resolver (C2-C6, C13, C14): one site listing on a miss, none on a
      hit; a hit is answered from the cached id; a request without
      [locationName] is answered with the devices of the last listed site
      that has no alias (a bug); an unresolvable site is listed again on
      every request (the spec promises a terminal miss); a failed listing
      escapes the route handler (the spec promises a 500); [setSiteMap]
      leaves the last id listed for each name; the cache keys only grow.
    - Routes (C11, C12): at most [calls_bound] upstream calls per
      request, TLS checks off exactly for OpManager; an unknown site gets
      a 404 "not found" without an upstream call.
    - Client (C7-C10, C16, C18-C21, C25, C36-C38): in every reachable state the
      panel has one notification per site and a bubble equal to their
      number; a site without a firewall record gets a red marker and no
      notification (a bug); [updateMarker] follows the red/yellow/green
      priority; the sweep completes and sends, site after site, the
      device then the firewall request; recomputing a notification is
      idempotent; failed fetches and malformed firewall answers leave
      the derived state alone; offline devices are those whose state is
      OFFLINE in any case; start-up without a Greensboro site throws
      before the first sweep; the firewall answer of the selected site
      rebuilds its info window; a site refresh refines the spec's pure
      derivation of pin and notification (an abstraction [site_view] of
      the page); every timer tick polls every site again.
    - Notifications (C17) and configuration (C22-C24): the card
      [addNotification] builds; [createMap] reads back the tables it is
      given, stores only trimmed non-empty fields, and cuts a value at a
      second colon.
    - Device panel and rendering (C15, C26-C30): the comparator of
      [deviceList.sort] throws on two devices of the same state when the
      first has no string name (a bug); [escapeHtml] (five chained global
      replacements) equals the character-wise escape, leaves no markup
      character and is undone by decoding its entities;
      [formatDeviceList] puts a device's name into the panel unescaped (a
      bug), and, for any sort that keeps the contract of
      [Array.prototype.sort] ([sort_contract]), builds the panel of every
      list of devices with features, a string or falsy state and a string
      name, leaving the sorted array in [siteToDeviceMap].
    - Site file (C31-C35): the repair of [buildLocationsArray] turns the
      literals of the file (bare keys, single-quoted strings without
      quotes, braces, commas, semicolons or line breaks) into their JSON,
      for any blanks; a file of such declarations is read back in file
      order; one line [JSON.parse] rejects (an apostrophe in a value)
      makes start-up throw; a site declared under a numeral name (up to
      [2^32 - 2]) is listed first, since [Object.values] lists array
      indices first; a declaration named [__proto__] is dropped.  The
      examples [repair_comma_in_value] and [repair_apostrophe] show the
      text the repair corrupts.
    - System (C39, C40): the browser's site list is the site file's
      objects in file order; a click on the marker of a site without a
      firewall entry never shows an info window for it (a bug: its
      device buttons are unreachable).

    Each theorem with hypotheses has a witness ([..._witness], at the end
    of its file) that applies it to a concrete deployment ([demo_cfg],
    [demo_upstream] in [Server]; the start-up state [demo_start] over the
    backend [demo_answer] in [Frontend]).  There is no fuel: every loop
    of the program is a [for..of] or [forEach] over a finite array, and
    its model is structural recursion on the list; the regular
    expressions are scans by structural recursion on the text, and the
    entity decoder of the round trip takes the text's length as fuel
    (one step per character is enough).

    ** Modelling choices

    - Strings are Rocq [string]s (8-bit code units); the string
      built-ins are exact on ASCII text.  JSON numbers are integers ([Z]):
      the program never computes with a number other than a status code
      or a length.
    - The upstream services are an oracle [upstream] (a section variable)
      from a request to a response or a transport failure; every upstream
      call is appended to a log in the backend state, so that the number
      and order of calls are observable.
    - Asynchronous functions run to completion between their [await]s
      and requests and events are handled one after the other; an
      [async] function that is called without [await] ([updateMarker],
      [updateNotificationMenu]) has no [await] inside, so it runs to its
      end at once: it is [detach]ed, its state changes stay and its
      exception is dropped, as an unhandled rejection is in a browser.
    - [Array.prototype.sort] with the comparator of [formatDeviceList]
      is the parameter [sort_devices]: the comparator ([compare_devices])
      is not consistent, so the order is the engine's; the theorems hold
      for any order, and those that need the sort to return assume its
      contract [sort_contract] (a permutation whenever the comparator
      returns on every pair).  The insertion sort [sort_by] of [Render]
      meets it and runs the witnesses.
    - Express is taken as Express 5, the repository pinning no version:
      [res.send] sends a string body raw and [null] as an empty body
      ([Backend.send_body]), and a route handler whose promise rejects is
      answered by the error handler while the server keeps serving.
      Under Express 4, [res.send] of a number would set the status code
      and an unhandled rejection would end the process (Node 15 and
      later).  The client reads a text body as a failed
      [response.json()], which is right unless an upstream JSON string
      is itself JSON text.
    - The events of [reachable] may occur in any state, which includes
      runs the page does not have (a tick after a failed start-up), so
      its invariants hold a fortiori of the page.

    ** Not modelled

    The DOM and the Google Maps API as such: markers are modelled by the
    colour of their pin, the info window by its content, position,
    anchor and open state, and panels by the HTML strings put into
    [innerHTML].  The listeners [#closeUnifiButton] accumulates (one more
    per click, all running [removeDevicePanel]) are modelled as one.
    File reading ([fs.readFileSync] is given the file contents).
    [JSON.parse] is a parameter of [Locations] (a built-in: the
    theorems assume what it returns on the repaired text).  The Express
    routing and CORS middleware beyond the three routes, and console
    logging.  The query string: the backend is given the site name the
    client interpolated, which is what it receives for names without
    [&], [#], [+] or [%]; the browser's percent-encoding and Express's
    decoding of other names (UTF-8 beyond the 8-bit code units of the
    model, repeated keys read as arrays) are not modelled.  The
    interleaving of concurrent requests or events at their [await]s. *)

From stdpp Require Import base list strings.
From Stdlib Require Import ZArith.

Declare Scope js_scope.
Delimit Scope js_scope with js.

(** ** Exceptions of the modelled JavaScript *)

Inductive exn : Type :=
| TypeError (what : string)     (** property of null/undefined, non-iterable, ... *)
| NetworkError                  (** [fetch] rejected: transport failure *)
| JsonParseError                (** [response.json()] rejected *)
| HttpError (status : Z).       (** thrown by the client's [fetchData] on [!response.ok] *)

(** The completion of a JavaScript computation: a value or an exception. *)
Inductive res (A : Type) : Type :=
| Ok (a : A)
| Exc (e : exn).
Arguments Ok {A} a.
Arguments Exc {A} e.

(** An asynchronous JavaScript function over a shared state [S]: it returns
    its completion and the state it leaves, also when it throws. *)
Definition M (S A : Type) : Type := S -> res A * S.

Section Monad.
Context {S : Type}.

Definition ret {A} (a : A) : M S A := fun s => (Ok a, s).

Definition bind {A B} (m : M S A) (f : A -> M S B) : M S B :=
  fun s => match m s with
           | (Ok a, s') => f a s'
           | (Exc e, s') => (Exc e, s')
           end.

Definition throw {A} (e : exn) : M S A := fun s => (Exc e, s).

Definition gets {A} (f : S -> A) : M S A := fun s => (Ok (f s), s).

Definition modify (f : S -> S) : M S unit := fun s => (Ok tt, f s).

(** [try { m } catch (e) { h(e) }] *)
Definition try_catch {A} (m : M S A) (h : exn -> M S A) : M S A :=
  fun s => match m s with
           | (Ok a, s') => (Ok a, s')
           | (Exc e, s') => h e s'
           end.

(** A call of an [async] function without [await] whose body has no
    [await]: it runs to completion at once, its state changes stay and
    its exception becomes an unhandled rejection, lost for the caller. *)
Definition detach (m : M S unit) : M S unit := fun s => (Ok tt, snd (m s)).

Definition of_res {A} (r : res A) : M S A := fun s => (r, s).

(** [for (const x of l) { await f(x); }] *)
Fixpoint for_each {A} (f : A -> M S unit) (l : list A) : M S unit :=
  match l with
  | [] => ret tt
  | x :: l' => bind (f x) (fun _ => for_each f l')
  end.
End Monad.

(** A computation on a part [T] of the state, run on the whole state [S]
    (the part is read with [view] and written back with [update]). *)
Definition zoom {S T A} (view : S -> T) (update : T -> S -> S) (m : M T A) : M S A :=
  fun s => let '(r, t) := m (view s) in (r, update t s).


Notation "'let*' x := m 'in' k" := (bind m (fun x => k))
  (at level 10, x name, m at level 100, k at level 200) : js_scope.
Notation "'let*' ' p := m 'in' k" := (bind m (fun x => match x with p => k end))
  (at level 10, p pattern, m at level 100, k at level 200) : js_scope.
Notation "m ;;; k" := (bind m (fun _ => k))
  (at level 100, k at level 200, right associativity) : js_scope.

Open Scope js_scope.

(** Sequencing of completions, for the synchronous code that throws:
    [let? x := r in k] runs [k] on the value of [r], or passes its
    exception on. *)
Definition res_bind {A B} (r : res A) (f : A -> res B) : res B :=
  match r with Ok a => f a | Exc e => Exc e end.

Notation "'let?' x := r 'in' k" := (res_bind r (fun x => k))
  (at level 10, x name, r at level 100, k at level 200) : js_scope.

(** ** Monad laws and running lemmas, the [js] rewrite base *)

Create HintDb js discriminated.
Create Rewrite HintDb js_rw.

Section MonadLaws.
Context {S : Type}.

Lemma bind_ret_l {A B} (a : A) (f : A -> M S B) s :
  bind (ret a) f s = f a s.
Proof. reflexivity. Qed.

Lemma bind_ret_r {A} (m : M S A) s : bind m ret s = m s.
Proof. unfold bind, ret. by destruct (m s) as [[] ?]. Qed.

Lemma bind_assoc {A B C} (m : M S A) (f : A -> M S B) (g : B -> M S C) s :
  bind (bind m f) g s = bind m (fun a => bind (f a) g) s.
Proof. unfold bind. by destruct (m s) as [[] ?]. Qed.

Lemma bind_throw {A B} e (f : A -> M S B) s : bind (throw e) f s = (Exc e, s).
Proof. reflexivity. Qed.

(** The state after a [bind] whose first computation ends normally. *)
Lemma bind_ok {A B} (m : M S A) (f : A -> M S B) s a s' :
  m s = (Ok a, s') -> bind m f s = f a s'.
Proof. unfold bind. by intros ->. Qed.

Lemma bind_exc {A B} (m : M S A) (f : A -> M S B) s e s' :
  m s = (Exc e, s') -> bind m f s = (Exc e, s').
Proof. unfold bind. by intros ->. Qed.

Lemma detach_state (m : M S unit) s : detach m s = (Ok tt, snd (m s)).
Proof. reflexivity. Qed.

Lemma try_catch_ok {A} (m : M S A) h s a s' :
  m s = (Ok a, s') -> try_catch m h s = (Ok a, s').
Proof. unfold try_catch. by intros ->. Qed.

Lemma try_catch_exc {A} (m : M S A) h s e s' :
  m s = (Exc e, s') -> try_catch m h s = h e s'.
Proof. unfold try_catch. by intros ->. Qed.

(** A property of states kept by every step of a computation. *)
Definition preserves {A} (P : S -> Prop) (m : M S A) : Prop :=
  forall s, P s -> P (snd (m s)).

Lemma preserves_ret {A} P (a : A) : preserves P (ret a).
Proof. by intros s. Qed.

Lemma preserves_throw {A} P e : preserves P (@throw S A e).
Proof. by intros s. Qed.

Lemma preserves_gets {A} P (f : S -> A) : preserves P (gets f).
Proof. by intros s. Qed.

Lemma preserves_of_res {A} P (r : res A) : preserves P (of_res r).
Proof. by intros s. Qed.

Lemma preserves_bind {A B} P (m : M S A) (f : A -> M S B) :
  preserves P m -> (forall a, preserves P (f a)) -> preserves P (bind m f).
Proof.
  intros Hm Hf s Hs. unfold bind.
  specialize (Hm s Hs). destruct (m s) as [[a|e] s'] eqn:E; simpl in *; [|done].
  by apply Hf.
Qed.

Lemma preserves_try_catch {A} P (m : M S A) h :
  preserves P m -> (forall e, preserves P (h e)) -> preserves P (try_catch m h).
Proof.
  intros Hm Hh s Hs. unfold try_catch.
  specialize (Hm s Hs). destruct (m s) as [[a|e] s'] eqn:E; simpl in *; [done|].
  by apply Hh.
Qed.

Lemma preserves_detach P (m : M S unit) : preserves P m -> preserves P (detach m).
Proof. intros Hm s Hs. apply Hm, Hs. Qed.

Lemma preserves_for_each {A} P (f : A -> M S unit) l :
  (forall x, preserves P (f x)) -> preserves P (for_each f l).
Proof.
  intros Hf. induction l as [|x l IH]; simpl.
  - apply preserves_ret.
  - apply preserves_bind; auto.
Qed.

Lemma preserves_for_each_in {A} P (f : A -> M S unit) l :
  (forall x, x ∈ l -> preserves P (f x)) -> preserves P (for_each f l).
Proof.
  induction l as [|x l IH]; simpl; intros Hf; [apply preserves_ret|].
  apply preserves_bind; [apply Hf; by left|]. intros _. apply IH.
  intros y Hy. apply Hf. by right.
Qed.

Lemma preserves_modify P (f : S -> S) :
  (forall s, P s -> P (f s)) -> preserves P (modify f).
Proof. intros Hf s Hs. apply Hf, Hs. Qed.
End MonadLaws.

Lemma zoom_run {S T A} (view : S -> T) (update : T -> S -> S) (m : M T A) s :
  zoom view update m s = (fst (m (view s)), update (snd (m (view s))) s).
Proof. unfold zoom. by destruct (m (view s)). Qed.

#[export] Hint Rewrite @bind_ret_l @bind_throw @detach_state : js_rw.
#[export] Hint Resolve preserves_ret preserves_throw preserves_gets preserves_of_res
  preserves_bind preserves_try_catch preserves_detach preserves_for_each : js.

(** [preserves_auto] splits a computation into its steps, following the
    syntax of the monadic program, and leaves the steps it does not know
    ([modify] and the operations of the components), whose lemmas the
    caller applies. *)
Ltac preserves_step :=
  match goal with
  | |- preserves _ (bind _ _) => apply preserves_bind; [|intros ?]
  | |- preserves _ (try_catch _ _) => apply preserves_try_catch; [|intros ?]
  | |- preserves _ (detach _) => apply preserves_detach
  | |- preserves _ (for_each _ _) => apply preserves_for_each; intros ?
  | |- preserves _ (ret _) => apply preserves_ret
  | |- preserves _ (throw _) => apply preserves_throw
  | |- preserves _ (gets _) => apply preserves_gets
  | |- preserves _ (of_res _) => apply preserves_of_res
  | |- preserves _ (match ?x with _ => _ end) => destruct x
  | |- preserves _ (if ?b then _ else _) => destruct b
  end.

(** Case analysis on the 256 characters, for the facts about one
    character that are decided by computation. *)
Ltac ascii_cases c := destruct c as [[] [] [] [] [] [] [] []].

Ltac preserves_auto := repeat (progress (cbv beta; try preserves_step)).

(** ** Generic lemmas on lists and options *)

Lemma fold_left_invariant {A B} (P : A -> Prop) (f : A -> B -> A) (l : list B) a :
  P a -> (forall x b, P x -> P (f x b)) -> P (fold_left f l a).
Proof. revert a. induction l; simpl; auto. Qed.

Lemma filter_length_le {A} (p : A -> bool) (l : list A) :
  length (List.filter p l) <= length l.
Proof. induction l as [|x l IH]; simpl; [lia|]. destruct (p x); simpl; lia. Qed.
