(* ===== verification/JsString.v ===== *)
(** * JsString: the JavaScript string built-ins the program calls

    [String.prototype.split] with a one-character separator ([split_on]),
    [String.prototype.trim] ([trim]) and [String.prototype.toUpperCase]
    ([to_upper]), on strings of 8-bit code units; [to_upper] is exact on
    ASCII text.  The lemmas give the round trip of [split_on] with
    [join], the idempotence of [trim] and [to_upper], and what their
    results contain. *)

From stdpp Require Import base list strings.
From Stdlib Require Import Ascii.
From S2P Require Import Prelude.

(** ** Characters *)

(** The JavaScript [WhiteSpace] and [LineTerminator] code units below 256:
    TAB, LF, VT, FF, CR, SPACE and NO-BREAK SPACE. *)
Definition is_js_space (c : ascii) : bool :=
  match N_of_ascii c with
  | 9%N | 10%N | 11%N | 12%N | 13%N | 32%N | 160%N => true
  | _ => false
  end.

(** The upper-case mapping of [toUpperCase] on ASCII letters. *)
Definition ascii_upper (c : ascii) : ascii :=
  let n := N_of_ascii c in
  if ((97 <=? n) && (n <=? 122))%N then ascii_of_N (n - 32) else c.

(** The double and the single quote, and a double quote as a string. *)
Definition dq : ascii := "034".
Definition sq : ascii := "039".
Definition qt : string := String dq EmptyString.

(** ** Built-ins *)

(** [s.split(sep)] for a one-character separator: the maximal pieces
    between separators, with the empty pieces; [""] splits to [[""]]. *)
Fixpoint split_on (sep : ascii) (s : string) : list string :=
  match s with
  | EmptyString => [EmptyString]
  | String c s' =>
      let parts := split_on sep s' in
      if Ascii.eqb c sep then EmptyString :: parts
      else match parts with
           | p :: ps => String c p :: ps
           | [] => [String c EmptyString]
           end
  end.

(** [parts.join(sep)], the inverse of [split_on]. *)
Fixpoint join (sep : ascii) (parts : list string) : string :=
  match parts with
  | [] => EmptyString
  | [p] => p
  | p :: ps => p +:+ String sep (join sep ps)
  end.

Fixpoint trim_start (s : string) : string :=
  match s with
  | EmptyString => EmptyString
  | String c s' => if is_js_space c then trim_start s' else s
  end.

Fixpoint trim_end (s : string) : string :=
  match s with
  | EmptyString => EmptyString
  | String c s' =>
      match trim_end s' with
      | EmptyString => if is_js_space c then EmptyString else String c EmptyString
      | r => String c r
      end
  end.

(** [s.trim()] *)
Definition trim (s : string) : string := trim_end (trim_start s).

(** [s.toUpperCase()] *)
Fixpoint to_upper (s : string) : string :=
  match s with
  | EmptyString => EmptyString
  | String c s' => String (ascii_upper c) (to_upper s')
  end.

(** [c] occurs in [s]. *)
(** [s.replace(/c/g, r)] for a one-character pattern [c]. *)
Fixpoint replace_char (c : ascii) (r : string) (s : string) : string :=
  match s with
  | EmptyString => EmptyString
  | String x s' => if Ascii.eqb x c then r +:+ replace_char c r s' else String x (replace_char c r s')
  end.

(** The characters of [\w]. *)
Definition is_word_char (c : ascii) : bool :=
  let n := N_of_ascii c in
  ((48 <=? n) && (n <=? 57) || (65 <=? n) && (n <=? 90) || (97 <=? n) && (n <=? 122) || (n =? 95))%N.

Definition starts_with_word (s : string) : bool :=
  match s with String c _ => is_word_char c | EmptyString => false end.

Fixpoint str_drop (n : nat) (s : string) : string :=
  match n, s with
  | O, _ => s
  | S n', String _ s' => str_drop n' s'
  | S _, EmptyString => EmptyString
  end.

(** Every character of [s] satisfies [p]. *)
Fixpoint str_forall (p : ascii -> bool) (s : string) : bool :=
  match s with
  | EmptyString => true
  | String c s' => p c && str_forall p s'
  end.

Fixpoint str_has (c : ascii) (s : string) : bool :=
  match s with
  | EmptyString => false
  | String d s' => Ascii.eqb d c || str_has c s'
  end.

(** [hay.includes(needle)] *)
Fixpoint str_includes (needle hay : string) : bool :=
  String.prefix needle hay ||
  match hay with
  | EmptyString => false
  | String _ hay' => str_includes needle hay'
  end.

(** ** Lemmas *)

Lemma split_on_nonempty sep s : split_on sep s <> [].
Proof.
  destruct s as [|c s]; simpl; [done|].
  destruct (Ascii.eqb c sep); [done|]. by destruct (split_on sep s).
Qed.

Lemma join_cons sep p parts :
  parts <> [] -> join sep (p :: parts) = p +:+ String sep (join sep parts).
Proof. by destruct parts. Qed.

(** Splitting then joining gives the string back. *)
Lemma join_split_on sep s : join sep (split_on sep s) = s.
Proof.
  induction s as [|c s IH]; simpl; [done|].
  pose proof (split_on_nonempty sep s) as Hne.
  destruct (Ascii.eqb c sep) eqn:E.
  - apply Ascii.eqb_eq in E as ->. rewrite join_cons by done. simpl. by rewrite IH.
  - destruct (split_on sep s) as [|p ps]; [done|].
    destruct ps as [|q qs]; simpl in *; [by rewrite IH|].
    by rewrite <- IH.
Qed.

(** No piece of a split contains the separator. *)
Lemma split_on_no_sep sep s p : p ∈ split_on sep s -> str_has sep p = false.
Proof.
  revert p. induction s as [|c s IH]; simpl; intros p Hp.
  - apply list_elem_of_singleton in Hp as ->. done.
  - destruct (Ascii.eqb c sep) eqn:E.
    + apply elem_of_cons in Hp as [->|Hp]; [done|]. by apply IH.
    + destruct (split_on sep s) as [|q qs] eqn:Hs; [by destruct (split_on_nonempty sep s)|].
      apply elem_of_cons in Hp as [->|Hp].
      * simpl. rewrite E. apply IH. by left.
      * apply IH. by right.
Qed.

Lemma split_on_app_sep sep p s :
  str_has sep p = false ->
  split_on sep (p +:+ String sep s) = p :: split_on sep s.
Proof.
  induction p as [|c p IH]; simpl; intros Hp.
  - by rewrite Ascii.eqb_refl.
  - apply orb_false_iff in Hp as [Hc Hp].
    rewrite IH by done. by rewrite Hc.
Qed.

Lemma split_on_no_sep_single sep p :
  str_has sep p = false -> split_on sep p = [p].
Proof.
  induction p as [|c p IH]; simpl; intros Hp; [done|].
  apply orb_false_iff in Hp as [Hc Hp]. by rewrite Hc, IH.
Qed.

(** Joining pieces free of the separator then splitting gives them back. *)
Lemma split_on_join sep parts :
  parts <> [] -> Forall (fun p => str_has sep p = false) parts ->
  split_on sep (join sep parts) = parts.
Proof.
  induction parts as [|p ps IH]; intros Hne Hall; [done|].
  apply Forall_cons in Hall as [Hp Hps].
  destruct ps as [|q qs]; simpl.
  - by apply split_on_no_sep_single.
  - rewrite split_on_app_sep by done. f_equal. by apply IH.
Qed.

Lemma trim_start_idem s : trim_start (trim_start s) = trim_start s.
Proof.
  induction s as [|c s IH]; simpl; [done|].
  destruct (is_js_space c) eqn:E; [done|]. simpl. by rewrite E.
Qed.

Lemma trim_end_idem s : trim_end (trim_end s) = trim_end s.
Proof.
  induction s as [|c s IH]; simpl; [done|].
  destruct (trim_end s) as [|d r] eqn:E.
  - destruct (is_js_space c) eqn:Ec; simpl; [done|]. by rewrite Ec.
  - change (trim_end (String c (String d r))) with
      (match trim_end (String d r) with
       | EmptyString => if is_js_space c then EmptyString else String c EmptyString
       | r' => String c r'
       end).
    by rewrite IH.
Qed.

Lemma trim_start_trim_end s :
  trim_start (trim_end (trim_start s)) = trim_end (trim_start s).
Proof.
  induction s as [|c s IH]; simpl; [done|].
  destruct (is_js_space c) eqn:Ec; [done|]. simpl.
  destruct (trim_end s) as [|d r]; [|by simpl; rewrite Ec].
  rewrite Ec. simpl. by rewrite Ec.
Qed.

(** [trim] is idempotent. *)
Lemma trim_idem s : trim (trim s) = trim s.
Proof. unfold trim. rewrite trim_start_trim_end. apply trim_end_idem. Qed.

Lemma ascii_upper_idem c : ascii_upper (ascii_upper c) = ascii_upper c.
Proof.
  destruct c as [[] [] [] [] [] [] [] []]; reflexivity.
Qed.

(** [toUpperCase] is idempotent. *)
Lemma to_upper_idem s : to_upper (to_upper s) = to_upper s.
Proof. induction s as [|c s IH]; simpl; [done|]. by rewrite ascii_upper_idem, IH. Qed.

Lemma str_includes_prefix needle hay :
  String.prefix needle hay = true -> str_includes needle hay = true.
Proof. destruct hay; simpl; intros ->; done. Qed.

Lemma str_includes_app_r needle pre hay :
  str_includes needle hay = true -> str_includes needle (pre +:+ hay) = true.
Proof.
  induction pre as [|c pre IH]; simpl; intros H; [done|].
  rewrite IH by done. apply orb_true_r.
Qed.

Lemma str_has_app c a b : str_has c (a +:+ b) = str_has c a || str_has c b.
Proof. induction a as [|d a IH]; simpl; [done|]. by rewrite IH, orb_assoc. Qed.

Lemma str_has_join c sep parts p :
  p ∈ parts -> str_has c p = true -> str_has c (join sep parts) = true.
Proof.
  induction parts as [|q qs IH]; intros Hp Hc; [by apply elem_of_nil in Hp|].
  apply elem_of_cons in Hp as [->|Hp].
  - destruct qs; simpl; [done|]. by rewrite str_has_app, Hc.
  - destruct qs as [|q' qs]; [by apply elem_of_nil in Hp|].
    rewrite join_cons by done. rewrite str_has_app. cbn [str_has]. rewrite IH by done.
    by rewrite !orb_true_r.
Qed.

(** A piece of a split has no character the string does not have. *)
Lemma str_has_split c sep s p :
  p ∈ split_on sep s -> str_has c p = true -> str_has c s = true.
Proof. intros Hp Hc. rewrite <- (join_split_on sep s). by apply (str_has_join _ _ _ p). Qed.

Lemma str_has_trim c s : str_has c (trim s) = true -> str_has c s = true.
Proof.
  unfold trim. intros H.
  assert (Hend : forall t, str_has c (trim_end t) = true -> str_has c t = true).
  { induction t as [|d t IH]; simpl; [done|].
    destruct (trim_end t) as [|e r] eqn:E.
    - destruct (is_js_space d); simpl; [done|]. rewrite orb_false_r. intros ->. done.
    - simpl. intros [->|Hr]%orb_true_iff; [done|]. rewrite IH by done. apply orb_true_r. }
  apply Hend in H. clear Hend. induction s as [|d s IH]; simpl in *; [done|].
  destruct (is_js_space d); [|done]. rewrite IH by done. apply orb_true_r.
Qed.

Lemma string_app_cons d a b : String d a +:+ b = String d (a +:+ b).
Proof. reflexivity. Qed.

Lemma string_app_assoc a b c : (a +:+ b) +:+ c = a +:+ (b +:+ c).
Proof. induction a as [|d a IH]; [done|]. rewrite !string_app_cons. by rewrite IH. Qed.

Lemma string_length_app a b : String.length (a +:+ b) = String.length a + String.length b.
Proof. induction a as [|d a IH]; [done|]. rewrite string_app_cons. simpl. by rewrite IH. Qed.

Lemma string_app_nil_r a : a +:+ EmptyString = a.
Proof. induction a as [|d a IH]; [done|]. rewrite string_app_cons. by rewrite IH. Qed.

Lemma string_app_inj_l a b c : a +:+ b = a +:+ c -> b = c.
Proof. induction a as [|d a IH]; simpl; [done|]. intros [= H]. by apply IH. Qed.

Lemma str_has_trim_false c s : str_has c s = false -> str_has c (trim s) = false.
Proof. intros H. destruct (str_has c (trim s)) eqn:E; [|done]. apply str_has_trim in E. congruence. Qed.

Lemma str_has_split_false c sep s p :
  p ∈ split_on sep s -> str_has c s = false -> str_has c p = false.
Proof.
  intros Hp H. destruct (str_has c p) eqn:E; [|done].
  rewrite (str_has_split c sep s p) in H; done.
Qed.

Lemma replace_char_app c r a b :
  replace_char c r (a +:+ b) = replace_char c r a +:+ replace_char c r b.
Proof.
  induction a as [|x a IH]; [done|]. rewrite string_app_cons. cbn [replace_char].
  destruct (Ascii.eqb x c); rewrite IH; [by rewrite string_app_assoc|done].
Qed.


#[export] Hint Resolve split_on_nonempty str_includes_prefix str_includes_app_r : js.
#[export] Hint Rewrite join_split_on trim_idem to_upper_idem : js_rw.
