(* ===== verification/Json.v ===== *)
(** * Json: JavaScript values as the program receives them

    The values the program handles all come from [JSON.parse] (through
    [response.json()]): [null], booleans, numbers (integers here),
    strings, arrays and objects whose fields are kept in source order.
    [undefined] is the [None] of [option json].

    This file gives the operations of JavaScript the code applies to
    them: property access [v.k] ([prop], throwing a [TypeError] on
    [null] and [undefined]), truthiness ([truthy], for [if (x)] and
    [!x]), the conversion of a template literal [`${v}`] ([to_js_string]),
    [for .. of] iteration ([iter_of]), and [Array.prototype.filter]
    ([js_filter]).  Equality of JSON values is decidable
    ([json_eq_dec]); on primitives it is JavaScript's [===]. *)

From stdpp Require Import base list strings pretty.
From Stdlib Require Import ZArith Ascii.
From S2P Require Import Prelude JsString.

Inductive json : Type :=
| JNull
| JBool (b : bool)
| JNum (n : Z)
| JStr (s : string)
| JArr (xs : list json)
| JObj (fields : list (string * json)).

(** A JavaScript value of the program: [None] is [undefined]. *)
Abbreviation jsval := (option json).

(** ** Induction through the nested lists *)

Section JsonInd.
Variable P : json -> Prop.
Hypothesis HNull : P JNull.
Hypothesis HBool : forall b, P (JBool b).
Hypothesis HNum : forall n, P (JNum n).
Hypothesis HStr : forall s, P (JStr s).
Hypothesis HArr : forall xs, Forall P xs -> P (JArr xs).
Hypothesis HObj : forall fs, Forall (fun kv => P kv.2) fs -> P (JObj fs).

Fixpoint json_ind' (v : json) : P v :=
  match v with
  | JNull => HNull
  | JBool b => HBool b
  | JNum n => HNum n
  | JStr s => HStr s
  | JArr xs =>
      HArr xs ((fix go (xs : list json) : Forall P xs :=
                 match xs with
                 | [] => Forall_nil_2 _
                 | x :: xs' => Forall_cons_2 _ _ _ (json_ind' x) (go xs')
                 end) xs)
  | JObj fs =>
      HObj fs ((fix go (fs : list (string * json)) : Forall (fun kv => P kv.2) fs :=
                 match fs with
                 | [] => Forall_nil_2 _
                 | kv :: fs' => Forall_cons_2 _ _ _ (json_ind' kv.2) (go fs')
                 end) fs)
  end.
End JsonInd.

(** ** Decidable equality *)

Fixpoint json_eqb (a b : json) : bool :=
  match a, b with
  | JNull, JNull => true
  | JBool x, JBool y => Bool.eqb x y
  | JNum x, JNum y => Z.eqb x y
  | JStr x, JStr y => String.eqb x y
  | JArr xs, JArr ys =>
      (fix go (xs ys : list json) : bool :=
         match xs, ys with
         | [], [] => true
         | x :: xs', y :: ys' => json_eqb x y && go xs' ys'
         | _, _ => false
         end) xs ys
  | JObj fs, JObj gs =>
      (fix go (fs gs : list (string * json)) : bool :=
         match fs, gs with
         | [], [] => true
         | (k, x) :: fs', (l, y) :: gs' => String.eqb k l && json_eqb x y && go fs' gs'
         | _, _ => false
         end) fs gs
  | _, _ => false
  end.

Lemma json_eqb_eq a b : json_eqb a b = true <-> a = b.
Proof.
  revert b. induction a as [| x | x | x | xs IH | fs IH] using json_ind';
    intros [| y | y | y | ys | gs]; simpl; try (split; congruence).
  - rewrite eqb_true_iff. split; congruence.
  - rewrite Z.eqb_eq. split; congruence.
  - rewrite String.eqb_eq. split; congruence.
  - revert ys. induction IH as [|x xs Hx _ IHxs]; intros [|y ys]; try (split; congruence).
    rewrite andb_true_iff, Hx, IHxs. split; [intros [-> [= ->]]; done | intros [= -> ->]; done].
  - revert gs. induction IH as [|[k x] fs Hx _ IHfs]; intros [|[l y] gs]; try (split; congruence).
    simpl in Hx. rewrite !andb_true_iff, String.eqb_eq, Hx, IHfs.
    split; [intros [[-> ->] [= ->]]; done | intros [= -> -> ->]; done].
Qed.

#[export] Instance json_eq_dec : EqDecision json.
Proof.
  intros a b. destruct (json_eqb a b) eqn:E.
  - left. by apply json_eqb_eq.
  - right. intros H. apply json_eqb_eq in H. congruence.
Defined.

(** ** Property access *)

(** The field [k] of a parsed object: [JSON.parse] keeps the last of
    duplicated keys. *)
Fixpoint assoc_last (k : string) (fs : list (string * json)) : option json :=
  match fs with
  | [] => None
  | (k', v) :: fs' =>
      match assoc_last k fs' with
      | Some w => Some w
      | None => if decide (k = k') then Some v else None
      end
  end.

Definition undefined_access (k : string) : exn :=
  TypeError ("Cannot read properties of undefined or null (reading '" +:+ k +:+ "')").

(** [v.k]: throws on [undefined] and [null]; [length] of arrays and
    strings; the field of an object; [undefined] otherwise (the
    properties of [Object.prototype] are not among the names the program
    reads). *)
Definition prop (v : option json) (k : string) : res (option json) :=
  match v with
  | None | Some JNull => Exc (undefined_access k)
  | Some (JObj fs) => Ok (assoc_last k fs)
  | Some (JArr xs) =>
      Ok (if decide (k = "length") then Some (JNum (Z.of_nat (length xs))) else None)
  | Some (JStr s) =>
      Ok (if decide (k = "length") then Some (JNum (Z.of_nat (String.length s))) else None)
  | Some (JBool _) | Some (JNum _) => Ok None
  end.

(** [v[0]] *)
Definition index0 (v : option json) : res (option json) :=
  match v with
  | None | Some JNull => Exc (undefined_access "0")
  | Some (JArr (x :: _)) => Ok (Some x)
  | Some (JStr (String c _)) => Ok (Some (JStr (String c EmptyString)))
  | Some (JObj fs) => Ok (assoc_last "0" fs)
  | Some _ => Ok None
  end.

(** [if (v)]: [undefined], [null], [false], [0] and [""] are falsy. *)
Definition truthy (v : option json) : bool :=
  match v with
  | None | Some JNull => false
  | Some (JBool b) => b
  | Some (JNum n) => negb (Z.eqb n 0)
  | Some (JStr s) => negb (String.eqb s "")
  | Some (JArr _) | Some (JObj _) => true
  end.

(** [`${v}`]: the string conversion of a template literal. *)
Fixpoint json_to_string (v : json) : string :=
  match v with
  | JNull => "null"
  | JBool true => "true"
  | JBool false => "false"
  | JNum n => pretty n
  | JStr s => s
  | JArr xs =>
      join "," ((fix go (xs : list json) : list string :=
                   match xs with
                   | [] => []
                   | JNull :: xs' => "" :: go xs'
                   | x :: xs' => json_to_string x :: go xs'
                   end) xs)
  | JObj _ => "[object Object]"
  end.

Definition to_js_string (v : option json) : string :=
  match v with
  | None => "undefined"
  | Some x => json_to_string x
  end.

(** The string conversion of a string-valued variable that may be
    [undefined] (a query parameter, a [Map] lookup). *)
Definition str_or_undefined (s : option string) : string :=
  match s with
  | None => "undefined"
  | Some s => s
  end.

(** [for (const x of v)]: arrays and strings are iterable. *)
Definition iter_of (v : option json) : res (list (option json)) :=
  match v with
  | Some (JArr xs) => Ok (map Some xs)
  | Some (JStr s) => Ok (map (fun c => Some (JStr (String c EmptyString))) (String.list_ascii_of_string s))
  | _ => Exc (TypeError "object is not iterable")
  end.

(** [v.filter(p)] where the predicate [p] may throw: arrays only. *)
Definition js_filter (p : json -> res bool) (v : option json) : res (list json) :=
  match v with
  | Some (JArr xs) =>
      (fix go (xs : list json) : res (list json) :=
         match xs with
         | [] => Ok []
         | x :: xs' =>
             match p x with
             | Exc e => Exc e
             | Ok b => match go xs' with
                       | Exc e => Exc e
                       | Ok ys => Ok (if b then x :: ys else ys)
                       end
             end
         end) xs
  | _ => Exc (TypeError "filter is not a function")
  end.

(** ** Lemmas *)

Lemma prop_obj k fs : prop (Some (JObj fs)) k = Ok (assoc_last k fs).
Proof. reflexivity. Qed.

Lemma prop_undefined k : prop None k = Exc (undefined_access k).
Proof. reflexivity. Qed.

Lemma truthy_str s : truthy (Some (JStr s)) = true <-> s <> "".
Proof.
  simpl. rewrite negb_true_iff, <- not_true_iff_false, String.eqb_eq. done.
Qed.

(** [js_filter] on an array keeps exactly the elements whose predicate is
    [true], in order, when the predicate never throws. *)
Lemma js_filter_array (p : json -> res bool) (q : json -> bool) xs :
  (forall x, x ∈ xs -> p x = Ok (q x)) ->
  js_filter p (Some (JArr xs)) = Ok (List.filter q xs).
Proof.
  intros Hp. simpl. induction xs as [|x xs IH]; [done|].
  rewrite Hp by (by left). rewrite IH by (intros y Hy; apply Hp; by right).
  simpl. by destruct (q x).
Qed.

(** A throwing predicate makes [js_filter] throw. *)
Lemma js_filter_array_exc (p : json -> res bool) xs x e :
  x ∈ xs -> p x = Exc e -> exists e', js_filter p (Some (JArr xs)) = Exc e'.
Proof.
  intros Hx Hpx. simpl. induction xs as [|y xs IH]; [by apply elem_of_nil in Hx|].
  destruct (p y) as [b|e'] eqn:Hy; [|by eauto].
  apply elem_of_cons in Hx as [->|Hx]; [congruence|].
  destruct IH as [e' ->]; [done|]. eauto.
Qed.
