(* ===== verification/Render.v ===== *)
(** * Render: the HTML the client builds

    The pure functions of the front end that turn records into HTML
    text: [escapeHtml] (index.js lines 66-73, identical in
    notificationMenu.js lines 77-84), the device cards of
    [formatDeviceList] (index.js lines 36-64) with [createCloseButton]
    and the comparator of its sort ([compare_devices], lines 39-45),
    [formatOpManObjForDevicePanel] (lines 110-121), the two
    [formatOpManObject]s (index.js lines 79-108 for the info window,
    notificationMenu.js lines 87-119 for the notification modal),
    [formatUnifiDeviceList] (notificationMenu.js lines 122-157) and
    [colorStatus] (DevicePanel.js lines 14-18).  Template literals are
    written as concatenations, their line breaks with [nl]; a double
    quote inside the HTML is [qt].

    The theorems: [escapeHtml], a chain of five global replacements, is
    the character-by-character escape [escape_ref]; its output has no
    markup character, and [unescapeHtml] undoes it.  The device name of
    a card, the firewall fields of the panels and of the modal, and the
    device names of the modal are inserted without escaping.  The
    comparator throws on two devices of the same state when the first
    has no string name; on devices with string names it always returns,
    so a sort that keeps the contract [sort_contract] of
    [Array.prototype.sort] returns (the insertion sort [sort_by], which
    is not code of the repository, meets it). *)

From stdpp Require Import base list strings.
From Stdlib Require Import Ascii ZArith.
From S2P Require Import Prelude JsString Json.

(** ** Characters and replacements *)

Definition amp : ascii := "&".
Definition nl : ascii := "010".


(** The lines of a template literal. *)
Definition lines (l : list string) : string := join nl l.

(** ** [escapeHtml] *)

(** The five replacements of [escapeHtml], in the order of the source. *)
Definition escape_replacements (text : string) : string :=
  replace_char sq "&#039;"
    (replace_char dq "&quot;"
      (replace_char ">" "&gt;"
        (replace_char "<" "&lt;"
          (replace_char amp "&amp;" text)))).

(** [escapeHtml(text)]: [String(text)] for a non-string, then the
    replacements. *)
Definition escapeHtml (text : jsval) : string := escape_replacements (to_js_string text).

(** The escape of one character, and of a string character by
    character: the reference [escapeHtml] is compared with. *)
Definition escape_char (c : ascii) : string :=
  if Ascii.eqb c amp then "&amp;"
  else if Ascii.eqb c "<" then "&lt;"
  else if Ascii.eqb c ">" then "&gt;"
  else if Ascii.eqb c dq then "&quot;"
  else if Ascii.eqb c sq then "&#039;"
  else String c EmptyString.

Fixpoint escape_ref (s : string) : string :=
  match s with
  | EmptyString => EmptyString
  | String c s' => escape_char c +:+ escape_ref s'
  end.

(** ** The device cards of [formatDeviceList] (index.js lines 36-64) *)

(** [<tag style="style">] *)
Definition open_tag (tag style : string) : string := "<" +:+ tag +:+ " style=" +:+ qt +:+ style +:+ qt +:+ ">".

(** [createCloseButton()] (lines 75-77) *)
Definition createCloseButton : string :=
  "<div><button id=" +:+ qt +:+ "closeUnifiButton" +:+ qt +:+ " class=" +:+ qt +:+ "device-button" +:+ qt
  +:+ ">Close</button></div>".

(** [obj.features.includes(deviceKind)]: an array of features or a
    string; [deviceKind] is [null] before any button was clicked. *)
Definition has_feature (kind : option string) (obj : json) : res bool :=
  match prop (Some obj) "features" with
  | Exc e => Exc e
  | Ok (Some (JArr fs)) =>
      Ok (bool_decide (match kind with Some k => JStr k | None => JNull end ∈ fs))
  | Ok (Some (JStr f)) =>
      Ok (str_includes (match kind with Some k => k | None => "null" end) f)
  | Ok None | Ok (Some JNull) => Exc (undefined_access "includes")
  | Ok _ => Exc (TypeError "obj.features.includes is not a function")
  end.

(** [if (obj.state) html += `<div><strong>State:</strong> ${escapeHtml(obj.state.toUpperCase())}</div>`] *)
Definition state_line (st : jsval) : res string :=
  if truthy st then
    match st with
    | Some (JStr s) => Ok ("<div><strong>State:</strong> " +:+ escapeHtml (Some (JStr (to_upper s))) +:+ "</div>")
    | _ => Exc (TypeError "obj.state.toUpperCase is not a function")
    end
  else Ok "".

(** [if (obj.f) html += `<div><strong>label:</strong> ${escapeHtml(obj.f)}</div>`] *)
Definition field_line (label : string) (v : jsval) : string :=
  if truthy v then "<div><strong>" +:+ label +:+ ":</strong> " +:+ escapeHtml v +:+ "</div>" else "".

Definition device_card_style : string :=
  "font-family: Arial, sans-serif; padding: 15px; background:rgb(255, 255, 255); border-radius: 8px; box-shadow: 0 2px 4px rgba(0,0,0,0.1); max-width: 300px;".

(** The body of [deviceList.forEach]: the card of a device of the kind,
    nothing for the others. *)
Definition device_card (kind : option string) (obj : json) : res string :=
  let? shown := has_feature kind obj in
  if shown then
    let? name := prop (Some obj) "name" in
    let? st := prop (Some obj) "state" in
    let? stl := state_line st in
    let? ip := prop (Some obj) "ipAddress" in
    let? mac := prop (Some obj) "macAddress" in
    Ok (open_tag "div" device_card_style +:+ "<strong>" +:+ to_js_string name +:+ "</strong>"
        +:+ stl +:+ field_line "IP address" ip +:+ field_line "MAC address" mac
        +:+ "</div>" +:+ "<br>")
  else Ok "".

Fixpoint device_list_html (kind : option string) (l : list json) : res string :=
  match l with
  | [] => Ok ""
  | obj :: l' =>
      let? c := device_card kind obj in
      let? rest := device_list_html kind l' in
      Ok (c +:+ rest)
  end.

(** The HTML [formatDeviceList] returns for the (sorted) list. *)
Definition formatDeviceList_html (kind : option string) (l : list json) : res string :=
  let? cards := device_list_html kind l in
  Ok (cards +:+ createCloseButton +:+ "<br>").

(** ** The comparator of [deviceList.sort] (index.js lines 39-45) *)

(** [(deviceObj.state || '').toUpperCase()] (lines 40-41). *)
Definition state_upper (deviceObj : json) : res string :=
  let? st := prop (Some deviceObj) "state" in
  if truthy st then
    match st with
    | Some (JStr s) => Ok (to_upper s)
    | _ => Exc (TypeError "(deviceObj.state || '').toUpperCase is not a function")
    end
  else Ok "".

(** The arrow function passed to [deviceList.sort]: devices of the same
    state by [deviceObj1.name.localeCompare(deviceObj2.name)], the
    argument converted by [String]; otherwise [-1] when the first is
    [OFFLINE] and [1] when it is not.  [localeCompare] is the engine's
    collation, a parameter. *)
Definition compare_devices (localeCompare : string -> string -> Z)
    (deviceObj1 deviceObj2 : json) : res Z :=
  let? stateA := state_upper deviceObj1 in
  let? stateB := state_upper deviceObj2 in
  if String.eqb stateA stateB then
    let? name1 := prop (Some deviceObj1) "name" in
    match name1 with
    | Some (JStr a) =>
        let? name2 := prop (Some deviceObj2) "name" in
        Ok (localeCompare a (to_js_string name2))
    | None | Some JNull => Exc (undefined_access "localeCompare")
    | Some _ => Exc (TypeError "deviceObj1.name.localeCompare is not a function")
    end
  else Ok (if String.eqb stateA "OFFLINE" then (-1)%Z else 1%Z).

(** A sort with a comparator that may throw: insertion sort, which
    stops at the first comparison that throws as [Array.prototype.sort]
    does.  The engine's algorithm is not code of this repository; this
    one only shows that the contract assumed of it can be met. *)
Fixpoint insert_by {A} (cmp : A -> A -> res Z) (x : A) (l : list A) : res (list A) :=
  match l with
  | [] => Ok [x]
  | y :: l' =>
      let? c := cmp x y in
      if Z.leb c 0 then Ok (x :: l) else let? r := insert_by cmp x l' in Ok (y :: r)
  end.

Fixpoint sort_by {A} (cmp : A -> A -> res Z) (l : list A) : res (list A) :=
  match l with
  | [] => Ok []
  | x :: l' => let? r := sort_by cmp l' in insert_by cmp x r
  end.

(** ** [formatOpManObjForDevicePanel] (index.js lines 110-121) *)

Definition formatOpManObjForDevicePanel (opManObj : jsval) : res string :=
  match opManObj with
  | None | Some JNull => Exc (TypeError "Cannot destructure opManObj as it is undefined or null")
  | Some _ =>
      let? displayName := prop opManObj "displayName" in
      let? ipaddress := prop opManObj "ipaddress" in
      Ok (lines
        [""; "    " +:+ open_tag "div" "font-family: Arial, sans-serif; padding: 8px; background: #f9f9f9; border-radius: 8px; box-shadow: 0 2px 4px rgba(0,0,0,0.1); max-width: 300px;";
         "      " +:+ open_tag "h3" "margin: 0 0 10px; font-size: 18px; color: #333; text-align: center;" +:+ "Firewall</h3>";
         "      <p><strong>Name:</strong> " +:+ to_js_string displayName +:+ "</p>";
         "      <p><strong>IP Address:</strong> " +:+ to_js_string ipaddress +:+ "</p>";
         "    </div>";
         "    <br>";
         "    <div><button id=" +:+ qt +:+ "closeUnifiButton" +:+ qt +:+ " class=" +:+ qt +:+ "device-button" +:+ qt +:+ ">Close</button></div>";
         "  "])
  end.

(** ** [formatOpManObject] and [formatUnifiDeviceList] *)

(** [Object.keys(fieldMap).reduce((obj, key) => { if (jsonObject[key] !== undefined)
    obj[fieldMap[key]] = jsonObject[key]; return obj; }, {})], then
    [Object.entries]: the renamed fields that are defined, in the order
    of [fieldMap] (no renamed key is an array index). *)
Fixpoint filter_fields (fieldMap : list (string * string)) (o : jsval) : res (list (string * json)) :=
  match fieldMap with
  | [] => Ok []
  | (key, renamed) :: fm =>
      let? v := prop o key in
      let? rest := filter_fields fm o in
      Ok (match v with Some x => (renamed, x) :: rest | None => rest end)
  end.

(** One entry of the firewall card: the status in green when it is
    ["Clear"], in red otherwise, other fields in grey. *)
Definition opman_entry (strong_style : string) (kv : string * json) : string :=
  let '(key, value) := kv in
  let isStatus := String.eqb key "status" in
  let color := if isStatus && bool_decide (value = JStr "Clear") then "green"
               else if isStatus then "red" else "#333" in
  lines [""; "      " +:+ open_tag "div" "display: flex; justify-content: space-between; margin-bottom: 8px;";
         "        " +:+ open_tag "strong" strong_style +:+ key +:+ ":</strong>";
         "        " +:+ open_tag "span" ("color: " +:+ color +:+ ";") +:+ to_js_string (Some value) +:+ "</span>";
         "      </div>";
         "    "].

Definition opman_card (card_style strong_style : string) (fieldMap : list (string * string))
    (jsonObject : jsval) : res string :=
  let? entries := filter_fields fieldMap jsonObject in
  Ok (lines [""; "    " +:+ open_tag "div" card_style;
             "      " +:+ open_tag "h3" "margin: 0 0 10px; font-size: 18px; color: #333;" +:+ "Firewall</h3>";
             "  "]
      +:+ String.concat "" (map (opman_entry strong_style) entries) +:+ "</div>").

(** [formatOpManObject] of index.js (lines 79-108), for the info window. *)
Definition formatOpManObject_info (jsonObject : jsval) : res string :=
  opman_card "font-family: Arial, sans-serif; padding: 15px; background: #f9f9f9; border-radius: 8px; box-shadow: 0 2px 4px rgba(0,0,0,0.1); max-width: 300px;"
    "color: #555; text-transform: capitalize;" [("statusStr", "status")] jsonObject.

(** [formatOpManObject] of notificationMenu.js (lines 87-119), for the
    notification modal. *)
Definition formatOpManObject (jsonObject : jsval) : res string :=
  opman_card "font-family: Arial, sans-serif; padding: 15px; background:rgb(240, 174, 174); border-radius: 8px; box-shadow: 0 2px 4px rgba(0,0,0,0.1); max-width: 300px;"
    "color: rgb(0, 0, 0); text-transform: capitalize;"
    [("statusStr", "status"); ("displayName", "name"); ("ipaddress", "IP address")] jsonObject.

(** The card of one device in [formatUnifiDeviceList]. *)
Definition unifi_device_card (jsonObject : json) : res string :=
  let? name := prop (Some jsonObject) "name" in
  let? entries := filter_fields [("model", "Model"); ("macAddress", "MAC Address");
                                 ("ipAddress", "IP Address"); ("state", "State")] (Some jsonObject) in
  Ok (open_tag "div" "font-family: Arial, sans-serif; font-size: 14px; padding: 15px; background:rgb(244, 247, 171); border-radius: 8px; box-shadow: 0 2px 4px rgba(0,0,0,0.1); max-width: 300px;"
      +:+ "<strong>" +:+ to_js_string name +:+ "</strong>"
      +:+ String.concat "" (map (fun '(key, value) =>
                         if bool_decide (key ∉ ["id"; "name"; "features"; "interfaces"])
                         then "<div><strong>" +:+ key +:+ ":</strong> " +:+ escapeHtml (Some value) +:+ "</div>"
                         else "") entries)
      +:+ "</div>" +:+ "<br>").

(** [formatUnifiDeviceList(deviceList)] (notificationMenu.js lines 122-157) *)
Fixpoint formatUnifiDeviceList (deviceList : list json) : res string :=
  match deviceList with
  | [] => Ok ""
  | d :: ds =>
      let? c := unifi_device_card d in
      let? rest := formatUnifiDeviceList ds in
      Ok (c +:+ rest)
  end.

(** ** [colorStatus] (DevicePanel.js lines 14-18) *)

(** [s.replace(/\bw\b/g, r)] for a word [w] of word characters: from
    left to right, an occurrence of [w] with no word character just
    before or after it is replaced; [skip] counts the characters of a
    replaced occurrence still to pass, [prev_word] whether the previous
    character is a word character. *)
Fixpoint replace_word_go (w r : string) (skip : nat) (prev_word : bool) (s : string) : string :=
  match s with
  | EmptyString => EmptyString
  | String c s' =>
      match skip with
      | S k => replace_word_go w r k (is_word_char c) s'
      | O =>
          if negb prev_word && String.prefix w s && negb (starts_with_word (str_drop (String.length w) s))
          then r +:+ replace_word_go w r (String.length w - 1) (is_word_char c) s'
          else String c (replace_word_go w r 0 (is_word_char c) s')
      end
  end.

Definition replace_word (w r : string) (s : string) : string := replace_word_go w r 0 false s.

(** [colorStatus(htmlString)] *)
Definition colorStatus (htmlString : string) : string :=
  replace_word "ONLINE" ("<span style=" +:+ qt +:+ "color: green;" +:+ qt +:+ ">ONLINE</span>")
    (replace_word "OFFLINE" ("<span style=" +:+ qt +:+ "color: red;" +:+ qt +:+ ">OFFLINE</span>") htmlString).

(** The character an entity at the head of a string stands for, with
    the rest of the string. *)
Definition entity_prefix (s : string) : option (ascii * string) :=
  match s with
  | String "&" (String "a" (String "m" (String "p" (String ";" r)))) => Some (amp, r)
  | String "&" (String "l" (String "t" (String ";" r))) => Some ("<"%char, r)
  | String "&" (String "g" (String "t" (String ";" r))) => Some (">"%char, r)
  | String "&" (String "q" (String "u" (String "o" (String "t" (String ";" r))))) => Some (dq, r)
  | String "&" (String "#" (String "0" (String "3" (String "9" (String ";" r))))) => Some (sq, r)
  | _ => None
  end.

(** [&quot;] and the other entities decoded, the inverse of the escape.
    The fuel is the length of the text: each step consumes a character. *)
Fixpoint unescape_fuel (n : nat) (s : string) : string :=
  match n with
  | O => s
  | S n' =>
      match entity_prefix s with
      | Some (c, r) => String c (unescape_fuel n' r)
      | None => match s with
                | EmptyString => EmptyString
                | String c r => String c (unescape_fuel n' r)
                end
      end
  end.

Definition unescapeHtml (s : string) : string := unescape_fuel (String.length s) s.

(** ** Lemmas on the escape *)



Lemma escape_replacements_app a b :
  escape_replacements (a +:+ b) = escape_replacements a +:+ escape_replacements b.
Proof. unfold escape_replacements. by rewrite !replace_char_app. Qed.

Lemma escape_replacements_char c : escape_replacements (String c EmptyString) = escape_char c.
Proof. ascii_cases c; reflexivity. Qed.

Lemma escape_char_safe c x :
  c ∈ ["<"%char; ">"%char; dq; sq] -> str_has c (escape_char x) = false.
Proof.
  intros Hc. repeat (apply elem_of_cons in Hc as [->|Hc]; [ascii_cases x; reflexivity|]).
  by apply elem_of_nil in Hc.
Qed.

Lemma escape_char_length c : 1 <= String.length (escape_char c).
Proof. ascii_cases c; cbv; lia. Qed.

Lemma unescape_escape_char n c t :
  unescape_fuel (S n) (escape_char c +:+ t) = String c (unescape_fuel n t).
Proof. ascii_cases c; reflexivity. Qed.

Lemma escape_ref_length s : String.length s <= String.length (escape_ref s).
Proof.
  induction s as [|c s IH]; [done|]. cbn [escape_ref]. rewrite string_length_app.
  pose proof (escape_char_length c). simpl. lia.
Qed.

Lemma unescape_fuel_escape_ref n s :
  String.length s <= n -> unescape_fuel n (escape_ref s) = s.
Proof.
  revert n. induction s as [|c s IH]; intros n Hn.
  - by destruct n.
  - destruct n as [|n]; [simpl in Hn; lia|]. cbn [escape_ref].
    rewrite unescape_escape_char, IH; [done|]. simpl in Hn. lia.
Qed.

Lemma escape_replacements_ref s : escape_replacements s = escape_ref s.
Proof.
  induction s as [|c s IH]; [done|].
  change (String c s) with (String c EmptyString +:+ s).
  by rewrite escape_replacements_app, escape_replacements_char, IH.
Qed.

Lemma escape_ref_safe c s :
  c ∈ ["<"%char; ">"%char; dq; sq] -> str_has c (escape_ref s) = false.
Proof.
  intros Hc. induction s as [|x s IH]; [done|]. cbn [escape_ref].
  by rewrite str_has_app, escape_char_safe, IH.
Qed.

(** ** Lemmas on the cards *)

Lemma str_prefix_app x post : String.prefix x (x +:+ post) = true.
Proof. induction x as [|c x IH]; [by destruct post|]. simpl. by destruct (Ascii.ascii_dec c c). Qed.

Lemma str_prefix_app_r x a b : String.prefix x a = true -> String.prefix x (a +:+ b) = true.
Proof.
  revert a. induction x as [|d x IH]; intros a Hp; [by destruct (a +:+ b)|].
  destruct a as [|c a]; [done|]. simpl in *. destruct (Ascii.ascii_dec d c); [by apply IH|done].
Qed.

Lemma str_includes_app_l needle a b :
  str_includes needle a = true -> str_includes needle (a +:+ b) = true.
Proof.
  induction a as [|c a IH]; simpl.
  - destruct needle; [|done]. intros _. by destruct b.
  - intros [Hp|Hi]%orb_true_iff; apply orb_true_iff.
    + left. by apply (str_prefix_app_r needle (String c a)).
    + right. by apply IH.
Qed.

Lemma str_includes_middle needle pre post : str_includes needle (pre +:+ needle +:+ post) = true.
Proof. apply str_includes_app_r, str_includes_prefix, str_prefix_app. Qed.

Lemma str_includes_middle3 a b c pre post :
  str_includes (a +:+ b +:+ c) (pre +:+ a +:+ b +:+ c +:+ post) = true.
Proof.
  rewrite <- (string_app_assoc b c post), <- (string_app_assoc a (b +:+ c) post).
  apply str_includes_middle.
Qed.

Lemma prop_defined d k k' v : prop (Some d) k = Ok v -> exists v', prop (Some d) k' = Ok v'.
Proof. destruct d; simpl; try done; eauto. Qed.

Lemma device_list_html_cons_ok kind obj l html :
  device_list_html kind (obj :: l) = Ok html ->
  exists c rest, device_card kind obj = Ok c /\ device_list_html kind l = Ok rest /\ html = c +:+ rest.
Proof.
  cbn [device_list_html]. unfold res_bind at 1.
  destruct (device_card kind obj) as [c|e]; [|done]. unfold res_bind.
  destruct (device_list_html kind l) as [rest|e]; [|done]. intros [= <-]. eauto.
Qed.

(** A shown device's card has its name between [<strong>] tags, as it is. *)
Lemma device_card_name kind obj n c :
  has_feature kind obj = Ok true -> prop (Some obj) "name" = Ok (Some (JStr n)) ->
  device_card kind obj = Ok c -> str_includes ("<strong>" +:+ n +:+ "</strong>") c = true.
Proof.
  intros Hf Hn. unfold device_card. rewrite Hf. cbn [res_bind]. rewrite Hn. cbn [res_bind].
  destruct (prop (Some obj) "state"); [|done]. cbn [res_bind].
  destruct (state_line _); [|done]. cbn [res_bind].
  destruct (prop (Some obj) "ipAddress"); [|done]. cbn [res_bind].
  destruct (prop (Some obj) "macAddress"); [|done]. cbn [res_bind]. intros [= <-].
  apply str_includes_middle3.
Qed.

Lemma replace_word_go_plain w r pw s :
  str_includes w s = false -> replace_word_go w r 0 pw s = s.
Proof.
  revert pw. induction s as [|c s IH]; intros pw Hs; [done|].
  assert (Hp : String.prefix w (String c s) = false /\ str_includes w s = false).
  { simpl in Hs. apply orb_false_iff in Hs as [Hp Hs]. split; [done|]. destruct s; [|done].
    destruct w; done. }
  destruct Hp as [Hp Hs']. cbn [replace_word_go]. rewrite Hp, andb_false_r. cbn. by rewrite IH.
Qed.

(** The devices whose card [formatDeviceList] can build: features an
    array or a string, a state that is a string or falsy. *)
Definition device_wf (d : json) : bool :=
  match prop (Some d) "features", prop (Some d) "state" with
  | Ok (Some (JArr _)), Ok st | Ok (Some (JStr _)), Ok st =>
      match st with Some (JStr _) => true | _ => negb (truthy st) end
  | _, _ => false
  end.

Lemma device_card_total kind obj : device_wf obj = true -> exists c, device_card kind obj = Ok c.
Proof.
  unfold device_wf, device_card, has_feature. intros Hwf.
  destruct (prop (Some obj) "features") as [f|e] eqn:Ef; [|done].
  destruct (prop_defined obj "features" "name" f Ef) as [nm ->].
  destruct (prop_defined obj "features" "ipAddress" f Ef) as [ip ->].
  destruct (prop_defined obj "features" "macAddress" f Ef) as [mac ->].
  destruct (prop (Some obj) "state") as [st|e] eqn:Es; [|by destruct f as [[]|]].
  assert (exists l, state_line st = Ok l) as [l Hl].
  { unfold state_line. destruct f as [[]|]; try done; destruct st as [[]|]; cbn in *;
      repeat case_match; simplify_eq; eauto. }
  destruct f as [[]|]; try done; cbn [res_bind];
    [destruct (str_includes _ _) | destruct (bool_decide _)];
    cbn [res_bind]; try rewrite Hl; cbn [res_bind]; eauto.
Qed.

(** Devices that [deviceList.sort] can order: devices whose card can be
    built, with a string [name]. *)
Definition device_sortable (d : json) : bool :=
  device_wf d && match prop (Some d) "name" with Ok (Some (JStr _)) => true | _ => false end.

(** What [Array.prototype.sort] with a comparator promises: when the
    comparator returns on every pair of elements, the sort returns a
    permutation of the array. *)
Definition sort_contract (sort : list json -> res (list json)) (cmp : json -> json -> res Z) : Prop :=
  forall ys, (forall a b, a ∈ ys -> b ∈ ys -> exists z, cmp a b = Ok z) ->
  exists zs, sort ys = Ok zs /\ zs ≡ₚ ys.

Lemma state_upper_wf d : device_wf d = true -> exists st, state_upper d = Ok st.
Proof.
  unfold device_wf, state_upper. intros H.
  destruct (prop (Some d) "state") as [st|e] eqn:E; cbn [res_bind];
    destruct (prop (Some d) "features") as [[[]|]|]; try done;
    destruct st as [[]|]; cbn in *; repeat case_match; simplify_eq; eauto.
Qed.

Lemma compare_devices_sortable lc a b :
  device_sortable a = true -> device_sortable b = true -> exists z, compare_devices lc a b = Ok z.
Proof.
  unfold device_sortable. intros [Ha Hna]%andb_true_iff [Hb Hnb]%andb_true_iff.
  destruct (state_upper_wf a Ha) as [sa Ea], (state_upper_wf b Hb) as [sb Eb].
  unfold compare_devices. rewrite Ea, Eb. cbn [res_bind].
  destruct (prop (Some a) "name") as [[[]|]|]; try done.
  destruct (prop (Some b) "name") as [[[]|]|]; try done; cbn [res_bind]; case_match; eauto.
Qed.

Lemma insert_by_contract {A} (cmp : A -> A -> res Z) x l :
  (forall y, y ∈ l -> exists z, cmp x y = Ok z) -> exists r, insert_by cmp x l = Ok r /\ r ≡ₚ x :: l.
Proof.
  induction l as [|y l IH]; intros H; [by eexists|].
  destruct (H y (list_elem_of_here _ _)) as [c Hc]. cbn [insert_by]. rewrite Hc. cbn [res_bind].
  case_match; [by eexists|].
  destruct IH as [r [-> Hr]]; [intros; apply H; by apply list_elem_of_further|].
  eexists. split; [reflexivity|]. rewrite Hr. apply perm_swap.
Qed.

Lemma sort_by_contract cmp : sort_contract (sort_by cmp) cmp.
Proof.
  intros ys. induction ys as [|x ys IH]; intros H; [by eexists|].
  destruct IH as [r [Er Hr]]; [intros; apply H; by apply list_elem_of_further|].
  cbn [sort_by]. rewrite Er. cbn [res_bind].
  destruct (insert_by_contract cmp x r) as [r' [-> Hr']].
  - intros y Hy. apply H; [apply list_elem_of_here|]. apply list_elem_of_further. by rewrite <- Hr.
  - eexists. split; [reflexivity|]. by rewrite Hr', Hr.
Qed.

(** Every card of a list of well-formed devices is built. *)
Lemma device_list_html_total kind l :
  forallb device_wf l = true -> exists html, formatDeviceList_html kind l = Ok html.
Proof.
  intros Hl. cut (exists cards, device_list_html kind l = Ok cards).
  { intros [cards Hc]. unfold formatDeviceList_html. rewrite Hc. eauto. }
  induction l as [|o l IH]; [eauto|]. apply andb_true_iff in Hl as [Ho Hl].
  destruct (device_card_total kind o Ho) as [c Hc]. destruct (IH Hl) as [r Hr].
  cbn [device_list_html]. rewrite Hc. cbn [res_bind]. rewrite Hr. eauto.
Qed.

Lemma formatOpManObject_nonempty v h : formatOpManObject v = Ok h -> h <> EmptyString.
Proof.
  unfold formatOpManObject, opman_card. destruct (filter_fields _ v); [|done].
  cbn [res_bind]. intros [= <-]. discriminate.
Qed.

(** ** Theorems *)

(** C26: [escapeHtml], a chain of five global replacements applied one
    after the other, equals the escape of the text character by
    character: no replacement rewrites what an earlier one inserted. *)
Theorem escapeHtml_equiv v : escapeHtml v = escape_ref (to_js_string v).
Proof. apply escape_replacements_ref. Qed.

(** C27: The output of [escapeHtml] contains no [<], [>], double or
    single quote, whatever the value. *)
Theorem escapeHtml_no_markup v c :
  c ∈ ["<"%char; ">"%char; dq; sq] -> str_has c (escapeHtml v) = false.
Proof. intros Hc. unfold escapeHtml. rewrite escape_replacements_ref. by apply escape_ref_safe. Qed.

(** C28: Round trip: decoding the entities of [escapeHtml]'s output
    gives back the text, so the escape loses nothing. *)
Theorem escapeHtml_roundtrip v : unescapeHtml (escapeHtml v) = to_js_string v.
Proof.
  unfold unescapeHtml, escapeHtml. rewrite escape_replacements_ref.
  apply unescape_fuel_escape_ref, escape_ref_length.
Qed.

(** C29: [formatDeviceList] inserts a shown device's name into the
    panel's HTML as it is, between [<strong>] tags, unlike its state,
    IP and MAC address: markup in a device name reaches [innerHTML]. *)
Theorem formatDeviceList_name_unescaped kind l obj n html :
  obj ∈ l -> has_feature kind obj = Ok true -> prop (Some obj) "name" = Ok (Some (JStr n)) ->
  formatDeviceList_html kind l = Ok html ->
  str_includes ("<strong>" +:+ n +:+ "</strong>") html = true.
Proof.
  intros Hin Hf Hn. unfold formatDeviceList_html.
  destruct (device_list_html kind l) as [cards|e] eqn:E; [|done]. cbn [res_bind]. intros [= <-].
  apply str_includes_app_l. revert cards E.
  induction l as [|o l IH]; intros cards E; [by apply elem_of_nil in Hin|].
  destruct (device_list_html_cons_ok kind o l cards E) as (c & rest & Hc & Hr & ->).
  apply elem_of_cons in Hin as [->|Hin].
  - apply str_includes_app_l. by eapply device_card_name.
  - apply str_includes_app_r. by apply IH.
Qed.

(** C15: The comparator that [formatDeviceList] passes to
    [deviceList.sort] throws a [TypeError] on two devices of the same
    state when the first has no string [name] (no name, [null], a number,
    an object): [deviceObj1.name.localeCompare] is read from [undefined]
    or [null], or is not a function.  A sort stops at a comparison that
    throws, so the device panel of a site with two such devices is not
    built. *)
Theorem compare_devices_unnamed lc d1 d2 st :
  state_upper d1 = Ok st -> state_upper d2 = Ok st ->
  (forall n, prop (Some d1) "name" <> Ok (Some (JStr n))) ->
  exists msg, compare_devices lc d1 d2 = Exc (TypeError msg).
Proof.
  intros H1 H2 Hn. unfold compare_devices. rewrite H1, H2. cbn [res_bind].
  rewrite String.eqb_refl.
  assert (Hs : exists v, prop (Some d1) "state" = Ok v).
  { unfold state_upper in H1. destruct (prop (Some d1) "state"); [eauto|done]. }
  destruct Hs as [v Hv]. destruct (prop_defined d1 "state" "name" v Hv) as [[[]|] Hname];
    rewrite Hname; cbn [res_bind]; try (by eexists); by edestruct Hn.
Qed.

(** [colorStatus] leaves a text in which neither [OFFLINE] nor
    [ONLINE] occurs as it is. *)
Theorem colorStatus_plain s :
  str_includes "OFFLINE" s = false -> str_includes "ONLINE" s = false -> colorStatus s = s.
Proof.
  intros H1 H2. unfold colorStatus, replace_word.
  by rewrite (replace_word_go_plain "OFFLINE"), (replace_word_go_plain "ONLINE").
Qed.

(** ** Examples *)

Lemma escapeHtml_no_markup_witness :
  str_has "<" (escapeHtml (Some (JStr "<img src=x onerror=alert(1)>"))) = false.
Proof. apply escapeHtml_no_markup. left. Defined.

Lemma formatDeviceList_name_unescaped_witness :
  exists html,
    formatDeviceList_html (Some "switching")
      [JObj [("name", JStr "<img src=x onerror=alert(1)>"); ("state", JStr "online");
             ("features", JArr [JStr "switching"])]] = Ok html /\
    str_includes ("<strong>" +:+ "<img src=x onerror=alert(1)>" +:+ "</strong>") html = true.
Proof.
  eexists. split; [reflexivity|].
  apply (formatDeviceList_name_unescaped (Some "switching")
           [JObj [("name", JStr "<img src=x onerror=alert(1)>"); ("state", JStr "online");
                  ("features", JArr [JStr "switching"])]]
           (JObj [("name", JStr "<img src=x onerror=alert(1)>"); ("state", JStr "online");
                  ("features", JArr [JStr "switching"])])); [left|reflexivity..].
Defined.

(** Two UniFi access points, online, that the controller lists without
    a name. *)
Lemma compare_devices_unnamed_witness :
  exists msg, compare_devices (fun _ _ => 0%Z)
    (JObj [("state", JStr "online"); ("features", JArr [JStr "accessPoint"])])
    (JObj [("state", JStr "ONLINE"); ("features", JArr [JStr "accessPoint"])]) = Exc (TypeError msg).
Proof. apply (compare_devices_unnamed _ _ _ "ONLINE"); [reflexivity|reflexivity|discriminate]. Defined.

Lemma colorStatus_plain_witness :
  colorStatus "<div><strong>State:</strong> DEGRADED</div>" = "<div><strong>State:</strong> DEGRADED</div>".
Proof. apply colorStatus_plain; reflexivity. Defined.
