(* ===== verification/JsMap.v ===== *)
(** * JsMap: the JavaScript [Map]

    A [Map] keeps its entries in insertion order; [set] on a present key
    replaces the value in place, on a new key appends the entry; [get]
    returns [undefined] ([None]) for an absent key.  The model is that
    association list ([jsmap]) with [jm_get] and [jm_set]; the keys
    compare with a decidable equality, which is [SameValueZero] on the
    primitive keys the program uses (strings, [undefined]).

    Two maps with the same lookups are equivalent ([jm_equiv]); [jm_get]
    and [jm_set] respect it, so lemmas about lookups can be rewritten
    under it.  The other lemmas give the lookup of a [set], that the keys
    stay duplicate-free and only grow, and the construction of a map by
    a sequence of [set]s. *)

From stdpp Require Import base list.
From S2P Require Import Prelude.

Definition jsmap (K V : Type) : Type := list (K * V).

Section JsMap.
Context {K V : Type} `{EqDecision K}.

(** [m.get(k)] *)
Fixpoint jm_get (m : jsmap K V) (k : K) : option V :=
  match m with
  | [] => None
  | (k', v) :: m' => if decide (k = k') then Some v else jm_get m' k
  end.

(** [m.set(k, v)] *)
Fixpoint jm_set (m : jsmap K V) (k : K) (v : V) : jsmap K V :=
  match m with
  | [] => [(k, v)]
  | (k', v') :: m' =>
      if decide (k = k') then (k', v) :: m' else (k', v') :: jm_set m' k v
  end.

(** [m.has(k)] *)
Definition jm_has (m : jsmap K V) (k : K) : bool :=
  match jm_get m k with Some _ => true | None => false end.

Definition jm_keys (m : jsmap K V) : list K := map fst m.

(** [new Map(); for (x of l) m.set(key(x), val(x))] *)
Definition jm_of_list (l : list (K * V)) : jsmap K V :=
  fold_left (fun m kv => jm_set m kv.1 kv.2) l [].

Lemma jm_get_set_eq m k v : jm_get (jm_set m k v) k = Some v.
Proof.
  induction m as [|[k' v'] m IH]; simpl; [by rewrite decide_True|].
  destruct (decide (k = k')) as [->|Hne]; simpl; [by rewrite decide_True|].
  by rewrite decide_False.
Qed.

Lemma jm_get_set_ne m k k' v : k <> k' -> jm_get (jm_set m k v) k' = jm_get m k'.
Proof.
  intros Hne. induction m as [|[k0 v0] m IH]; simpl.
  - by rewrite decide_False.
  - destruct (decide (k = k0)) as [->|Hk]; simpl.
    + by destruct (decide (k' = k0)) as [->|]; [congruence|].
    + by destruct (decide (k' = k0)).
Qed.

Lemma jm_get_set m k k' v :
  jm_get (jm_set m k v) k' = if decide (k' = k) then Some v else jm_get m k'.
Proof.
  destruct (decide (k' = k)) as [->|Hne]; [apply jm_get_set_eq|].
  apply jm_get_set_ne. congruence.
Qed.

Lemma jm_get_in m k v : jm_get m k = Some v -> k ∈ jm_keys m.
Proof.
  induction m as [|[k' v'] m IH]; simpl; [done|].
  destruct (decide (k = k')) as [->|]; intros Hg; [by left|]. right. by apply IH.
Qed.

Lemma jm_get_not_in m k : k ∉ jm_keys m -> jm_get m k = None.
Proof. destruct (jm_get m k) eqn:E; [|done]. intros Hn. by apply jm_get_in in E. Qed.

(** The keys after a [set]: unchanged for a present key, the new key
    appended otherwise. *)
Lemma jm_keys_set m k v :
  jm_keys (jm_set m k v) = if decide (k ∈ jm_keys m) then jm_keys m else jm_keys m ++ [k].
Proof.
  induction m as [|[k' v'] m IH]; cbn [jm_set jm_keys map fst].
  - destruct (decide (k ∈ [])) as [Hk|]; [by apply elem_of_nil in Hk|done].
  - destruct (decide (k = k')) as [->|Hne]; cbn [jm_keys map fst].
    + destruct (decide (k' ∈ k' :: map fst m)) as [|Hn]; [done|]. exfalso. apply Hn. apply elem_of_cons. by left.
    + fold (jm_keys m). fold (jm_keys (jm_set m k v)). rewrite IH.
      destruct (decide (k ∈ jm_keys m)) as [Hin|Hin];
        destruct (decide (k ∈ k' :: jm_keys m)) as [Hin'|Hin']; [done| | |done].
      * exfalso. apply Hin'. apply elem_of_cons. by right.
      * apply elem_of_cons in Hin' as [->|]; congruence.
Qed.

Lemma jm_keys_set_incl m k v k' : k' ∈ jm_keys m -> k' ∈ jm_keys (jm_set m k v).
Proof.
  rewrite jm_keys_set. destruct (decide _); [done|]. intros Hk. apply elem_of_app. by left.
Qed.

Lemma jm_keys_set_nodup m k v : NoDup (jm_keys m) -> NoDup (jm_keys (jm_set m k v)).
Proof.
  intros Hnd. rewrite jm_keys_set. destruct (decide _) as [|Hin]; [done|].
  apply NoDup_app. split_and!; [done| |by apply NoDup_singleton].
  intros x Hx ->%list_elem_of_singleton. contradiction.
Qed.

(** Setting a new key appends it. *)
Lemma jm_set_fresh m k v : k ∉ jm_keys m -> jm_set m k v = m ++ [(k, v)].
Proof.
  induction m as [|[k' v'] m IH]; [done|]. cbn [jm_set jm_keys map fst app]. intros Hk.
  rewrite decide_False by (intros ->; apply Hk, elem_of_cons; by left).
  rewrite IH; [done|]. intros Hin. apply Hk, elem_of_cons. by right.
Qed.

Lemma jm_length_set m k v : length (jm_set m k v) = length m + (if jm_has m k then 0 else 1).
Proof.
  unfold jm_has. induction m as [|[k' v'] m IH]; simpl; [done|].
  destruct (decide (k = k')); simpl; [lia|]. rewrite IH. done.
Qed.

Lemma jm_has_set_incl m k k' v : jm_has m k = true -> jm_has (jm_set m k' v) k = true.
Proof.
  unfold jm_has. rewrite jm_get_set. destruct (decide (k = k')); [done|]. done.
Qed.

(** Setting a key to the value it has changes nothing. *)
Lemma jm_set_get_id m k v : jm_get m k = Some v -> jm_set m k v = m.
Proof.
  induction m as [|[k' v'] m IH]; simpl; [done|].
  destruct (decide (k = k')) as [->|]; intros Hg; [congruence|]. by rewrite IH.
Qed.

Lemma jm_set_set m k v w : jm_set (jm_set m k v) k w = jm_set m k w.
Proof.
  induction m as [|[k' v'] m IH]; simpl.
  - by rewrite decide_True.
  - destruct (decide (k = k')) as [->|Hne]; simpl.
    + by rewrite decide_True.
    + rewrite decide_False by done. by rewrite IH.
Qed.

(** ** Equivalence: same lookups *)

Definition jm_equiv (m1 m2 : jsmap K V) : Prop := forall k, jm_get m1 k = jm_get m2 k.

#[global] Instance jm_equiv_equivalence : Equivalence jm_equiv.
Proof.
  split.
  - by intros m k.
  - intros m1 m2 H k. by rewrite H.
  - intros m1 m2 m3 H1 H2 k. by rewrite H1, H2.
Qed.

#[global] Instance jm_get_proper : Proper (jm_equiv ==> eq ==> eq) jm_get.
Proof. intros m1 m2 Hm k ? <-. apply Hm. Qed.

#[global] Instance jm_set_proper : Proper (jm_equiv ==> eq ==> eq ==> jm_equiv) jm_set.
Proof. intros m1 m2 Hm k ? <- v ? <- k'. rewrite !jm_get_set. by rewrite Hm. Qed.

#[global] Instance jm_has_proper : Proper (jm_equiv ==> eq ==> eq) jm_has.
Proof. intros m1 m2 Hm k ? <-. unfold jm_has. by rewrite Hm. Qed.

(** Setting two different keys commutes up to equivalence (not up to
    equality: the insertion order differs). *)
Lemma jm_set_comm m k1 v1 k2 v2 :
  k1 <> k2 -> jm_equiv (jm_set (jm_set m k1 v1) k2 v2) (jm_set (jm_set m k2 v2) k1 v1).
Proof.
  intros Hne. unfold jm_equiv. intros k. rewrite !jm_get_set.
  destruct (decide (k = k2)) as [H2|]; destruct (decide (k = k1)) as [H1|]; subst; congruence.
Qed.

(** ** Maps built by a sequence of [set]s *)

(** The value of [k] is the last one set for it. *)
Fixpoint last_value (k : K) (l : list (K * V)) : option V :=
  match l with
  | [] => None
  | (k', v) :: l' =>
      match last_value k l' with
      | Some w => Some w
      | None => if decide (k = k') then Some v else None
      end
  end.

Lemma jm_get_fold_set m l k :
  jm_get (fold_left (fun m kv => jm_set m kv.1 kv.2) l m) k =
    match last_value k l with Some v => Some v | None => jm_get m k end.
Proof.
  revert m. induction l as [|[k' v] l IH]; intros m; simpl; [done|].
  rewrite IH. destruct (last_value k l); [done|].
  rewrite jm_get_set. by destruct (decide (k = k')).
Qed.

Lemma last_value_in k v l : last_value k l = Some v -> (k, v) ∈ l.
Proof.
  induction l as [|[k' w] l IH]; simpl; [done|].
  destruct (last_value k l) as [u|]; intros H.
  - injection H as ->. apply elem_of_cons. right. by apply IH.
  - destruct (decide (k = k')) as [->|]; [|done]. injection H as ->. by left.
Qed.

Lemma jm_get_of_list l k : jm_get (jm_of_list l) k = last_value k l.
Proof. unfold jm_of_list. rewrite jm_get_fold_set. by destruct (last_value k l). Qed.
End JsMap.

Arguments jsmap : clear implicits.

#[export] Hint Rewrite @jm_get_set_eq @jm_get_of_list : js_rw.
#[export] Hint Resolve jm_keys_set_incl jm_keys_set_nodup jm_has_set_incl : js.
