(* ===== verification/Config.v ===== *)
(** * Config: the [key:value] configuration files of [server.js]

    [createMap] (server.js, lines 87-97) reads a file of lines
    [key:value] into a [Map]: each line is split at every [':'], the
    pieces are trimmed, the first two are the key and the value, and the
    pair is set when both are non-empty.  The server builds three maps
    this way at start-up ([apiKeyMap], [siteFirewallMap],
    [unifiLocationsMap]) and never changes them; [server_config] gathers
    them with the site list.

    The theorems: the value of a key is the value of the last
    well-formed line for it; every key and value is non-empty, trimmed
    and free of [':'] and line breaks, so a value that contains a [':']
    is cut at it; and a table printed as [key:value] lines is read back
    as it was. *)

From stdpp Require Import base list strings sets.
From Stdlib Require Import Ascii.
From S2P Require Import Prelude JsString Json JsMap.

Definition colon : ascii := ":".
Definition newline : ascii := "010".

(** [const [key, value] = line.split(':').map(str => str.trim());
     if (key && value) { ... }] *)
Definition parse_line (line : string) : option (string * string) :=
  match map trim (split_on colon line) with
  | key :: value :: _ =>
      if decide (key <> "" /\ value <> "") then Some (key, value) else None
  | _ => None
  end.

(** The body of the [forEach]: [map.set(key, value)] on a well-formed
    line. *)
Definition createMap_line (m : jsmap string string) (line : string) : jsmap string string :=
  match parse_line line with
  | Some (key, value) => jm_set m key value
  | None => m
  end.

(** [createMap(filepath)], given the contents of the file. *)
Definition createMap (content : string) : jsmap string string :=
  fold_left createMap_line (split_on newline content) [].

(** The start-up configuration of the server (server.js, lines 14-18):
    the three maps and the site list of [buildLocationsArray], which is
    taken as already parsed. *)
Record server_config := {
  apiKeyMap : jsmap string string;
  siteFirewallMap : jsmap string string;
  unifiLocationsMap : jsmap string string;
  locations : list json;
}.

Definition load_config (keys firewalls unifi_names : string) (sites : list json) : server_config :=
  {| apiKeyMap := createMap keys;
     siteFirewallMap := createMap firewalls;
     unifiLocationsMap := createMap unifi_names;
     locations := sites |}.

(** ** What [createMap] reads *)

(** A key or value as [createMap] can store it. *)
Definition wf_field (s : string) : Prop :=
  s <> "" /\ trim s = s /\ str_has colon s = false /\ str_has newline s = false.

Lemma createMap_as_fold content :
  createMap content = jm_of_list (omap parse_line (split_on newline content)).
Proof.
  unfold createMap, jm_of_list. generalize (@nil (string * string)).
  induction (split_on newline content) as [|l ls IH]; intros m; simpl; [done|].
  unfold createMap_line. destruct (parse_line l) as [[k v]|]; simpl; apply IH.
Qed.

Lemma parse_line_some line k v :
  parse_line line = Some (k, v) -> str_has newline line = false ->
  wf_field k /\ wf_field v.
Proof.
  unfold parse_line. intros H Hnl.
  destruct (split_on colon line) as [|p1 [|p2 ps]] eqn:Hs; simpl in H; try done.
  destruct (decide _) as [[Hk Hv]|]; [|done]. injection H as <- <-.
  assert (Hin1 : p1 ∈ split_on colon line) by (rewrite Hs; set_solver).
  assert (Hin2 : p2 ∈ split_on colon line) by (rewrite Hs; set_solver).
  unfold wf_field. rewrite !trim_idem.
  split_and!; try done; apply str_has_trim_false;
    eauto using split_on_no_sep, str_has_split_false.
Qed.

(** A line [k:rest] with [k] free of colons splits at its first colon. *)
Lemma split_on_line k rest :
  str_has colon k = false -> split_on colon (k +:+ String colon rest) = k :: split_on colon rest.
Proof. apply split_on_app_sep. Qed.

Lemma parse_line_render k v :
  wf_field k -> wf_field v -> parse_line (k +:+ String colon v) = Some (k, v).
Proof.
  intros (Hk & Htk & Hck & _) (Hv & Htv & Hcv & _). unfold parse_line.
  rewrite split_on_line, split_on_no_sep_single by done. simpl.
  rewrite Htk, Htv. by rewrite decide_True.
Qed.

(** [key:value] lines, as the configuration files are written. *)
Definition render_table (l : list (string * string)) : string :=
  join newline (map (fun kv => kv.1 +:+ String colon kv.2) l).

(** ** Theorems *)

(** The value [createMap] keeps for a key is that of the last
    well-formed line with that key. *)
Theorem createMap_get content k :
  jm_get (createMap content) k = last_value k (omap parse_line (split_on newline content)).
Proof. by rewrite createMap_as_fold, jm_get_of_list. Qed.

(** C23: Every key and value in a map read by [createMap] is non-empty,
    trimmed, and free of colons and line breaks. *)
Theorem createMap_wf content k v :
  jm_get (createMap content) k = Some v -> wf_field k /\ wf_field v.
Proof.
  rewrite createMap_get. intros Hk%last_value_in.
  apply list_elem_of_omap in Hk as (line & Hline & Hp).
  eapply parse_line_some; [done|]. by eapply split_on_no_sep.
Qed.

(** C24: A value written with a colon in it is cut at the colon: the line
    [k:v:w] stores [v] for [k] and drops [:w]. *)
Theorem createMap_value_truncated k v w :
  wf_field k -> wf_field v -> str_has newline w = false ->
  jm_get (createMap (k +:+ String colon (v +:+ String colon w))) k = Some v.
Proof.
  intros Hk Hv Hw. destruct Hk as (Hk & Htk & Hck & Hnk). destruct Hv as (Hv & Htv & Hcv & Hnv).
  unfold createMap. rewrite split_on_no_sep_single.
  2: { rewrite str_has_app. cbn [str_has]. rewrite str_has_app. cbn [str_has]. by rewrite Hnk, Hnv, Hw. }
  simpl. unfold createMap_line, parse_line.
  rewrite split_on_line, split_on_app_sep by done. simpl.
  rewrite Htk, Htv, decide_True by done. simpl. by rewrite decide_True.
Qed.

(** C22: Round trip: a table of well-formed pairs printed as [key:value]
    lines is read back by [createMap] with the same lookups. *)
Theorem createMap_render_table l k :
  Forall (fun kv => wf_field kv.1 /\ wf_field kv.2) l ->
  jm_get (createMap (render_table l)) k = last_value k l.
Proof.
  intros Hl. rewrite createMap_get. f_equal.
  destruct l as [|kv l]; [done|].
  unfold render_table. rewrite split_on_join; [|done|].
  - induction (kv :: l) as [|[k' v'] l' IH]; [done|].
    apply Forall_cons in Hl as [[Hk Hv] Hl']. simpl. rewrite parse_line_render by done.
    f_equal. by apply IH.
  - apply Forall_forall. intros line (kv' & -> & Hin)%list_elem_of_fmap.
    rewrite Forall_forall in Hl. destruct (Hl kv' Hin) as [(_ & _ & _ & H1) (_ & _ & _ & H2)].
    rewrite str_has_app. simpl. by rewrite H1, H2.
Qed.

(** ** Examples *)

Lemma createMap_wf_witness :
  wf_field "unifiAPIKey" /\ wf_field "k2".
Proof.
  apply (createMap_wf ("opManAPIKey: k1" +:+ String newline "unifiAPIKey:k2:extra")).
  vm_compute. reflexivity.
Defined.

Lemma createMap_value_truncated_witness :
  jm_get (createMap ("Greensboro" +:+ String colon ("GSO-FW" +:+ String colon "backup"))) "Greensboro"
    = Some "GSO-FW".
Proof.
  apply createMap_value_truncated; [repeat split; [discriminate|reflexivity..]
                                  |repeat split; [discriminate|reflexivity..]|reflexivity].
Defined.

Lemma createMap_render_table_witness :
  jm_get (createMap (render_table [("GSO Office", "Greensboro"); ("Lab", "Durham")])) "Lab" =
    last_value "Lab" [("GSO Office", "Greensboro"); ("Lab", "Durham")].
Proof.
  apply createMap_render_table.
  repeat constructor; discriminate.
Defined.
