(* ===== verification/Locations.v ===== *)
(** * Locations: [buildLocationsArray] of [server.js] (lines 99-116)

    The site list is read at start-up from a text file of declarations
    [const greensboro = {name: 'Greensboro', location: {lat: 36.07, ...}};].
    Each line is matched against [/const\s+(\w+)\s*=\s*( {.*} );/]
    ([match_const]), the object text is repaired into JSON by turning
    every single quote into a double quote and quoting every key
    ([repair]), parsed by [JSON.parse], and stored in an object under the
    variable name ([obj_assign]); the result is [Object.values] of that
    object ([object_values]: array-index names first, in increasing
    order, then the others in order of creation).

    [JSON.parse] is the section variable [JSON_parse]: the model keeps
    what the code does to the text and where the parsed values go.  The
    file is the decoded text, its code units below 256.

    The theorems: the repair turns an object literal written with bare
    keys and single-quoted strings into the JSON text with the same
    content; a declaration line is matched with its name and object;
    and a file of such declarations with distinct plain names yields the
    parsed objects in the order of the file.  Two names break that
    order: a site declared under a numeral name is listed first, since
    [Object.values] lists array-index names first, and a declaration
    named [__proto__] is dropped.  A quote or a [, word:] inside a
    string value is not repaired but corrupted. *)

From stdpp Require Import base list strings pretty.
From Stdlib Require Import Ascii.
From S2P Require Import Prelude JsString Json JsMap Config.

(** ** Scanning *)

(** The longest prefix of [s] whose characters satisfy [p], and the rest. *)
Fixpoint span (p : ascii -> bool) (s : string) : string * string :=
  match s with
  | EmptyString => (EmptyString, EmptyString)
  | String c s' => if p c then let '(a, b) := span p s' in (String c a, b) else (EmptyString, s)
  end.

(** The JavaScript line terminators below 256, which [.] does not match. *)
Definition is_line_terminator (c : ascii) : bool := Ascii.eqb c "010" || Ascii.eqb c "013".

(** [.*] then [};] on a segment without line terminators, [.*] greedy: the
    text before the last occurrence of [};]. *)
Fixpoint before_last_close (seg : string) : option string :=
  match seg with
  | EmptyString => None
  | String c s' =>
      match before_last_close s' with
      | Some x => Some (String c x)
      | None => if String.prefix "};" seg then Some EmptyString else None
      end
  end.

(** The regular expression [/const\s+(\w+)\s*=\s*( {.*} );/] matched at
    the start of [s]: the two groups.  [\s+] and [\w+] are disjoint and
    greedy, so there is no backtracking to do but for [.*]. *)
Definition decl_at (s : string) : option (string * string) :=
  if String.prefix "const" s then
    let '(sp, r2) := span is_js_space (str_drop 5 s) in
    let '(name, r3) := span is_word_char r2 in
    let '(_, r4) := span is_js_space r3 in
    if String.eqb sp EmptyString || String.eqb name EmptyString then None
    else match r4 with
         | String "=" r5 =>
             match snd (span is_js_space r5) with
             | String "{" r7 =>
                 match before_last_close (fst (span (fun c => negb (is_line_terminator c)) r7)) with
                 | Some body => Some (name, "{" +:+ body +:+ "}")
                 | None => None
                 end
             | _ => None
             end
         | _ => None
         end
  else None.

(** [line.match(re)]: the leftmost match. *)
Fixpoint match_const (line : string) : option (string * string) :=
  match decl_at line with
  | Some m => Some m
  | None => match line with
            | EmptyString => None
            | String _ l' => match_const l'
            end
  end.

(** [s.replace(re, f)] for a global [re]: from left to right, [m]
    tells whether a match starts here, with its replacement and length
    (at least 1); [skip] counts the characters of a replaced match still
    to pass. *)
Fixpoint replace_matches (m : string -> option (string * nat)) (skip : nat) (s : string) : string :=
  match s with
  | EmptyString => EmptyString
  | String c s' =>
      match skip with
      | S k => replace_matches m k s'
      | O =>
          match m s with
          | Some (r, len) => r +:+ replace_matches m (len - 1) s'
          | None => String c (replace_matches m 0 s')
          end
      end
  end.

(** The global key-quoting expression at the start of [s]: its three
    groups are a [{] or [,] with the blanks after it ([\s] star), a word
    ([\w] plus), and blanks then a colon; the match is replaced by
    [$1"$2"$3]. *)
Definition quote_key_at (s : string) : option (string * nat) :=
  match s with
  | EmptyString => None
  | String c r1 =>
      if Ascii.eqb c "{" || Ascii.eqb c "," then
        let '(ws1, r2) := span is_js_space r1 in
        let '(w, r3) := span is_word_char r2 in
        let '(ws2, r4) := span is_js_space r3 in
        if String.eqb w EmptyString then None
        else match r4 with
             | String ":" _ =>
                 Some (String c ws1 +:+ qt +:+ w +:+ qt +:+ ws2 +:+ ":",
                       S (String.length ws1 + String.length w + String.length ws2 + 1))
             | _ => None
             end
      else None
  end.

(** Every single quote replaced by a double quote, then the keys
    quoted, as the two [replace] calls of lines 107-108. *)
Definition repair (jsonStr : string) : string :=
  replace_matches quote_key_at 0 (replace_char sq qt jsonStr).

(** ** The object of declarations *)

(** [jsonObjects[varName] = value] on an object made by [{}]: the name
    [__proto__] runs the setter of [Object.prototype] and creates no
    own property. *)
Definition obj_assign (o : jsmap string json) (k : string) (v : json) : jsmap string json :=
  if String.eqb k "__proto__" then o else jm_set o k v.

Definition digit_value (c : ascii) : option N :=
  let n := N_of_ascii c in if ((48 <=? n) && (n <=? 57))%N then Some (n - 48)%N else None.

Fixpoint digits_value (acc : N) (s : string) : option N :=
  match s with
  | EmptyString => Some acc
  | String c s' => match digit_value c with
                   | Some d => digits_value (10 * acc + d)%N s'
                   | None => None
                   end
  end.

(** The array index a property name stands for: a canonical decimal
    numeral ([ToString(ToNumber(k)) === k]) of at most [2^32 - 2]. *)
Definition array_index (k : string) : option N :=
  match k with
  | EmptyString => None
  | _ => match digits_value 0 k with
         | Some n => if String.eqb (pretty n) k && (n <=? 4294967294)%N then Some n else None
         | None => None
         end
  end.

Fixpoint insert_index (kv : N * json) (l : list (N * json)) : list (N * json) :=
  match l with
  | [] => [kv]
  | x :: l' => if (kv.1 <=? x.1)%N then kv :: l else x :: insert_index kv l'
  end.

(** [Object.values(o)]: the properties named by array indices in
    increasing order, then the others in order of creation. *)
Definition object_values (o : jsmap string json) : list json :=
  map snd (foldr insert_index [] (omap (fun '(k, v) => (fun n => (n, v)) <$> array_index k) o)) ++
  map snd (filter (fun kv => array_index kv.1 = None) o).

Section Build.
Context (JSON_parse : string -> res json).

(** The [forEach] over the lines: a [JSON.parse] exception ends it. *)
Fixpoint collect_decls (objs : jsmap string json) (ls : list string) : res (jsmap string json) :=
  match ls with
  | [] => Ok objs
  | line :: ls' =>
      match match_const line with
      | Some (varName, jsonStr) =>
          let? v := JSON_parse (repair jsonStr) in
          collect_decls (obj_assign objs varName v) ls'
      | None => collect_decls objs ls'
      end
  end.

(** [buildLocationsArray(filepath)], given the contents of the file. *)
Definition buildLocationsArray (content : string) : res (list json) :=
  let? jsonObjects := collect_decls [] (split_on newline content) in
  Ok (object_values jsonObjects).

(** The start-up configuration: the three [createMap] files and the
    site file, read in the order of lines 14-18. *)
Definition load_server_config (keys sites firewalls unifi_names : string) : res server_config :=
  let? locs := buildLocationsArray sites in
  Ok (load_config keys firewalls unifi_names locs).
End Build.

(** ** Object literals as the site file writes them *)

Inductive lit : Type :=
| LStr (s : string)
| LNum (digits : string)
| LObj (fields : list (string * lit)).

Section LitInd.
Context (P : lit -> Prop).
Context (Hstr : forall s, P (LStr s)) (Hnum : forall d, P (LNum d))
        (Hobj : forall fs, Forall (fun kx => P kx.2) fs -> P (LObj fs)).

Fixpoint lit_ind' (v : lit) : P v :=
  match v with
  | LStr s => Hstr s
  | LNum d => Hnum d
  | LObj fs =>
      Hobj fs ((fix go (fs : list (string * lit)) : Forall (fun kx => P kx.2) fs :=
                  match fs with
                  | [] => Forall_nil_2 _
                  | kx :: fs' => Forall_cons_2 _ kx fs' (lit_ind' kx.2) (go fs')
                  end) fs)
  end.
End LitInd.

(** The text of a literal: keys bare ([kq = false]) or in double
    quotes, strings between [q], fields separated by a comma and the
    blanks [sc], each key followed by a colon and the blanks [sp]. *)
Definition print_key (kq : bool) (k : string) : string := if kq then qt +:+ k +:+ qt else k.

Fixpoint print_lit (kq : bool) (q : ascii) (sc sp : string) (v : lit) : string :=
  match v with
  | LStr s => String q (s +:+ String q EmptyString)
  | LNum d => d
  | LObj fs =>
      "{" +:+ String.concat ("," +:+ sc)
                (map (fun kx => print_key kq kx.1 +:+ ":" +:+ sp +:+ print_lit kq q sc sp kx.2) fs) +:+ "}"
  end.

(** As in the site file (single quotes, bare keys), and as JSON. *)
Definition loose (sc sp : string) (v : lit) : string := print_lit false sq sc sp v.
Definition strict (sc sp : string) (v : lit) : string := print_lit true dq sc sp v.

(** The characters a string or number of the file may hold for the
    repair to be right: no quote, brace, comma, semicolon or line break. *)
Definition safe_char (c : ascii) : bool :=
  negb (bool_decide (c ∈ [sq; dq; "{"%char; "}"%char; ","%char; ";"%char; "010"%char; "013"%char])).

(** Blanks that stay on the line: [\s] but no line terminator. *)
Definition is_blank (c : ascii) : bool := is_js_space c && negb (is_line_terminator c).

Definition is_word (k : string) : bool :=
  negb (String.eqb k EmptyString) && str_forall is_word_char k.

Fixpoint wf_lit (v : lit) : bool :=
  match v with
  | LStr s | LNum s => str_forall safe_char s
  | LObj fs => forallb (fun kx => is_word kx.1 && wf_lit kx.2) fs
  end.

(** A declaration line of the site file. *)
Definition render_decl (sc sp : string) (d : string * list (string * lit)) : string :=
  "const " +:+ d.1 +:+ " = " +:+ loose sc sp (LObj d.2) +:+ ";".

(** ** Lemmas on scanning *)

Lemma str_forall_app p a b : str_forall p (a +:+ b) = str_forall p a && str_forall p b.
Proof.
  induction a as [|c a IH]; [done|]. rewrite string_app_cons. cbn [str_forall].
  by rewrite IH, andb_assoc.
Qed.

Lemma str_forall_has p c s : str_forall p s = true -> p c = false -> str_has c s = false.
Proof.
  induction s as [|d s IH]; [done|]. cbn. intros [Hd Hs]%andb_true_iff Hc.
  rewrite IH by done. destruct (Ascii.eqb_spec d c) as [->|]; [congruence|done].
Qed.

Lemma str_forall_impl (p q : ascii -> bool) s :
  (forall c, p c = true -> q c = true) -> str_forall p s = true -> str_forall q s = true.
Proof.
  intros Hpq. induction s as [|c s IH]; [done|]. cbn. intros [Hc Hs]%andb_true_iff.
  by rewrite Hpq, IH.
Qed.

Lemma replace_char_nochar c r s : str_has c s = false -> replace_char c r s = s.
Proof.
  induction s as [|d s IH]; [done|]. cbn. intros [Hd Hs]%orb_false_iff.
  rewrite Hd. by rewrite IH.
Qed.

Lemma replace_char_concat c r sep l :
  replace_char c r (String.concat sep l) = String.concat (replace_char c r sep) (map (replace_char c r) l).
Proof.
  induction l as [|x [|y l] IH]; [done|done|].
  change (String.concat sep (x :: y :: l)) with (x +:+ sep +:+ String.concat sep (y :: l)).
  by rewrite !replace_char_app, IH.
Qed.

Lemma span_app_all p x r :
  str_forall p x = true -> span p (x +:+ r) = (x +:+ fst (span p r), snd (span p r)).
Proof.
  induction x as [|c x IH]; [intros _; change (EmptyString +:+ r) with r; by destruct (span p r)|].
  rewrite string_app_cons. cbn [str_forall span]. intros [-> Hx]%andb_true_iff. by rewrite IH.
Qed.

Lemma span_stop p c r : p c = false -> span p (String c r) = (EmptyString, String c r).
Proof. cbn. by intros ->. Qed.

Lemma replace_matches_skip m x rest :
  replace_matches m (String.length x) (x +:+ rest) = replace_matches m 0 rest.
Proof. induction x as [|c x IH]; [done|]. exact IH. Qed.

(** The characters at which no key-quoting match starts. *)
Definition no_key_start (c : ascii) : bool := negb (Ascii.eqb c "{" || Ascii.eqb c ",").

Lemma replace_matches_plain x rest :
  str_forall no_key_start x = true ->
  replace_matches quote_key_at 0 (x +:+ rest) = x +:+ replace_matches quote_key_at 0 rest.
Proof.
  induction x as [|c x IH]; [done|]. cbn [str_forall]. intros [Hc Hx]%andb_true_iff.
  rewrite string_app_cons. cbn [replace_matches].
  unfold no_key_start in Hc. apply negb_true_iff in Hc.
  assert (quote_key_at (String c (x +:+ rest)) = None) as -> by (cbn; by rewrite Hc).
  by rewrite IH.
Qed.

Lemma word_not_space c : is_word_char c = true -> is_js_space c = false.
Proof. ascii_cases c; done. Qed.

Lemma is_word_spec k : is_word k = true ->
  String.eqb k EmptyString = false /\ str_forall is_word_char k = true.
Proof.
  unfold is_word. intros [H1 H2]%andb_true_iff. split; [by apply negb_true_iff|exact H2].
Qed.

Lemma span_space_word k r : is_word k = true -> span is_js_space (k +:+ r) = (EmptyString, k +:+ r).
Proof.
  intros [Hne Hw]%is_word_spec. destruct k as [|c k]; [discriminate Hne|].
  cbn [str_forall] in Hw. apply andb_true_iff in Hw as [Hc _].
  rewrite string_app_cons. apply span_stop, word_not_space, Hc.
Qed.

(** A key after [{] or [,] and blanks is quoted. *)
Lemma quote_key_token c ws k r :
  c = "{"%char \/ c = ","%char -> str_forall is_js_space ws = true -> is_word k = true ->
  replace_matches quote_key_at 0 (String c (ws +:+ k +:+ String ":" r)) =
    String c (ws +:+ qt +:+ k +:+ qt +:+ ":") +:+ replace_matches quote_key_at 0 r.
Proof.
  intros Hc Hws Hk. pose proof (is_word_spec k Hk) as [Hne Hwk].
  assert (Hb : (Ascii.eqb c "{" || Ascii.eqb c ",") = true) by (destruct Hc as [-> | ->]; reflexivity).
  cbn [replace_matches].
  assert (E : quote_key_at (String c (ws +:+ k +:+ String ":" r)) =
              Some (String c ws +:+ qt +:+ k +:+ qt +:+ EmptyString +:+ ":",
                    S (String.length ws + String.length k + 0 + 1))).
  { unfold quote_key_at. rewrite Hb, span_app_all, span_space_word by done.
    cbn [fst snd]. rewrite string_app_nil_r. cbv beta iota.
    rewrite span_app_all, span_stop by done. cbn [fst snd]. rewrite string_app_nil_r. cbv beta iota.
    rewrite span_stop by reflexivity. cbv beta iota. rewrite Hne. reflexivity. }
  rewrite E. f_equal.
  replace (S (String.length ws + String.length k + 0 + 1) - 1)
    with (String.length (ws +:+ k +:+ ":")) by (rewrite !string_length_app; cbn; lia).
  rewrite <- (replace_matches_skip _ (ws +:+ k +:+ ":") r).
  by rewrite !string_app_assoc.
Qed.

Lemma string_concat_map_cons {A} sep (f : A -> string) a b l :
  String.concat sep (map f (a :: b :: l)) = f a +:+ sep +:+ String.concat sep (map f (b :: l)).
Proof. reflexivity. Qed.

Ltac str_norm := repeat (rewrite ?string_app_cons, ?string_app_assoc).

Local Notation RM := (replace_matches quote_key_at 0).

Lemma space_no_key_start s : str_forall is_js_space s = true -> str_forall no_key_start s = true.
Proof. apply str_forall_impl. intros c. by ascii_cases c. Qed.

Lemma safe_no_sq s : str_forall safe_char s = true -> str_has sq s = false.
Proof. intros H. by apply (str_forall_has safe_char). Qed.

Lemma word_no_sq k : is_word k = true -> str_has sq k = false.
Proof. intros [_ H]%is_word_spec. by apply (str_forall_has is_word_char). Qed.

Lemma space_no_sq s : str_forall is_js_space s = true -> str_has sq s = false.
Proof. intros H. by apply (str_forall_has is_js_space). Qed.

Lemma safe_no_key_start s : str_forall safe_char s = true -> str_forall no_key_start s = true.
Proof.
  apply str_forall_impl. intros c. unfold safe_char, no_key_start.
  destruct (Ascii.eqb_spec c "{"), (Ascii.eqb_spec c ","); subst; [done..|].
  by intros _.
Qed.

#[local] Hint Resolve space_no_key_start safe_no_sq word_no_sq space_no_sq safe_no_key_start : js.

Section Layout.
(** The blanks after commas and after colons. *)
Context (sc sp : string) (Hsc : str_forall is_js_space sc = true) (Hsp : str_forall is_js_space sp = true).

(** A key followed by a colon is quoted; the blanks after the colon are kept. *)
Lemma quote_field c ws k r :
  c = "{"%char \/ c = ","%char -> str_forall is_js_space ws = true -> is_word k = true ->
  RM (String c (ws +:+ print_key false k +:+ ":" +:+ sp +:+ r)) =
    String c (ws +:+ print_key true k +:+ ":" +:+ sp) +:+ RM r.
Proof.
  intros Hc Hws Hk. unfold print_key.
  change (":" +:+ ?t) with (String ":" t).
  rewrite quote_key_token by done. rewrite (replace_matches_plain sp) by auto with js.
  str_norm. reflexivity.
Qed.

(** The first pass turns the single quotes of a well-formed literal into double quotes. *)
Lemma replace_char_print v :
  wf_lit v = true -> replace_char sq qt (print_lit false sq sc sp v) = print_lit false dq sc sp v.
Proof.
  induction v as [s|d|fs IH] using lit_ind'; cbn [wf_lit print_lit]; intros Hv.
  - cbn [replace_char]. rewrite replace_char_app, replace_char_nochar by auto with js. reflexivity.
  - by rewrite replace_char_nochar by auto with js.
  - rewrite !replace_char_app, replace_char_concat, map_map, (replace_char_app _ _ ",") by done.
    rewrite (replace_char_nochar _ _ sc) by auto with js.
    erewrite map_ext_in; [reflexivity|]. intros [key val] Hin.
    pose proof (proj1 (forallb_forall _ _) Hv _ Hin) as [Hk Hx]%andb_true_iff.
    pose proof (proj1 (List.Forall_forall _ _) IH _ Hin) as IHv. cbn [fst snd] in *.
    rewrite !replace_char_app, IHv, !replace_char_nochar by auto with js. reflexivity.
Qed.

(** The fields of an object, as [print_lit] writes them. *)
Definition fields_text (kq : bool) (fs : list (string * lit)) : string :=
  String.concat ("," +:+ sc) (map (fun kx => print_key kq kx.1 +:+ ":" +:+ sp +:+ print_lit kq dq sc sp kx.2) fs).

Lemma repair_fields fs :
  Forall (fun kx => forall rest, wf_lit kx.2 = true ->
            RM (print_lit false dq sc sp kx.2 +:+ rest) = print_lit true dq sc sp kx.2 +:+ RM rest) fs ->
  forallb (fun kx => is_word kx.1 && wf_lit kx.2) fs = true ->
  forall c ws rest, c = "{"%char \/ c = ","%char -> str_forall is_js_space ws = true -> fs <> [] ->
  RM (String c (ws +:+ fields_text false fs +:+ rest)) = String c (ws +:+ fields_text true fs) +:+ RM rest.
Proof.
  induction fs as [|[k x] fs IHfs]; intros IH Hf c ws rest Hc Hws Hne; [done|].
  apply Forall_cons in IH as [IHx IH]. cbn [forallb fst snd] in Hf, IHx.
  apply andb_true_iff in Hf as [[Hk Hx]%andb_true_iff Hf].
  unfold fields_text. destruct fs as [|kx fs].
  - cbn [map String.concat fst snd]. rewrite !string_app_assoc.
    rewrite quote_field, IHx by done. str_norm. reflexivity.
  - rewrite !string_concat_map_cons. cbn [fst snd]. rewrite !string_app_assoc.
    rewrite quote_field, IHx by done.
    change ("," +:+ ?t) with (String "," t).
    unfold fields_text in IHfs.
    rewrite (IHfs IH Hf ","%char) by (by right || done). str_norm. reflexivity.
Qed.

(** The second pass quotes every key of a literal whose strings are double-quoted. *)
Lemma repair_print v rest :
  wf_lit v = true -> RM (print_lit false dq sc sp v +:+ rest) = print_lit true dq sc sp v +:+ RM rest.
Proof.
  revert rest. induction v as [s|d|fs IH] using lit_ind'; cbn [wf_lit print_lit]; intros rest Hv.
  - rewrite <- (string_app_cons dq). rewrite replace_matches_plain; [reflexivity|].
    rewrite str_forall_app. cbn [str_forall]. rewrite safe_no_key_start by done. reflexivity.
  - by rewrite replace_matches_plain by auto with js.
  - destruct fs as [|kx fs].
    + cbn [map String.concat]. reflexivity.
    + rewrite !string_app_assoc.
      change (RM ("{" +:+ ?t)) with (RM (String "{" (EmptyString +:+ t))).
      fold (fields_text false (kx :: fs)).
      rewrite (repair_fields (kx :: fs) IH Hv) by (by left || done).
      rewrite (replace_matches_plain "}") by done.
      str_norm. reflexivity.
Qed.

End Layout.

(** ** The declaration lines *)

Lemma before_last_close_app x : before_last_close (x +:+ "};") = Some x.
Proof.
  induction x as [|c x IH]; [reflexivity|].
  rewrite string_app_cons. cbn [before_last_close]. by rewrite IH.
Qed.

Lemma str_forall_concat p sep l :
  str_forall p sep = true -> Forall (fun x => str_forall p x = true) l ->
  str_forall p (String.concat sep l) = true.
Proof.
  intros Hsep Hl. induction Hl as [|x [|y l] Hx Hl IH]; [done|done|].
  change (String.concat sep (x :: y :: l)) with (x +:+ sep +:+ String.concat sep (y :: l)).
  by rewrite !str_forall_app, Hx, Hsep, IH.
Qed.

Definition on_line (c : ascii) : bool := negb (is_line_terminator c).

Lemma blank_on_line s : str_forall is_blank s = true -> str_forall on_line s = true.
Proof. apply str_forall_impl. intros c [_ ?]%andb_true_iff. done. Qed.

Lemma blank_space s : str_forall is_blank s = true -> str_forall is_js_space s = true.
Proof. apply str_forall_impl. intros c [? _]%andb_true_iff. done. Qed.

Lemma safe_on_line s : str_forall safe_char s = true -> str_forall on_line s = true.
Proof.
  apply str_forall_impl. intros c. unfold safe_char, on_line, is_line_terminator.
  destruct (Ascii.eqb_spec c "010"), (Ascii.eqb_spec c "013"); subst; [done..|].
  by intros _.
Qed.

Lemma word_on_line k : is_word k = true -> str_forall on_line k = true.
Proof. intros [_ H]%is_word_spec. revert H. apply str_forall_impl. intros c. by ascii_cases c. Qed.

#[local] Hint Resolve blank_on_line blank_space safe_on_line word_on_line : js.

(** A literal of the file stays on its line. *)
Lemma print_on_line sc sp v :
  str_forall is_blank sc = true -> str_forall is_blank sp = true -> wf_lit v = true ->
  str_forall on_line (loose sc sp v) = true.
Proof.
  intros Hsc Hsp. unfold loose. induction v as [s|d|fs IH] using lit_ind'; cbn [wf_lit print_lit]; intros Hv.
  - cbn [str_forall]. rewrite str_forall_app. cbn. by rewrite safe_on_line.
  - auto with js.
  - rewrite !str_forall_app. cbn [str_forall]. rewrite str_forall_concat; [done| |].
    + change ("," +:+ sc) with (String "," sc). cbn [str_forall]. by rewrite blank_on_line.
    + apply List.Forall_map, List.Forall_forall. intros [key val] Hin.
      pose proof (proj1 (forallb_forall _ _) Hv _ Hin) as [Hk Hx]%andb_true_iff.
      pose proof (proj1 (List.Forall_forall _ _) IH _ Hin) as IHv. cbn [fst snd] in *.
      cbn [print_key]. rewrite !str_forall_app, (word_on_line key), (blank_on_line sp), IHv by done. reflexivity.
Qed.

Lemma span_cons_true p c s : p c = true -> span p (String c s) = (String c (span p s).1, (span p s).2).
Proof. cbn. intros ->. by destruct (span p s). Qed.

Lemma span_all p x : str_forall p x = true -> span p x = (x, EmptyString).
Proof. intros H. rewrite <- (string_app_nil_r x), span_app_all by done. reflexivity. Qed.

Lemma decl_at_render sc sp name fs :
  str_forall is_blank sc = true -> str_forall is_blank sp = true -> is_word name = true ->
  wf_lit (LObj fs) = true ->
  decl_at (render_decl sc sp (name, fs)) = Some (name, loose sc sp (LObj fs)).
Proof.
  intros Hsc Hsp Hn Hv. pose proof (is_word_spec _ Hn) as [Hne Hw].
  pose proof (print_on_line sc sp (LObj fs) Hsc Hsp Hv) as Hl.
  unfold loose in Hl. cbn [print_lit] in Hl. rewrite !str_forall_app in Hl.
  apply andb_true_iff in Hl as [_ [HF _]%andb_true_iff].
  unfold decl_at, render_decl. cbn [fst snd].
  assert (Hp : String.prefix "const" ("const " +:+ name +:+ " = " +:+ loose sc sp (LObj fs) +:+ ";") = true)
    by reflexivity.
  rewrite Hp. change (str_drop 5 ("const " +:+ ?t)) with (String " " t).
  rewrite span_cons_true, span_space_word by done. cbn [fst snd].
  cbv beta iota. rewrite span_app_all by done.
  change (" = " +:+ ?t) with (String " " (String "=" (String " " t))).
  rewrite span_stop by reflexivity. cbn [fst snd]. rewrite string_app_nil_r.
  rewrite span_cons_true, span_stop by reflexivity. cbn [fst snd].
  unfold loose at 1. cbn [print_lit]. change ("{" +:+ ?t) with (String "{" t). cbv beta iota.
  rewrite Hne. replace (String.eqb " " "") with false by reflexivity. cbn [orb].
  rewrite span_cons_true, (string_app_cons "{"%char), span_stop by reflexivity. cbn [fst snd]. cbv beta iota.
  rewrite string_app_assoc. change ("}" +:+ ";") with "};".
  rewrite span_all.
  - cbn [fst]. rewrite before_last_close_app. reflexivity.
  - rewrite str_forall_app. fold on_line. by rewrite HF.
Qed.

Lemma match_const_decl_at line m : decl_at line = Some m -> match_const line = Some m.
Proof. destruct line; cbn [match_const]; by intros ->. Qed.

(** What a declaration of the file must be for the code to read it back. *)
Definition decl_ok (d : string * list (string * lit)) : bool :=
  is_word d.1 && wf_lit (LObj d.2) && negb (String.eqb d.1 "__proto__") &&
  bool_decide (array_index d.1 = None).

Lemma decl_ok_spec d :
  decl_ok d = true <->
  is_word d.1 = true /\ wf_lit (LObj d.2) = true /\ d.1 <> "__proto__" /\ array_index d.1 = None.
Proof.
  unfold decl_ok. rewrite !andb_true_iff, negb_true_iff, bool_decide_eq_true.
  destruct (String.eqb_spec d.1 "__proto__"); cbn; intuition congruence.
Qed.

Lemma render_on_line sc sp d :
  str_forall is_blank sc = true -> str_forall is_blank sp = true ->
  is_word d.1 = true -> wf_lit (LObj d.2) = true ->
  str_forall on_line (render_decl sc sp d) = true.
Proof.
  intros Hsc Hsp Hn Hv.
  unfold render_decl. rewrite !str_forall_app, (word_on_line d.1), (print_on_line sc sp) by done. reflexivity.
Qed.

Lemma render_no_newline sc sp d :
  str_forall is_blank sc = true -> str_forall is_blank sp = true ->
  is_word d.1 = true -> wf_lit (LObj d.2) = true ->
  str_has newline (render_decl sc sp d) = false.
Proof. intros. apply (str_forall_has on_line); [by apply render_on_line|reflexivity]. Qed.

Lemma match_const_render sc sp d :
  str_forall is_blank sc = true -> str_forall is_blank sp = true ->
  is_word d.1 = true -> wf_lit (LObj d.2) = true ->
  match_const (render_decl sc sp d) = Some (d.1, loose sc sp (LObj d.2)).
Proof.
  intros Hsc Hsp Hn Hv. apply match_const_decl_at.
  destruct d. by apply decl_at_render.
Qed.

(** ** Array indices and [Object.values] *)

Lemma digit_value_char d : (d < 10)%N -> digit_value (pretty_N_char d) = Some d.
Proof.
  intros Hd. assert (d = 0 \/ d = 1 \/ d = 2 \/ d = 3 \/ d = 4 \/ d = 5 \/ d = 6 \/ d = 7 \/ d = 8 \/ d = 9)%N
    as H by lia.
  by repeat destruct H as [->|H]; [..|subst].
Qed.

Lemma pretty_N_go_app x : forall s, exists p, pretty_N_go x s = p +:+ s.
Proof.
  induction x as [x IH] using (well_founded_induction N.lt_wf_0). intros s.
  destruct (decide (x = 0%N)) as [->|Hx]; [by exists EmptyString|].
  rewrite pretty_N_go_step by lia.
  destruct (IH (x `div` 10)%N (N.div_lt x 10 ltac:(lia) ltac:(lia)) (String (pretty_N_char (x `mod` 10)) s))
    as [p ->].
  exists (p +:+ String (pretty_N_char (x `mod` 10)) EmptyString). by rewrite string_app_assoc.
Qed.

Lemma digits_value_pretty_go x : forall acc s,
  exists k, digits_value acc (pretty_N_go x s) = digits_value (acc * 10 ^ k + x)%N s.
Proof.
  induction x as [x IH] using (well_founded_induction N.lt_wf_0). intros acc s.
  destruct (decide (x = 0%N)) as [->|Hx]; [exists 0%N; f_equal; lia|].
  rewrite pretty_N_go_step by lia.
  destruct (IH (x `div` 10)%N (N.div_lt x 10 ltac:(lia) ltac:(lia)) acc (String (pretty_N_char (x `mod` 10)) s))
    as [k ->].
  exists (k + 1)%N. cbn [digits_value]. rewrite digit_value_char by (apply N.mod_lt; lia).
  f_equal. rewrite N.pow_add_r, N.pow_1_r. pose proof (N.div_mod x 10 ltac:(lia)). nia.
Qed.

Lemma pretty_N_nonempty (n : N) : pretty n <> EmptyString.
Proof.
  unfold pretty, pretty_N. case_decide; [done|]. rewrite pretty_N_go_step by lia.
  destruct (pretty_N_go_app (n `div` 10)%N (String (pretty_N_char (n `mod` 10)) EmptyString)) as [p ->].
  by destruct p.
Qed.

Lemma digits_value_pretty (n : N) : digits_value 0 (pretty n) = Some n.
Proof.
  unfold pretty, pretty_N. case_decide as Hn; [by subst|].
  destruct (digits_value_pretty_go n 0 EmptyString) as [k ->]. by cbn.
Qed.

Lemma array_index_nonempty k : k <> EmptyString ->
  array_index k = match digits_value 0 k with
                  | Some n => if String.eqb (pretty n) k && (n <=? 4294967294)%N then Some n else None
                  | None => None
                  end.
Proof. by destruct k. Qed.

(** The numeral of [n] is an array index exactly when [n <= 2^32 - 2]. *)
Lemma array_index_pretty (n : N) :
  array_index (pretty n) = if (n <=? 4294967294)%N then Some n else None.
Proof.
  rewrite array_index_nonempty by apply pretty_N_nonempty.
  by rewrite digits_value_pretty, String.eqb_refl.
Qed.

Lemma pretty_N_char_word d : (d < 10)%N -> is_word_char (pretty_N_char d) = true.
Proof.
  intros Hd. assert (d = 0 \/ d = 1 \/ d = 2 \/ d = 3 \/ d = 4 \/ d = 5 \/ d = 6 \/ d = 7 \/ d = 8 \/ d = 9)%N
    as H by lia.
  by repeat destruct H as [->|H]; [..|subst].
Qed.

Lemma pretty_N_go_word x : forall s,
  str_forall is_word_char s = true -> str_forall is_word_char (pretty_N_go x s) = true.
Proof.
  induction x as [x IH] using (well_founded_induction N.lt_wf_0). intros s Hs.
  destruct (decide (x = 0%N)) as [->|Hx]; [done|].
  rewrite pretty_N_go_step by lia. apply IH; [apply N.div_lt; lia|].
  cbn [str_forall]. rewrite pretty_N_char_word by (apply N.mod_lt; lia). done.
Qed.

(** A numeral is a word: [\w+] matches it as a variable name. *)
Lemma is_word_pretty (n : N) : is_word (pretty n) = true.
Proof.
  unfold is_word. destruct (String.eqb_spec (pretty n) EmptyString) as [E|_];
    [by apply pretty_N_nonempty in E|].
  unfold pretty, pretty_N. case_decide; [done|]. by apply pretty_N_go_word.
Qed.

(** Names that are not array indices keep their order of creation in
    [Object.values]. *)
Lemma plain_zip (ks : list string) (vs : list json) :
  Forall (fun k => array_index k = None) ks ->
  omap (fun '(k, v) => (fun n => (n, v)) <$> array_index k) (zip ks vs) = [] /\
  filter (fun kv => array_index kv.1 = None) (zip ks vs) = zip ks vs.
Proof.
  intros Hks. revert vs. induction Hks as [|k ks Hk Hks IH]; intros [|v vs]; try done.
  destruct (IH vs) as [IH1 IH2]. simpl. rewrite Hk.
  split; [done|]. rewrite filter_cons_True by done. by rewrite IH2.
Qed.

Lemma object_values_plain (ks : list string) (vs : list json) :
  length ks = length vs -> Forall (fun k => array_index k = None) ks ->
  object_values (zip ks vs) = vs.
Proof.
  intros Hlen Hks. unfold object_values, jsmap. destruct (plain_zip ks vs Hks) as [-> ->].
  cbn. by rewrite snd_zip by lia.
Qed.

(** A property named by an array index, created last, comes first. *)
Lemma object_values_index_last (ks : list string) (vs : list json) k n v :
  length ks = length vs -> Forall (fun k => array_index k = None) ks -> array_index k = Some n ->
  object_values (zip ks vs ++ [(k, v)]) = v :: vs.
Proof.
  intros Hlen Hks Hk. unfold object_values, jsmap. rewrite omap_app, filter_app.
  destruct (plain_zip ks vs Hks) as [-> ->]. cbn. rewrite Hk. cbn.
  rewrite decide_False by done. by rewrite app_nil_r, snd_zip by lia.
Qed.

Section Files.
Context (JSON_parse : string -> res json).
Context (sc sp : string) (Hsc : str_forall is_blank sc = true) (Hsp : str_forall is_blank sp = true).

(** One declaration line: its repaired object is parsed and assigned. *)
Lemma collect_step objs d v ls :
  is_word d.1 = true -> wf_lit (LObj d.2) = true -> JSON_parse (strict sc sp (LObj d.2)) = Ok v ->
  collect_decls JSON_parse objs (render_decl sc sp d :: ls) =
    collect_decls JSON_parse (obj_assign objs d.1 v) ls.
Proof.
  intros Hn Hw Hv. cbn [collect_decls]. rewrite match_const_render by done.
  unfold repair, loose. rewrite replace_char_print by auto with js.
  rewrite <- (string_app_nil_r (print_lit false dq sc sp _)), repair_print by auto with js.
  rewrite string_app_nil_r. fold (strict sc sp (LObj d.2)). by rewrite Hv.
Qed.

Lemma collect_decls_app objs l1 l2 :
  collect_decls JSON_parse objs (l1 ++ l2) =
    let? o := collect_decls JSON_parse objs l1 in collect_decls JSON_parse o l2.
Proof.
  revert objs. induction l1 as [|l l1 IH]; intros objs; [done|]. cbn [app collect_decls].
  destruct (match_const l) as [[n j]|]; [|apply IH].
  destruct (JSON_parse (repair j)); [apply IH|done].
Qed.

(** The declarations, read one after the other into an object without their names. *)
Lemma collect_render objs decls vs :
  Forall (fun d => decl_ok d = true /\ d.1 ∉ jm_keys objs) decls -> NoDup (map fst decls) ->
  Forall2 (fun d v => JSON_parse (strict sc sp (LObj d.2)) = Ok v) decls vs ->
  collect_decls JSON_parse objs (map (render_decl sc sp) decls) = Ok (objs ++ zip (map fst decls) vs).
Proof.
  intros Hds Hnd Hvs. revert objs Hds Hnd. induction Hvs as [|d v decls vs Hv Hvs IH]; intros objs Hds Hnd.
  { by rewrite app_nil_r. }
  apply Forall_cons in Hds as [[Hd Hfresh] Hds]. apply NoDup_cons in Hnd as [Hnin Hnd].
  pose proof Hd as (Hn & Hw & Hp & _)%decl_ok_spec.
  cbn [map]. rewrite (collect_step _ _ v) by done.
  unfold obj_assign. destruct (String.eqb_spec d.1 "__proto__"); [done|].
  rewrite jm_set_fresh by done. rewrite IH; [by rewrite <- app_assoc| |done].
  apply Forall_forall. intros d' Hin. apply Forall_forall with (x := d') in Hds as [Hd' Hf']; [|done].
  split; [done|]. unfold jm_keys. rewrite map_app. cbn. rewrite elem_of_app, list_elem_of_singleton.
  intros [|Heq]; [done|]. apply Hnin, list_elem_of_In, in_map_iff.
  exists d'. split; [done|by apply list_elem_of_In].
Qed.

(** A declaration that [JSON.parse] rejects ends the reading, after any lines. *)
Lemma collect_decls_exc objs pre line post name js e :
  match_const line = Some (name, js) -> JSON_parse (repair js) = Exc e ->
  exists e', collect_decls JSON_parse objs (pre ++ line :: post) = Exc e'.
Proof.
  intros Hm Hp. revert objs. induction pre as [|l pre IH]; intros objs; cbn [app collect_decls].
  - rewrite Hm, Hp. by exists e.
  - destruct (match_const l) as [[n j]|]; [|apply IH].
    destruct (JSON_parse (repair j)) as [v|e']; cbn [res_bind]; [apply IH|by exists e'].
Qed.

(** A file of such declarations is read back in file order. *)
Lemma read_rendered_file decls vs :
  Forall (fun d => decl_ok d = true) decls -> NoDup (map fst decls) ->
  Forall2 (fun d v => JSON_parse (strict sc sp (LObj d.2)) = Ok v) decls vs ->
  buildLocationsArray JSON_parse (join newline (map (render_decl sc sp) decls)) = Ok vs.
Proof.
  intros Hds Hnd Hvs. destruct decls as [|d decls]; [by inversion Hvs|].
  unfold buildLocationsArray. rewrite split_on_join; [|done|].
  2: { apply Forall_map. eapply Forall_impl; [exact Hds|]. intros d' (? & ? & _)%decl_ok_spec.
        by apply render_no_newline. }
  rewrite (collect_render [] (d :: decls) vs); [| |done|done].
  2: { eapply Forall_impl; [exact Hds|]. intros x Hx. split; [done|apply not_elem_of_nil]. }
  cbn [app res_bind]. f_equal. apply object_values_plain.
  - rewrite length_map. by apply Forall2_length in Hvs.
  - apply Forall_map. eapply Forall_impl; [exact Hds|]. by intros ? (_ & _ & _ & ?)%decl_ok_spec.
Qed.

(** C32: [buildLocationsArray] reads back a file of declarations in file order.
    The file has one [const name = {...};] line for each declaration, with
    bare keys, single-quoted strings and any blanks after commas and colons.
    Every name is a distinct word that is neither an array index nor
    [__proto__], and every repaired object parses.  Then the result is the
    list of parsed objects, in the order of the file. *)
Theorem buildLocationsArray_render decls vs :
  Forall (fun d => decl_ok d = true) decls -> NoDup (map fst decls) ->
  Forall2 (fun d v => JSON_parse (strict sc sp (LObj d.2)) = Ok v) decls vs ->
  buildLocationsArray JSON_parse (join newline (map (render_decl sc sp) decls)) = Ok vs.
Proof. apply read_rendered_file. Qed.

(** C33: a declaration line whose repaired object [JSON.parse] rejects makes
    [buildLocationsArray] throw, whatever the other lines hold, and with it
    the start-up of the server ([load_server_config]) throws. *)
Theorem load_server_config_parse_error keys firewalls unifi_names pre line post name js e :
  Forall (fun l => str_has newline l = false) (pre ++ line :: post) ->
  match_const line = Some (name, js) -> JSON_parse (repair js) = Exc e ->
  exists e', load_server_config JSON_parse keys (join newline (pre ++ line :: post)) firewalls unifi_names = Exc e'.
Proof.
  intros Hnl Hm Hp. unfold load_server_config, buildLocationsArray.
  rewrite split_on_join by (done || by destruct pre).
  destruct (collect_decls_exc [] pre line post name js e Hm Hp) as [e' ->]. by exists e'.
Qed.

(** C34: [Object.values] lists the properties named by array indices
    first: a site declared last under a numeral name [n <= 2^32 - 2]
    ([const 7 = {...};], which [\w+] matches) is the first site of the
    list, before the sites declared before it.  The site list is not in
    the order of the file. *)
Theorem buildLocationsArray_numeral_first decls vs n fs v :
  Forall (fun d => decl_ok d = true) decls -> NoDup (map fst decls) ->
  Forall2 (fun d v => JSON_parse (strict sc sp (LObj d.2)) = Ok v) decls vs ->
  (n <= 4294967294)%N -> wf_lit (LObj fs) = true -> JSON_parse (strict sc sp (LObj fs)) = Ok v ->
  buildLocationsArray JSON_parse (join newline (map (render_decl sc sp) (decls ++ [(pretty n, fs)]))) =
    Ok (v :: vs).
Proof.
  intros Hds Hnd Hvs Hn Hw Hv.
  assert (Hplain : Forall (fun k => array_index k = None) (map fst decls)).
  { apply Forall_map. eapply Forall_impl; [exact Hds|]. by intros ? (_ & _ & _ & ?)%decl_ok_spec. }
  assert (Hidx : array_index (pretty n) = Some n) by (rewrite array_index_pretty; by apply N.leb_le in Hn as ->).
  unfold buildLocationsArray. rewrite split_on_join; [|by destruct decls|].
  2: { rewrite map_app. apply Forall_app. split.
       - apply Forall_map. eapply Forall_impl; [exact Hds|]. intros d' (? & ? & _)%decl_ok_spec.
         by apply render_no_newline.
       - repeat constructor. apply render_no_newline; [done|done|apply is_word_pretty|done]. }
  rewrite map_app, collect_decls_app, (collect_render [] decls vs); [| |done|done].
  2: { eapply Forall_impl; [exact Hds|]. intros x Hx. split; [done|apply not_elem_of_nil]. }
  cbn [app res_bind map]. rewrite (collect_step _ (pretty n, fs) v) by (done || apply is_word_pretty).
  cbn [collect_decls res_bind fst]. unfold obj_assign.
  destruct (String.eqb_spec (pretty n) "__proto__") as [E|_]; [by rewrite E in Hidx|].
  rewrite jm_set_fresh, (object_values_index_last _ _ _ n); [done| | |done|].
  - rewrite length_map. by apply Forall2_length in Hvs.
  - done.
  - unfold jm_keys. rewrite fst_zip by (rewrite length_map; apply Forall2_length in Hvs; lia).
    intros Hin. rewrite Forall_forall in Hplain. apply Hplain in Hin. congruence.
Qed.

(** C35: a declaration named [__proto__] is dropped: the assignment
    [jsonObjects['__proto__'] = value] runs the setter of
    [Object.prototype] and creates no property.  Whatever the other lines
    of the file, when the line parses the site list is the one of the
    file without it. *)
Theorem buildLocationsArray_proto_dropped pre post fs v :
  Forall (fun l => str_has newline l = false) (pre ++ post) ->
  wf_lit (LObj fs) = true -> JSON_parse (strict sc sp (LObj fs)) = Ok v ->
  buildLocationsArray JSON_parse (join newline (pre ++ render_decl sc sp ("__proto__", fs) :: post)) =
    buildLocationsArray JSON_parse (join newline (pre ++ post)).
Proof.
  intros Hl Hw Hv. apply Forall_app in Hl as [Hpre Hpost].
  unfold buildLocationsArray. rewrite split_on_join; [|by destruct pre|].
  2: { apply Forall_app. split; [done|]. constructor; [|done]. by apply render_no_newline. }
  destruct (decide (pre ++ post = [])) as [E|E].
  - apply app_eq_nil in E as [-> ->]. cbn [app]. rewrite (collect_step _ _ v) by done. reflexivity.
  - rewrite collect_decls_app, split_on_join, collect_decls_app by (done || by apply Forall_app).
    destruct (collect_decls JSON_parse [] pre) as [o|e]; cbn [res_bind]; [|done].
    by rewrite (collect_step _ _ v).
Qed.

End Files.

(** C31: the two [replace] calls of lines 107-108 turn an object literal
    written with bare word keys and single-quoted strings, whose strings
    and numbers hold no quote, brace, comma, semicolon or line break, into
    the JSON text of the same object, for any blanks after its commas and
    colons. *)
Theorem repair_loose sc sp v :
  str_forall is_js_space sc = true -> str_forall is_js_space sp = true -> wf_lit v = true ->
  repair (loose sc sp v) = strict sc sp v.
Proof.
  intros Hsc Hsp Hv. unfold repair, loose, strict.
  rewrite replace_char_print by done.
  rewrite <- (string_app_nil_r (print_lit false dq sc sp v)), repair_print by done.
  by rewrite string_app_nil_r.
Qed.

(** ** What the repair does to other strings *)

(** A comma inside a string value, followed by a word and a colon, is
    taken for the start of a key: the value of the spec's example site with
    [", NC:"] in its name is quoted into a text that is not the JSON of
    the object. *)
Example repair_comma_in_value :
  repair (loose " " " " (LObj [("name", LStr "Greensboro, NC: HQ")])) =
    "{" +:+ qt +:+ "name" +:+ qt +:+ ": " +:+ qt +:+ "Greensboro, " +:+ qt +:+ "NC" +:+ qt +:+ ": HQ" +:+ qt +:+ "}"
  /\ repair (loose " " " " (LObj [("name", LStr "Greensboro, NC: HQ")])) <>
     strict " " " " (LObj [("name", LStr "Greensboro, NC: HQ")]).
Proof. split; [reflexivity|vm_compute; congruence]. Qed.

(** An apostrophe inside a single-quoted value becomes a double quote
    that closes the JSON string early. *)
Example repair_apostrophe :
  repair (loose " " " " (LObj [("name", LStr ("O" +:+ String sq "Brien"))])) =
    "{" +:+ qt +:+ "name" +:+ qt +:+ ": " +:+ qt +:+ "O" +:+ qt +:+ "Brien" +:+ qt +:+ "}".
Proof. reflexivity. Qed.

(** ** Sample files *)

(** The spec's example site, as a declaration of the site file. *)
Definition greensboro : string * list (string * lit) :=
  ("greensboro", [("name", LStr "Greensboro");
                  ("location", LObj [("lat", LNum "36.07"); ("lng", LNum "-79.79")])]).

Definition raleigh : string * list (string * lit) :=
  ("raleigh", [("name", LStr "Raleigh Office"); ("location", LObj [("lat", LNum "35.78"); ("lng", LNum "-78.64")])]).

(** A [JSON.parse] that knows the JSON texts of the two sites and rejects
    every other text. *)
Definition demo_parse (s : string) : res json :=
  if String.eqb s (strict "" "" (LObj greensboro.2)) then Ok (JStr "greensboro")
  else if String.eqb s (strict "" "" (LObj raleigh.2)) then Ok (JStr "raleigh")
  else Exc JsonParseError.

(** ** Witnesses *)

Lemma repair_loose_witness :
  repair (loose "" "" (LObj greensboro.2)) = strict "" "" (LObj greensboro.2).
Proof. apply repair_loose; vm_compute; reflexivity. Defined.

Lemma buildLocationsArray_render_witness :
  buildLocationsArray demo_parse (join newline (map (render_decl "" "") [greensboro; raleigh])) =
  Ok [JStr "greensboro"; JStr "raleigh"].
Proof.
  apply (buildLocationsArray_render demo_parse "" "" eq_refl eq_refl).
  - repeat constructor.
  - cbn. constructor; [|constructor; [apply not_elem_of_nil|constructor]].
    apply not_elem_of_cons. split; [discriminate|apply not_elem_of_nil].
  - constructor; [vm_compute; reflexivity|]. constructor; [vm_compute; reflexivity|]. constructor.
Defined.

(** The apostrophe of [O'Brien] makes the repaired text one that
    [demo_parse] rejects. *)
Definition obrien_line : string :=
  render_decl " " " " ("obrien", [("name", LStr ("O" +:+ String sq "Brien"))]).

Lemma load_server_config_parse_error_witness :
  Forall (fun l => str_has newline l = false) ([render_decl "" "" greensboro] ++ [obrien_line]) /\
  exists e', load_server_config demo_parse "" (join newline ([render_decl "" "" greensboro] ++ obrien_line :: [])) "" "" = Exc e'.
Proof.
  split; [repeat constructor|].
  apply (load_server_config_parse_error demo_parse "" "" "" [render_decl "" "" greensboro] obrien_line []
           "obrien" ("{name: " +:+ String sq ("O" +:+ String sq ("Brien" +:+ String sq "}"))) JsonParseError);
    [repeat constructor | vm_compute; reflexivity | vm_compute; reflexivity].
Defined.

Lemma buildLocationsArray_numeral_first_witness :
  buildLocationsArray demo_parse (join newline (map (render_decl "" "") ([greensboro] ++ [(pretty 7%N, raleigh.2)]))) =
  Ok [JStr "raleigh"; JStr "greensboro"].
Proof.
  apply (buildLocationsArray_numeral_first demo_parse "" "" eq_refl eq_refl);
    [repeat constructor|repeat constructor; apply not_elem_of_nil|
     constructor; [vm_compute; reflexivity|constructor]|lia|vm_compute; reflexivity..].
Defined.

Lemma buildLocationsArray_proto_dropped_witness :
  buildLocationsArray demo_parse (join newline ([] ++ render_decl "" "" ("__proto__", raleigh.2) :: [render_decl "" "" greensboro])) =
  buildLocationsArray demo_parse (join newline ([] ++ [render_decl "" "" greensboro])).
Proof.
  apply (buildLocationsArray_proto_dropped demo_parse "" "" eq_refl eq_refl _ _ raleigh.2 (JStr "raleigh"));
    [repeat constructor|vm_compute; reflexivity..].
Defined.
