(* ===== verification/Http.v ===== *)
(** * Http: what the backend offers the front end

    The backend and the browser client interact only through the three
    GET routes of [server.js]: [/locations], [/devices/opmanager] and
    [/devices/unifi], each with the [locationName] query parameter.  This
    file gives the requests ([request]), the responses ([response]: a
    status, a content type and a JSON or text body) and the outcome of a
    request, which is a response, or an exception that escaped the route
    handler ([Unhandled]): under Express 5 the rejected handler is
    answered by the default error handler and the server goes on with
    its state as the handler left it.

    The class [HttpService] is the interface between the two halves: a
    service with a state answers a request and leaves a new state.  The
    front end is written against it, [Server] implements it. *)

From stdpp Require Import base list strings.
From Stdlib Require Import ZArith.
From S2P Require Import Prelude Json.

Inductive request : Type :=
| GetLocations
| GetOpManager (locationName : option string)
| GetUnifi (locationName : option string).

Inductive http_body : Type :=
| BJson (j : json)
| BText (s : string).

Record response : Type := {
  status : Z;
  content_type : option string;
  body : http_body;
}.

Inductive outcome : Type :=
| Responded (r : response)
| Unhandled (e : exn).

(** [response.ok] of the Fetch API. *)
Definition response_ok (r : response) : bool := ((200 <=? status r) && (status r <? 300))%Z.

(** [res.json(x)] of Express. *)
Definition json_response (st : Z) (j : json) : response :=
  {| status := st; content_type := Some "application/json; charset=utf-8"; body := BJson j |}.

(** [res.status(st).send(text)] of Express, with a string. *)
Definition text_response (st : Z) (s : string) : response :=
  {| status := st; content_type := Some "text/html; charset=utf-8"; body := BText s |}.

(** A service answering requests over a state of its own. *)
Class HttpService (St : Type) := {
  serve : request -> St -> outcome * St
}.

(** The outcome of a computation of a route handler: its value is the
    response it sent, its exception escapes the handler. *)
Definition to_outcome {St} (r : res response * St) : outcome * St :=
  match r with
  | (Ok resp, s) => (Responded resp, s)
  | (Exc e, s) => (Unhandled e, s)
  end.

Lemma to_outcome_snd {St} (r : res response * St) : snd (to_outcome r) = snd r.
Proof. by destruct r as [[]]. Qed.
