(* ===== verification/Server.v ===== *)
(** * Server: the backend of [src/Backend/server.js]

    State ([bstate]): the site-id cache [siteNameToSiteID] (a [Map] from
    a site name, possibly [undefined], to a UniFi site id, any JSON value
    or [undefined]) and the log of the requests sent upstream, in order.
    The configuration ([Config.server_config]) and the upstream services
    (the oracle [upstream]) are section variables.

    Operations, one per function of the source, in Module [Backend]:
    [sendRequestWithHeaders], [sendOpManRequest], [sendUnifiRequest],
    the gateway [fetchData] with [fetchOpManData] and [fetchUnifiData],
    the resolver's [mapUnifiNameToSiteName] and [setSiteMap], and the
    three route handlers [get_locations], [get_opmanager], [get_unifi],
    dispatched by [handle]; [Server_service] makes [handle] an
    [HttpService].

    The behaviour of Express is that of Express 5 (the repository does
    not pin a version): [res.send] sends a string as it is, [null] as an
    empty body and other values as JSON ([send_body]); a number is not
    taken as a status code, as Express 4 did; and a route handler whose
    promise rejects is answered by the error handler while the server
    keeps serving ([Unhandled] of [Http]), where Node 15 and later would
    end an Express 4 process.

    The theorems (section [Theorems]): the gateway never lets an
    exception escape and relays the upstream status, type and body or
    answers 500; an unknown site gets a 404 "not found" without an
    upstream call; the service lists the sites once on a cache miss and
    never on a hit; an unresolvable site is listed again on every
    request; a failed listing escapes the handler; a site without an
    alias is cached under [undefined]; the cache keys only grow;
    OpManager requests skip certificate checks.  The examples at the end
    run them on [demo_cfg] and [demo_upstream]. *)

From stdpp Require Import base list strings sets.
From Stdlib Require Import ZArith Ascii.
From S2P Require Import Prelude JsString Json JsMap Config Http.

(** ** Upstream requests *)

Record up_request : Type := {
  up_uri : string;
  up_headers : list (string * string);
  up_verify_tls : bool;    (** [false]: [https.Agent({ rejectUnauthorized: false })] *)
}.

Record up_response : Type := {
  up_status : Z;
  up_content_type : option string;   (** [response.headers.get('content-type')] *)
  up_body : option json;             (** [None]: the body is not JSON *)
}.

Inductive up_result : Type :=
| UpNetError
| UpResponse (r : up_response).

(** ** State *)

Record bstate : Type := mkB {
  siteNameToSiteID : jsmap (option string) (option json);
  upstream_log : list up_request;
}.

Definition initial_bstate : bstate := mkB [] [].

Definition baseUnifiURI : string :=
  "https://2274cca2-a188-412f-b66d-ed13543835f3.unifi-hosting.ui.com/proxy/network/integration/v1".
Definition baseOpManURI : string := "https://opmanager:8061".
Definition sitesURI : string := baseUnifiURI +:+ "/sites".
Definition opManDevicesURI : string := baseOpManURI +:+ "/api/json/device/listDevices".

(** The listing of all sites, [`${sitesURI}?limit=200`]. *)
Definition sites_listing_uri : string := sitesURI +:+ "?limit=200".

(** [`${sitesURI}/${siteID}/devices?limit=200`] *)
Definition devices_uri (siteID : option json) : string :=
  sitesURI +:+ "/" +:+ to_js_string siteID +:+ "/devices?limit=200".

(** [`${opManDevicesURI}?category=Firewall&deviceName=${firewallName}`] *)
Definition firewall_uri (firewallName : string) : string :=
  opManDevicesURI +:+ "?category=Firewall&deviceName=" +:+ firewallName.

(** [Map.get] with a key that may be [undefined]: the maps read by
    [createMap] have string keys only. *)
Definition jm_get_str {V} (m : jsmap string V) (k : option string) : option V :=
  match k with Some k => jm_get m k | None => None end.

(** Truthiness of a string that may be [undefined]. *)
Definition str_truthy (s : option string) : bool :=
  match s with Some s => negb (String.eqb s "") | None => false end.

Definition error_500 : response :=
  json_response 500 (JObj [("error", JStr "Failed to fetch target data")]).

(** The handlers of [server.js], in a module of their own: [fetchData]
    is also the name of a function of the client. *)
Module Backend.
Section Handlers.
Context (cfg : server_config) (upstream : up_request -> up_result).

(** *** Upstream calls *)

(** One request to an upstream service, appended to the log. *)
Definition call_upstream (r : up_request) : M bstate up_result :=
  fun s => (Ok (upstream r), mkB (siteNameToSiteID s) (upstream_log s ++ [r])).

(** [await fetch(r)]: rejects on a transport failure. *)
Definition fetch (r : up_request) : M bstate up_response :=
  let* res := call_upstream r in
  match res with
  | UpNetError => throw NetworkError
  | UpResponse resp => ret resp
  end.

(** [await response.json()] *)
Definition response_json (r : up_response) : M bstate json :=
  match up_body r with
  | Some data => ret data
  | None => throw JsonParseError
  end.

Definition opman_request (URI : string) : up_request :=
  {| up_uri := URI;
     up_headers := [("apiKey", str_or_undefined (jm_get (apiKeyMap cfg) "opManAPIKey"))];
     up_verify_tls := false |}.

Definition unifi_request (URI : string) : up_request :=
  {| up_uri := URI;
     up_headers := [("X-API-KEY", str_or_undefined (jm_get (apiKeyMap cfg) "unifiAPIKey"));
                    ("Accept", "application/json")];
     up_verify_tls := true |}.

Definition sendRequestWithHeaders (URI : string) (headers : list (string * string))
  : M bstate up_response :=
  fetch {| up_uri := URI; up_headers := headers; up_verify_tls := true |}.

Definition sendOpManRequest (URI : string) : M bstate up_response :=
  fetch (opman_request URI).

Definition sendUnifiRequest (URI : string) : M bstate up_response :=
  sendRequestWithHeaders URI (up_headers (unifi_request URI)).

(** *** The gateway *)

(** The body of [res.send(data)] of Express 5, for a value that
    [response.json()] produced: a string is sent as it is, [null] as an
    empty body, a boolean, number, array or object through [res.json] as
    its JSON text ([res.json] keeps a content type already set). *)
Definition send_body (data : json) : http_body :=
  match data with
  | JStr s => BText s
  | JNull => BText ""
  | _ => BJson data
  end.

(** [res.status(response.status).contentType(ct).send(data)]: Express's
    [contentType] throws on a [null] type. *)
Definition relay (r : up_response) (data : json) : M bstate response :=
  match up_content_type r with
  | None => throw (TypeError "Cannot read properties of null (reading 'indexOf')")
  | Some ct => ret {| status := up_status r; content_type := Some ct; body := send_body data |}
  end.

Definition fetchData (URI : string) (sendRequestFunc : string -> M bstate up_response)
  : M bstate response :=
  try_catch
    (let* response := sendRequestFunc URI in
     let* data := response_json response in
     relay response data)
    (fun _ => ret error_500).

Definition fetchOpManData (URI : string) : M bstate response :=
  fetchData URI sendOpManRequest.

Definition fetchUnifiData (URI : string) : M bstate response :=
  fetchData URI sendUnifiRequest.

(** *** The site resolver *)

Definition mapUnifiNameToSiteName (unifiName : option json) : option string :=
  match unifiName with
  | Some (JStr n) => jm_get (unifiLocationsMap cfg) n
  | _ => None
  end.

(** [siteNameToSiteID.get(name)], [undefined] when absent. *)
Definition cached_id (s : bstate) (name : option string) : option json :=
  match jm_get (siteNameToSiteID s) name with Some v => v | None => None end.

(** One iteration of the loop of [setSiteMap]. *)
Definition setSiteMap_item (item : option json) : M bstate unit :=
  let* unifiName := of_res (prop item "name") in
  let site := mapUnifiNameToSiteName unifiName in
  let* id := of_res (prop item "id") in
  modify (fun s => mkB (jm_set (siteNameToSiteID s) site id) (upstream_log s)).

(** [for (const item of data.data) { ... }] *)
Definition setSiteMap (data : json) : M bstate unit :=
  let* items := of_res (prop (Some data) "data") in
  let* xs := of_res (iter_of items) in
  for_each setSiteMap_item xs.

(** *** Routes *)

(** [app.get('/locations', ...)] *)
Definition get_locations : M bstate response :=
  ret (json_response 200 (JArr (locations cfg))).

(** [app.get('/devices/opmanager', ...)] *)
Definition get_opmanager (locationName : option string) : M bstate response :=
  let firewallName := jm_get_str (siteFirewallMap cfg) locationName in
  if negb (str_truthy firewallName) then
    ret (text_response 404 ("location " +:+ str_or_undefined locationName +:+ " not found."))
  else fetchOpManData (firewall_uri (str_or_undefined firewallName)).

(** The lazy fill of the cache on a miss: one listing of all sites. *)
Definition refresh_site_map : M bstate unit :=
  let* response := sendUnifiRequest sites_listing_uri in
  let* data := response_json response in
  setSiteMap data.

(** [app.get('/devices/unifi', ...)] *)
Definition get_unifi (locationName : option string) : M bstate response :=
  let* siteID := gets (fun s => cached_id s locationName) in
  (if truthy siteID then ret tt else refresh_site_map) ;;;
  let* siteID := gets (fun s => cached_id s locationName) in
  if truthy siteID then fetchUnifiData (devices_uri siteID)
  else ret (text_response 404 ("siteID " +:+ to_js_string siteID +:+ " not found")).

Definition handle (r : request) : M bstate response :=
  match r with
  | GetLocations => get_locations
  | GetOpManager name => get_opmanager name
  | GetUnifi name => get_unifi name
  end.

End Handlers.
End Backend.
Import Backend.

#[export] Instance Server_service (cfg : server_config) (upstream : up_request -> up_result)
  : HttpService bstate := {| serve r s := to_outcome (handle cfg upstream r s) |}.

(** ** Specification-level functions *)

(** The response the gateway owes for an upstream result: the upstream
    status and content type with the parsed body as [res.send] sends it,
    or the generic 500. *)
Definition gateway_response (u : up_result) : response :=
  match u with
  | UpResponse r =>
      match up_body r, up_content_type r with
      | Some data, Some ct => {| status := up_status r; content_type := Some ct; body := send_body data |}
      | _, _ => error_500
      end
  | UpNetError => error_500
  end.

(** The state after one more upstream call. *)
Definition log_call (s : bstate) (r : up_request) : bstate :=
  mkB (siteNameToSiteID s) (upstream_log s ++ [r]).

Definition is_listing (r : up_request) : bool := bool_decide (up_uri r = sites_listing_uri).

(** The number of site listings in a log. *)
Definition listings (l : list up_request) : nat := length (List.filter is_listing l).

(** The value a listed item contributes to the cache: its site name
    through the alias table, and its id. *)
Definition item_field (k : string) (item : json) : option json :=
  match prop (Some item) k with Ok v => v | Exc _ => None end.

Definition site_pair (cfg : server_config) (item : json) : option string * option json :=
  (mapUnifiNameToSiteName cfg (item_field "name" item), item_field "id" item).

(** Some item of the site listing is stored under [name]. *)
Definition item_sets (cfg : server_config) (name : option string) (item : option json) : bool :=
  match prop item "name" with
  | Ok nm => bool_decide (mapUnifiNameToSiteName cfg nm = name)
  | Exc _ => false
  end.

Definition listing_mentions (cfg : server_config) (upstream : up_request -> up_result)
    (name : option string) : bool :=
  match upstream (unifi_request cfg sites_listing_uri) with
  | UpResponse r =>
      match up_body r with
      | Some data =>
          match prop (Some data) "data" with
          | Ok items => match iter_of items with
                        | Ok xs => existsb (item_sets cfg name) xs
                        | Exc _ => false
                        end
          | Exc _ => false
          end
      | None => false
      end
  | UpNetError => false
  end.

(** The most upstream calls a request may cause, and whether they check
    the server certificate. *)
Definition calls_bound (req : request) : nat :=
  match req with GetLocations => 0 | GetOpManager _ => 1 | GetUnifi _ => 2 end.

Definition verifies_tls (req : request) : bool :=
  match req with GetOpManager _ => false | _ => true end.

(** [n] successive requests [/devices/unifi?locationName=name]. *)
Fixpoint serve_unifi_n (cfg : server_config) (upstream : up_request -> up_result)
    (n : nat) (name : option string) (s : bstate) : bstate :=
  match n with
  | O => s
  | S n' => serve_unifi_n cfg upstream n' name (snd (get_unifi cfg upstream name s))
  end.

(** ** A concrete deployment, for the examples

    Two sites, Greensboro (with a firewall and a UniFi alias) and Durham
    (neither); the UniFi listing has the Greensboro office and a lab
    that has no alias. *)

Definition demo_site (name : string) : json :=
  JObj [("name", JStr name); ("location", JObj [("lat", JNum 36); ("lng", JNum (-79))])].

Definition demo_cfg : server_config :=
  {| apiKeyMap := [("opManAPIKey", "k1"); ("unifiAPIKey", "k2")];
     siteFirewallMap := [("Greensboro", "GSO-FW")];
     unifiLocationsMap := [("GSO Office", "Greensboro")];
     locations := [demo_site "Greensboro"; demo_site "Durham"] |}.

Definition demo_gso_item : json := JObj [("name", JStr "GSO Office"); ("id", JStr "s1")].
Definition demo_lab_item : json := JObj [("name", JStr "Lab"); ("id", JStr "s2")].
Definition demo_listing : json := JObj [("data", JArr [demo_gso_item; demo_lab_item])].

Definition demo_json_response (j : json) : up_result :=
  UpResponse {| up_status := 200; up_content_type := Some "application/json"; up_body := Some j |}.

(** The upstream services answer the listing and every device query. *)
Definition demo_upstream (r : up_request) : up_result :=
  if bool_decide (up_uri r = sites_listing_uri) then demo_json_response demo_listing
  else demo_json_response (JObj [("data", JArr [])]).

(** A cache that knows Greensboro. *)
Definition demo_cached : bstate := mkB [(Some "Greensboro", Some (JStr "s1"))] [].

(** ** Theorems *)

Section Theorems.
Context (cfg : server_config) (upstream : up_request -> up_result).

(** *** Running the upstream calls *)

Lemma fetch_run r s :
  fetch upstream r s =
    (match upstream r with UpNetError => Exc NetworkError | UpResponse x => Ok x end,
     log_call s r).
Proof. unfold fetch, bind, call_upstream. by destruct (upstream r). Qed.

Lemma sendUnifiRequest_eq URI : sendUnifiRequest cfg upstream URI = fetch upstream (unifi_request cfg URI).
Proof. reflexivity. Qed.

(** The gateway over any fetch: it never throws and answers
    [gateway_response] of the upstream result, after one call. *)
Lemma fetchData_fetch URI (req : string -> up_request) s :
  fetchData URI (fun u => fetch upstream (req u)) s =
    (Ok (gateway_response (upstream (req URI))), log_call s (req URI)).
Proof.
  unfold fetchData, try_catch, bind. rewrite fetch_run.
  destruct (upstream (req URI)) as [|r]; [done|]. simpl.
  unfold response_json, relay.
  destruct (up_body r), (up_content_type r); done.
Qed.

Lemma devices_uri_not_listing x : is_listing (unifi_request cfg (devices_uri x)) = false.
Proof.
  unfold is_listing, devices_uri, sites_listing_uri. by simpl.
Qed.

Lemma listing_is_listing : is_listing (unifi_request cfg sites_listing_uri) = true.
Proof. by apply bool_decide_eq_true. Qed.

Lemma listings_app l1 l2 : listings (l1 ++ l2) = listings l1 + listings l2.
Proof. unfold listings. by rewrite List.filter_app, length_app. Qed.

(** A property kept by every [set] on the cache is kept by
    [setSiteMap], also when it throws part-way. *)
Lemma setSiteMap_preserves (P : bstate -> Prop) data :
  (forall s site id, P s -> P (mkB (jm_set (siteNameToSiteID s) site id) (upstream_log s))) ->
  preserves P (setSiteMap cfg data).
Proof.
  intros HP. unfold setSiteMap, setSiteMap_item.
  preserves_auto. apply preserves_modify. intros s'. apply HP.
Qed.

(** [setSiteMap] never calls upstream, also when it throws. *)
Lemma setSiteMap_log data s :
  upstream_log (snd (setSiteMap cfg data s)) = upstream_log s.
Proof. by apply (setSiteMap_preserves (fun s' => upstream_log s' = upstream_log s)). Qed.

Lemma refresh_site_map_log s :
  upstream_log (snd (refresh_site_map cfg upstream s)) =
    upstream_log s ++ [unifi_request cfg sites_listing_uri].
Proof.
  unfold refresh_site_map, bind at 1. rewrite sendUnifiRequest_eq, fetch_run.
  destruct (upstream _) as [|r]; [done|].
  unfold response_json. destruct (up_body r) as [data|]; [|done].
  rewrite bind_ret_l, setSiteMap_log. done.
Qed.

Lemma fetchOpManData_run URI s :
  fetchOpManData cfg upstream URI s =
    (Ok (gateway_response (upstream (opman_request cfg URI))), log_call s (opman_request cfg URI)).
Proof. apply fetchData_fetch. Qed.

Lemma fetchUnifiData_run URI s :
  fetchUnifiData cfg upstream URI s =
    (Ok (gateway_response (upstream (unifi_request cfg URI))), log_call s (unifi_request cfg URI)).
Proof. apply fetchData_fetch. Qed.

Lemma listings_single r : listings [r] = if is_listing r then 1 else 0.
Proof. unfold listings. simpl. by destruct (is_listing r). Qed.

Lemma listings_log_call s r :
  listings (upstream_log (log_call s r)) = listings (upstream_log s) + (if is_listing r then 1 else 0).
Proof. unfold log_call. simpl. rewrite listings_app. unfold listings. simpl. by destruct (is_listing r). Qed.

(** The second half of [get_unifi], after the cache has been consulted
    and possibly refreshed. *)
Definition unifi_answer (name : option string) : M bstate response :=
  let* siteID := gets (fun s => cached_id s name) in
  if truthy siteID then fetchUnifiData cfg upstream (devices_uri siteID)
  else ret (text_response 404 ("siteID " +:+ to_js_string siteID +:+ " not found")).

Lemma get_unifi_miss name s :
  truthy (cached_id s name) = false ->
  get_unifi cfg upstream name s = bind (refresh_site_map cfg upstream) (fun _ => unifi_answer name) s.
Proof. intros H. unfold get_unifi, bind at 1, gets. by rewrite H. Qed.

Lemma unifi_answer_run name s :
  unifi_answer name s =
    if truthy (cached_id s name)
    then (Ok (gateway_response (upstream (unifi_request cfg (devices_uri (cached_id s name))))),
          log_call s (unifi_request cfg (devices_uri (cached_id s name))))
    else (Ok (text_response 404 ("siteID " +:+ to_js_string (cached_id s name) +:+ " not found")), s).
Proof. unfold unifi_answer, bind, gets. destruct (truthy _); [apply fetchUnifiData_run|done]. Qed.

(** *** The gateway *)

(** C1: The gateway never lets an exception escape: it answers the upstream
    status, content type and parsed body when the upstream answered
    with a JSON body and a content type, and the generic 500
    otherwise, after exactly one upstream call. *)
Theorem gateway_relays URI s :
  fetchOpManData cfg upstream URI s =
    (Ok (gateway_response (upstream (opman_request cfg URI))), log_call s (opman_request cfg URI)) /\
  fetchUnifiData cfg upstream URI s =
    (Ok (gateway_response (upstream (unifi_request cfg URI))), log_call s (unifi_request cfg URI)).
Proof. split; [apply fetchOpManData_run | apply fetchUnifiData_run]. Qed.

(** *** The OpManager route *)

(** C12: A site with no configured firewall gets a 404 whose text says "not
    found", and no upstream request is made. *)
Theorem opmanager_unknown_site_404 name s :
  str_truthy (jm_get_str (siteFirewallMap cfg) name) = false ->
  exists msg, get_opmanager cfg upstream name s = (Ok (text_response 404 msg), s) /\
              str_includes "not found" msg = true.
Proof.
  intros H. unfold get_opmanager. rewrite H. eexists. split; [done|].
  do 2 apply str_includes_app_r. reflexivity.
Qed.

(** A site with a configured firewall [f] is answered by the gateway
    from the OpManager device query for [f]. *)
Lemma opmanager_known_site name f s :
  jm_get_str (siteFirewallMap cfg) name = Some f -> f <> "" ->
  get_opmanager cfg upstream name s =
    (Ok (gateway_response (upstream (opman_request cfg (firewall_uri f)))),
     log_call s (opman_request cfg (firewall_uri f))).
Proof.
  intros Hf Hne. unfold get_opmanager. rewrite Hf.
  assert (str_truthy (Some f) = true) as ->.
  { simpl. apply negb_true_iff, String.eqb_neq. done. }
  apply fetchOpManData_run.
Qed.

(** *** The site resolver *)

(** Cache hit: no site listing; the devices of the cached site id are
    fetched through the gateway. *)
Lemma get_unifi_hit name s :
  truthy (cached_id s name) = true ->
  get_unifi cfg upstream name s =
    (Ok (gateway_response (upstream (unifi_request cfg (devices_uri (cached_id s name))))),
     log_call s (unifi_request cfg (devices_uri (cached_id s name)))).
Proof.
  intros H. pose proof (unifi_answer_run name s) as E. rewrite H in E.
  unfold get_unifi, bind at 1, gets. rewrite H. exact E.
Qed.

(** A request to [/devices/unifi] lists the remote sites exactly once
    on a cache miss and never on a hit, whatever the upstream answers. *)
Lemma get_unifi_listings name s :
  listings (upstream_log (snd (get_unifi cfg upstream name s))) =
    listings (upstream_log s) + (if truthy (cached_id s name) then 0 else 1).
Proof.
  destruct (truthy (cached_id s name)) eqn:H.
  - rewrite get_unifi_hit by done. cbn [snd].
    rewrite listings_log_call, devices_uri_not_listing. lia.
  - rewrite get_unifi_miss by done. unfold bind at 1.
    pose proof (refresh_site_map_log s) as Hlog.
    destruct (refresh_site_map cfg upstream s) as [[[]|e] s1] eqn:E; cbn [snd] in Hlog |- *.
    + rewrite unifi_answer_run. destruct (truthy (cached_id s1 name)); cbn [snd];
        [rewrite listings_log_call, devices_uri_not_listing|];
        rewrite Hlog, listings_app, listings_single, listing_is_listing; lia.
    + rewrite Hlog, listings_app, listings_single, listing_is_listing. lia.
Qed.

(** *** [setSiteMap] *)

Lemma prop_not_null x k : x <> JNull -> prop (Some x) k = Ok (item_field k x).
Proof. intros Hx. unfold item_field. destruct x; done. Qed.

Lemma setSiteMap_item_run x s :
  x <> JNull ->
  setSiteMap_item cfg (Some x) s =
    (Ok tt, mkB (jm_set (siteNameToSiteID s) (site_pair cfg x).1 (site_pair cfg x).2) (upstream_log s)).
Proof. intros Hx. unfold setSiteMap_item. by rewrite !prop_not_null. Qed.

(** [setSiteMap] on a listing whose [data] is an array of non-null
    items sets, in order, each item's aliased name to its id. *)
Lemma setSiteMap_run data xs s :
  prop (Some data) "data" = Ok (Some (JArr xs)) -> Forall (fun x => x <> JNull) xs ->
  setSiteMap cfg data s =
    (Ok tt, mkB (fold_left (fun m kv => jm_set m kv.1 kv.2) (map (site_pair cfg) xs)
                           (siteNameToSiteID s))
                (upstream_log s)).
Proof.
  intros Hd Hxs. unfold setSiteMap.
  rewrite (bind_ok _ _ s (Some (JArr xs)) s) by (unfold of_res; by rewrite Hd).
  rewrite (bind_ok _ _ s (map Some xs) s) by done.
  clear Hd. revert s. induction Hxs as [|x xs Hx Hxs IH]; intros s; [by destruct s|].
  cbn [map for_each fold_left].
  rewrite (bind_ok _ _ s tt
             (mkB (jm_set (siteNameToSiteID s) (site_pair cfg x).1 (site_pair cfg x).2)
                  (upstream_log s))) by (by apply setSiteMap_item_run).
  cbv beta. by rewrite IH.
Qed.

(** A listed site whose name has no alias is cached under the key
    [undefined]: the last such site is what the cache answers for a
    request without [locationName]. *)
Lemma unaliased_site_cached_under_undefined data xs x s :
  prop (Some data) "data" = Ok (Some (JArr (xs ++ [x]))) ->
  Forall (fun y => y <> JNull) (xs ++ [x]) ->
  mapUnifiNameToSiteName cfg (item_field "name" x) = None ->
  cached_id (snd (setSiteMap cfg data s)) None = item_field "id" x.
Proof.
  intros Hd Hxs Hx. rewrite (setSiteMap_run data (xs ++ [x])) by done.
  unfold cached_id. cbn [snd siteNameToSiteID]. rewrite map_app, fold_left_app.
  cbn [map fold_left].
  assert (site_pair cfg x = (None, item_field "id" x)) as -> by (unfold site_pair; by rewrite Hx).
  cbn [fst snd]. by rewrite jm_get_set_eq.
Qed.

(** C4: A request without [locationName], on a cache miss, lists the sites
    and then fetches the devices of the last listed site that has no
    alias, and answers with them. *)
Theorem unnamed_request_served_unaliased_site data xs x s r :
  upstream (unifi_request cfg sites_listing_uri) = UpResponse r -> up_body r = Some data ->
  prop (Some data) "data" = Ok (Some (JArr (xs ++ [x]))) ->
  Forall (fun y => y <> JNull) (xs ++ [x]) ->
  mapUnifiNameToSiteName cfg (item_field "name" x) = None ->
  truthy (item_field "id" x) = true ->
  truthy (cached_id s None) = false ->
  fst (get_unifi cfg upstream None s) =
    Ok (gateway_response (upstream (unifi_request cfg (devices_uri (item_field "id" x))))) /\
  upstream_log (snd (get_unifi cfg upstream None s)) =
    upstream_log s ++ [unifi_request cfg sites_listing_uri;
                       unifi_request cfg (devices_uri (item_field "id" x))].
Proof.
  intros Hup Hb Hd Hxs Hx Hid Hmiss.
  cut (exists s', get_unifi cfg upstream None s =
         (Ok (gateway_response (upstream (unifi_request cfg (devices_uri (item_field "id" x))))), s') /\
       upstream_log s' = upstream_log s ++ [unifi_request cfg sites_listing_uri;
                                            unifi_request cfg (devices_uri (item_field "id" x))]).
  { intros (s' & -> & Hl). done. }
  rewrite get_unifi_miss by done. unfold bind at 1, refresh_site_map.
  rewrite (bind_ok _ _ s r (log_call s (unifi_request cfg sites_listing_uri)))
    by (rewrite sendUnifiRequest_eq, fetch_run, Hup; done).
  unfold response_json. rewrite Hb, bind_ret_l.
  pose proof (unaliased_site_cached_under_undefined data xs x
                (log_call s (unifi_request cfg sites_listing_uri)) Hd Hxs Hx) as Hc.
  rewrite (setSiteMap_run data (xs ++ [x])) in Hc |- * by done.
  cbn [snd] in Hc. rewrite unifi_answer_run, Hc, Hid.
  eexists. split; [reflexivity|]. simpl. by rewrite <- app_assoc.
Qed.

(** *** Unresolvable sites *)

Lemma setSiteMap_item_keeps name x v :
  item_sets cfg name x = false ->
  preserves (fun s' => jm_get (siteNameToSiteID s') name = v) (setSiteMap_item cfg x).
Proof.
  unfold item_sets, setSiteMap_item. intros Hx s' Hs'.
  unfold bind at 1, of_res at 1. destruct (prop x "name") as [nm|e]; [|done].
  unfold bind, of_res. destruct (prop x "id") as [id|e]; [|done]. simpl.
  rewrite jm_get_set_ne; [done|]. intros Heq. rewrite Heq in Hx.
  by rewrite bool_decide_eq_true_2 in Hx.
Qed.

Lemma refresh_keeps_entry name s :
  listing_mentions cfg upstream name = false ->
  jm_get (siteNameToSiteID (snd (refresh_site_map cfg upstream s))) name =
    jm_get (siteNameToSiteID s) name.
Proof.
  unfold listing_mentions, refresh_site_map. intros H.
  unfold bind at 1. rewrite sendUnifiRequest_eq, fetch_run.
  destruct (upstream _) as [|r]; [done|].
  unfold response_json. destruct (up_body r) as [data|]; [|done].
  rewrite bind_ret_l. unfold setSiteMap, bind at 1, of_res at 1.
  destruct (prop (Some data) "data") as [items|e]; [|done].
  unfold bind, of_res at 1. destruct (iter_of items) as [xs|e]; [|done].
  apply (preserves_for_each_in (fun s' => jm_get (siteNameToSiteID s') name =
                                            jm_get (siteNameToSiteID s) name)); [|done].
  intros x Hx. apply setSiteMap_item_keeps.
  destruct (item_sets cfg name x) eqn:E; [|done].
  exfalso. assert (existsb (item_sets cfg name) xs = true) as Hex.
  { apply existsb_exists. exists x. split; [by apply list_elem_of_In | done]. }
  congruence.
Qed.

Lemma get_unifi_keeps_entry name s :
  listing_mentions cfg upstream name = false ->
  jm_get (siteNameToSiteID (snd (get_unifi cfg upstream name s))) name =
    jm_get (siteNameToSiteID s) name.
Proof.
  intros Hm. destruct (truthy (cached_id s name)) eqn:H.
  - by rewrite get_unifi_hit.
  - rewrite get_unifi_miss by done. unfold bind at 1.
    pose proof (refresh_keeps_entry name s Hm) as Hk.
    destruct (refresh_site_map cfg upstream s) as [[[]|e] s1]; cbn [snd] in Hk |- *; [|done].
    rewrite unifi_answer_run. by destruct (truthy (cached_id s1 name)).
Qed.

(** C5: A site that the remote listing never mentions is listed again on
    every request for it: [n] requests make [n] site listings (the spec
    promises a terminal miss after one listing). *)
Theorem unresolvable_site_relisted name n s :
  listing_mentions cfg upstream name = false ->
  truthy (cached_id s name) = false ->
  listings (upstream_log (serve_unifi_n cfg upstream n name s)) = listings (upstream_log s) + n.
Proof.
  intros Hm. revert s. induction n as [|n IH]; intros s Hs; simpl; [lia|].
  rewrite IH.
  - rewrite get_unifi_listings, Hs. lia.
  - unfold cached_id. by rewrite get_unifi_keeps_entry.
Qed.

(** *** Invariants of the handlers *)

(** A property of states kept by an upstream call and by a [set] on
    the cache is kept by every request, whatever the upstream answers. *)
Lemma handle_preserves (P : bstate -> Prop) req :
  (forall s r, P s -> P (log_call s r)) ->
  (forall s site id, P s -> P (mkB (jm_set (siteNameToSiteID s) site id) (upstream_log s))) ->
  preserves P (handle cfg upstream req).
Proof.
  intros Hlog Hset.
  assert (Hfetch : forall r, preserves P (fetch upstream r)).
  { intros r s Hs. rewrite fetch_run. by apply Hlog. }
  destruct req as [|name|name]; unfold handle, get_locations, get_opmanager, get_unifi,
    refresh_site_map, unifi_answer, fetchOpManData, fetchUnifiData, fetchData,
    sendOpManRequest, sendUnifiRequest, sendRequestWithHeaders, response_json, relay;
    preserves_auto; auto using setSiteMap_preserves.
Qed.

(** C14: The cache only grows: no request removes a site name from it. *)
Theorem handle_cache_keys_grow req s k :
  k ∈ jm_keys (siteNameToSiteID s) ->
  k ∈ jm_keys (siteNameToSiteID (snd (handle cfg upstream req s))).
Proof.
  apply (handle_preserves (fun s' => k ∈ jm_keys (siteNameToSiteID s'))); [done|].
  intros s' site id. apply jm_keys_set_incl.
Qed.

(** C11: A request causes at most two upstream calls (one for OpManager, none
    for the site list), appended to the log in order; OpManager calls
    never check the server certificate, UniFi calls always do. *)
Theorem handle_upstream_requests req s :
  exists new, upstream_log (snd (handle cfg upstream req s)) = upstream_log s ++ new /\
              length new <= calls_bound req /\
              Forall (fun r => up_verify_tls r = verifies_tls req) new.
Proof.
  destruct req as [|name|name]; simpl.
  - exists []. rewrite app_nil_r. split_and!; [done|simpl; lia|constructor].
  - unfold get_opmanager. destruct (negb (str_truthy _)).
    + exists []. rewrite app_nil_r. split_and!; [done|simpl; lia|constructor].
    + rewrite fetchOpManData_run. eexists. split_and!; [done|simpl; lia|by repeat constructor].
  - destruct (truthy (cached_id s name)) eqn:H.
    + rewrite get_unifi_hit by done. eexists. split_and!; [done|simpl; lia|by repeat constructor].
    + rewrite get_unifi_miss by done. unfold bind at 1.
      pose proof (refresh_site_map_log s) as Hlog.
      destruct (refresh_site_map cfg upstream s) as [[[]|e] s1]; cbn [snd] in Hlog |- *.
      * rewrite unifi_answer_run. destruct (truthy (cached_id s1 name)); cbn [snd].
        -- eexists. unfold log_call at 1. simpl. rewrite Hlog, <- app_assoc.
           split_and!; [done|simpl; lia|by repeat constructor].
        -- eexists. split_and!; [done|simpl; lia|by repeat constructor].
      * eexists. split_and!; [done|simpl; lia|by repeat constructor].
Qed.

(** *** The service *)

Lemma serve_handle req s :
  @serve _ (Server_service cfg upstream) req s = to_outcome (handle cfg upstream req s).
Proof. reflexivity. Qed.

(** C3: Cache hit: the service answers a [/devices/unifi] request for a
    cached site from the gateway's query for the devices of the cached
    id, without listing the sites and without an escaping exception. *)
Theorem resolver_cache_hit name s :
  truthy (cached_id s name) = true ->
  @serve _ (Server_service cfg upstream) (GetUnifi name) s =
    (Responded (gateway_response (upstream (unifi_request cfg (devices_uri (cached_id s name))))),
     log_call s (unifi_request cfg (devices_uri (cached_id s name)))).
Proof. intros H. rewrite serve_handle. cbn [handle]. by rewrite get_unifi_hit. Qed.

(** C2: The service lists the remote sites exactly once for a
    [/devices/unifi] request on a cache miss and never on a hit,
    whatever the upstream answers. *)
Theorem resolver_one_listing_per_miss name s :
  listings (upstream_log (snd (@serve _ (Server_service cfg upstream) (GetUnifi name) s))) =
    listings (upstream_log s) + (if truthy (cached_id s name) then 0 else 1).
Proof. rewrite serve_handle, to_outcome_snd. apply get_unifi_listings. Qed.

(** C6: A site listing that fails in transport is outside the route's
    [try]: on a cache miss the exception escapes the handler of
    [/devices/unifi] instead of the promised 500 answer. *)
Theorem unifi_listing_failure_unhandled name s :
  truthy (cached_id s name) = false ->
  upstream (unifi_request cfg sites_listing_uri) = UpNetError ->
  @serve _ (Server_service cfg upstream) (GetUnifi name) s =
    (Unhandled NetworkError, log_call s (unifi_request cfg sites_listing_uri)).
Proof.
  intros Hm Hup. rewrite serve_handle. cbn [handle]. rewrite get_unifi_miss by done.
  unfold bind at 1, refresh_site_map.
  rewrite (bind_exc _ _ s NetworkError (log_call s (unifi_request cfg sites_listing_uri)))
    by (rewrite sendUnifiRequest_eq, fetch_run, Hup; done).
  done.
Qed.

(** C13: [setSiteMap] on a listing whose [data] is an array of non-null
    items completes, calls nothing upstream, and leaves for each site
    name the id of the last item mapped to it, or the cached id when no
    item is. *)
Theorem setSiteMap_spec data xs s k :
  prop (Some data) "data" = Ok (Some (JArr xs)) -> Forall (fun x => x <> JNull) xs ->
  fst (setSiteMap cfg data s) = Ok tt /\
  jm_get (siteNameToSiteID (snd (setSiteMap cfg data s))) k =
    match last_value k (map (site_pair cfg) xs) with
    | Some v => Some v
    | None => jm_get (siteNameToSiteID s) k
    end /\
  upstream_log (snd (setSiteMap cfg data s)) = upstream_log s.
Proof.
  intros Hd Hxs. rewrite (setSiteMap_run data xs s Hd Hxs). cbn [fst snd siteNameToSiteID upstream_log].
  split_and!; [done|apply jm_get_fold_set|done].
Qed.
End Theorems.

(** ** Examples *)

Lemma resolver_cache_hit_witness :
  @serve _ (Server_service demo_cfg demo_upstream) (GetUnifi (Some "Greensboro")) demo_cached =
    (Responded (gateway_response (demo_upstream (unifi_request demo_cfg (devices_uri (Some (JStr "s1")))))),
     log_call demo_cached (unifi_request demo_cfg (devices_uri (Some (JStr "s1"))))).
Proof. apply (resolver_cache_hit demo_cfg demo_upstream (Some "Greensboro") demo_cached). vm_compute. reflexivity. Defined.

Lemma unnamed_request_served_unaliased_site_witness :
  fst (get_unifi demo_cfg demo_upstream None initial_bstate) =
    Ok (gateway_response (demo_upstream (unifi_request demo_cfg (devices_uri (item_field "id" demo_lab_item))))) /\
  upstream_log (snd (get_unifi demo_cfg demo_upstream None initial_bstate)) =
    upstream_log initial_bstate ++ [unifi_request demo_cfg sites_listing_uri;
                                    unifi_request demo_cfg (devices_uri (item_field "id" demo_lab_item))].
Proof.
  apply (unnamed_request_served_unaliased_site demo_cfg demo_upstream demo_listing [demo_gso_item]
           demo_lab_item initial_bstate
           {| up_status := 200; up_content_type := Some "application/json"; up_body := Some demo_listing |});
    vm_compute; try reflexivity.
  repeat constructor; discriminate.
Defined.

Lemma unresolvable_site_relisted_witness :
  listings (upstream_log (serve_unifi_n demo_cfg demo_upstream 3 (Some "Durham") initial_bstate)) =
    listings (upstream_log initial_bstate) + 3.
Proof. apply (unresolvable_site_relisted demo_cfg demo_upstream (Some "Durham") 3 initial_bstate); vm_compute; reflexivity. Defined.

Lemma unifi_listing_failure_unhandled_witness :
  @serve _ (Server_service demo_cfg (fun _ => UpNetError)) (GetUnifi (Some "Durham")) initial_bstate =
    (Unhandled NetworkError, log_call initial_bstate (unifi_request demo_cfg sites_listing_uri)).
Proof. apply (unifi_listing_failure_unhandled demo_cfg (fun _ => UpNetError) (Some "Durham") initial_bstate); reflexivity. Defined.

Lemma opmanager_unknown_site_404_witness :
  exists msg, get_opmanager demo_cfg demo_upstream (Some "Durham") initial_bstate =
                (Ok (text_response 404 msg), initial_bstate) /\ str_includes "not found" msg = true.
Proof. apply (opmanager_unknown_site_404 demo_cfg demo_upstream (Some "Durham") initial_bstate). vm_compute. reflexivity. Defined.

Lemma handle_cache_keys_grow_witness :
  Some "Greensboro" ∈ jm_keys (siteNameToSiteID (snd (handle demo_cfg demo_upstream (GetUnifi (Some "Durham")) demo_cached))).
Proof. apply (handle_cache_keys_grow demo_cfg demo_upstream (GetUnifi (Some "Durham")) demo_cached (Some "Greensboro")). vm_compute. left. Defined.

Lemma setSiteMap_spec_witness :
  fst (setSiteMap demo_cfg demo_listing initial_bstate) = Ok tt /\
  jm_get (siteNameToSiteID (snd (setSiteMap demo_cfg demo_listing initial_bstate))) (Some "Greensboro") =
    match last_value (Some "Greensboro") (map (site_pair demo_cfg) [demo_gso_item; demo_lab_item]) with
    | Some v => Some v
    | None => jm_get (siteNameToSiteID initial_bstate) (Some "Greensboro")
    end /\
  upstream_log (snd (setSiteMap demo_cfg demo_listing initial_bstate)) = upstream_log initial_bstate.
Proof.
  apply (setSiteMap_spec demo_cfg demo_listing [demo_gso_item; demo_lab_item] initial_bstate (Some "Greensboro")).
  - reflexivity.
  - repeat constructor; discriminate.
Defined.
