(* ===== verification/Notifications.v ===== *)
(** * Notifications: the notification panel of [notificationMenu.js]

    State ([panel_state]): the children of [#notificationPanel], in
    order, each a [notification] (its text, the site it is for, its
    background colour and the content its click opens), and the counter
    bubble of [#hamburger] ([Some n] shows [n], [None] is no bubble).
    The page is assumed to hold only notifications in the panel, so
    [panel.children.length] is the number of notifications.

    Operations: [addNotification] (lines 18-48), [removeNotification]
    (lines 50-62) and [updateOrAddBubble] (lines 7-16).  The content a
    notification opens is kept as the list of fragments [addNotification]
    concatenates: the firewall record (rendered by [formatOpManObject])
    and the offline devices (rendered by [formatUnifiDeviceList]),
    separated by [<br>].

    Invariants: the bubble shows the number of notifications
    ([bubble_ok]), which every operation keeps; removing then adding the
    notification of a site keeps at most one notification per site
    ([unique_sites]), and doing it twice gives the panel of doing it
    once. *)

From stdpp Require Import base list strings sets.
From S2P Require Import Prelude JsString Json Render.

Inductive fragment : Type :=
| FirewallFragment (firewallInfo : json)
| DevicesFragment (devices : list json).

Record notification : Type := mkNotif {
  n_message : string;
  n_location : jsval;
  n_background : option string;
  n_content : list fragment;
  n_html : string;              (** the HTML its [onclick] opens in the modal *)
}.

Record panel_state : Type := mkPanel {
  panel : list notification;
  bubble : option nat;
  panel_open : bool;            (** [#notificationPanel] has the class [open] *)
  modal_open : bool;            (** [#notificationModal] is displayed *)
  modal_content : string;       (** [#modalContent.innerHTML] *)
}.

Definition firewall_red : string := "rgb(240, 174, 174)".
Definition devices_yellow : string := "rgb(244, 247, 171)".

(** [updateOrAddBubble(count)] *)
Definition updateOrAddBubble (count : nat) (b : option nat) : option nat :=
  if 0 <? count then
    match b with
    | Some _ => Some count        (* bubble.textContent = count *)
    | None => Some count          (* hamburger.innerHTML += bubble *)
    end
  else
    match b with
    | Some _ => None              (* bubble.remove() *)
    | None => None
    end.

(** The panel with new children and the bubble recounted, as after
    [panel.appendChild] or [notif.remove()] then
    [updateOrAddBubble(panel.children.length)]. *)
Definition set_children (children : list notification) (p : panel_state) : panel_state :=
  mkPanel children (updateOrAddBubble (length children) (bubble p)) (panel_open p) (modal_open p) (modal_content p).

(** Remove the first notification of a site, as the loop with [break]. *)
Fixpoint remove_first (name : jsval) (l : list notification) : list notification :=
  match l with
  | [] => []
  | n :: l' => if decide (n_location n = name) then l' else n :: remove_first name l'
  end.

(** [removeNotification(locationName)] *)
Definition removeNotification (locationName : jsval) : M panel_state unit :=
  modify (fun p => set_children (remove_first locationName (panel p)) p).

(** [addNotification(message, locationName, firewallInfo, OfflineUnifiDevices)]:
    [firewallInfo.statusStr] throws when the site has no firewall record;
    the HTML of the modal is built before the card is appended, so an
    exception of [formatUnifiDeviceList] leaves the panel unchanged. *)
Definition addNotification (message : string) (locationName : jsval)
    (firewallInfo : option json) (OfflineUnifiDevices : list json) : M panel_state unit :=
  let* statusStr := of_res (prop firewallInfo "statusStr") in
  let* '(html, bg, content) :=
    if decide (statusStr <> Some (JStr "Clear")) then
      let* h := of_res (formatOpManObject firewallInfo) in
      ret (h, Some firewall_red, match firewallInfo with Some f => [FirewallFragment f] | None => [] end)
    else ret (EmptyString, None, []) in
  let* '(html, bg, content) :=
    if decide (length OfflineUnifiDevices <> 0) then
      if String.eqb html EmptyString then
        let* h := of_res (formatUnifiDeviceList OfflineUnifiDevices) in
        ret (html +:+ h, Some devices_yellow, content ++ [DevicesFragment OfflineUnifiDevices])
      else
        let* h := of_res (formatUnifiDeviceList OfflineUnifiDevices) in
        ret (html +:+ "<br>" +:+ h, bg, content ++ [DevicesFragment OfflineUnifiDevices])
    else ret (html, bg, content) in
  modify (fun p => set_children (panel p ++ [mkNotif message locationName bg content html]) p).

(** [togglePanel()] (lines 2-5) *)
Definition togglePanel : M panel_state unit :=
  modify (fun p => mkPanel (panel p) (bubble p) (negb (panel_open p)) (modal_open p) (modal_content p)).

(** [openModal(message)] (lines 64-69) *)
Definition openModal (message : string) : M panel_state unit :=
  modify (fun p => mkPanel (panel p) (bubble p) (panel_open p) true message).

(** [closeModal()] (lines 71-74) *)
Definition closeModal : M panel_state unit :=
  modify (fun p => mkPanel (panel p) (bubble p) (panel_open p) false (modal_content p)).

(** A click on the [i]-th notification of the panel runs its [onclick]
    (lines 42-44): the modal opens with the notification's HTML. *)
Definition clickNotification (i : nat) : M panel_state unit :=
  let* children := gets panel in
  match children !! i with
  | Some N => openModal (n_html N)
  | None => ret tt
  end.

(** ** Invariants *)

(** The bubble shows the number of notifications, and none when there
    are none. *)
Definition bubble_ok (p : panel_state) : Prop :=
  bubble p = if 0 <? length (panel p) then Some (length (panel p)) else None.

(** At most one notification per site. *)
Definition unique_sites (p : panel_state) : Prop := NoDup (map n_location (panel p)).

Lemma updateOrAddBubble_spec c b : updateOrAddBubble c b = if 0 <? c then Some c else None.
Proof. unfold updateOrAddBubble. by destruct (0 <? c), b. Qed.

Lemma set_children_bubble_ok children p : bubble_ok (set_children children p).
Proof. unfold bubble_ok. simpl. apply updateOrAddBubble_spec. Qed.

Lemma remove_first_notin name l :
  name ∉ map n_location l -> remove_first name l = l.
Proof.
  induction l as [|n l IH]; simpl; intros Hn; [done|].
  rewrite decide_False by (intros <-; apply Hn; by left).
  f_equal. apply IH. intros H. apply Hn. by right.
Qed.

Lemma remove_first_app_notin name l r :
  name ∉ map n_location l -> remove_first name (l ++ r) = l ++ remove_first name r.
Proof.
  induction l as [|n l IH]; simpl; intros Hn; [done|].
  rewrite decide_False by (intros <-; apply Hn; by left).
  f_equal. apply IH. intros H. apply Hn. by right.
Qed.

Lemma remove_first_map_incl name l x :
  x ∈ map n_location (remove_first name l) -> x ∈ map n_location l.
Proof.
  induction l as [|n l IH]; simpl; [done|].
  destruct (decide _); [intros; by right|].
  simpl. intros [->|Hx]%elem_of_cons; [by left|]. right. by apply IH.
Qed.

(** Removing the first notification of a site from a panel with one per
    site leaves none for it. *)
Lemma remove_first_nodup name l :
  NoDup (map n_location l) ->
  NoDup (map n_location (remove_first name l)) /\ name ∉ map n_location (remove_first name l).
Proof.
  induction l as [|n l IH]; simpl; intros Hnd; [split; [constructor|set_solver]|].
  apply NoDup_cons in Hnd as [Hn Hnd].
  destruct (decide (n_location n = name)) as [<-|Hne].
  - split; [done|]. done.
  - destruct (IH Hnd) as [H1 H2]. split.
    + simpl. apply NoDup_cons. split; [|done].
      intros Hin. apply Hn. by eapply remove_first_map_incl.
    + simpl. intros [->|?]%elem_of_cons; congruence.
Qed.

Lemma removeNotification_run name p :
  removeNotification name p = (Ok tt, set_children (remove_first name (panel p)) p).
Proof. reflexivity. Qed.

(** [addNotification] either throws before touching the panel, or
    appends one notification for the site, whatever the panel. *)
Lemma addNotification_run msg name f ds :
  (exists e, forall p, addNotification msg name f ds p = (Exc e, p)) \/
  (exists N, n_location N = name /\
     forall p, addNotification msg name f ds p = (Ok tt, set_children (panel p ++ [N]) p)).
Proof.
  unfold addNotification, bind, of_res, ret, modify.
  destruct (prop f "statusStr") as [st|e]; [|left; eauto].
  destruct (decide _); [destruct (formatOpManObject f) as [h|e]; [|left; eauto]|];
    (destruct (decide _); [destruct (String.eqb _ _);
                           destruct (formatUnifiDeviceList ds) as [h'|e]; try (left; eauto; fail)|]);
    right; eexists; (split; [|intros p; reflexivity]); reflexivity.
Qed.

Lemma removeNotification_bubble_ok name : preserves bubble_ok (removeNotification name).
Proof. intros p _. apply set_children_bubble_ok. Qed.

Lemma addNotification_bubble_ok msg name f ds : preserves bubble_ok (addNotification msg name f ds).
Proof.
  intros p Hp. destruct (addNotification_run msg name f ds) as [(e & H)|(N & _ & H)];
    rewrite H; [done|apply set_children_bubble_ok].
Qed.

#[export] Hint Resolve removeNotification_bubble_ok addNotification_bubble_ok : js.

(** ** The panel as a map from sites to messages *)

(** The message of the notification of a site, as the spec keys them
    (the first one, as [removeNotification] finds it). *)
Fixpoint note_of (name : jsval) (l : list notification) : option string :=
  match l with
  | [] => None
  | n :: l' => if decide (n_location n = name) then Some (n_message n) else note_of name l'
  end.

Lemma note_of_notin name l : name ∉ map n_location l -> note_of name l = None.
Proof.
  induction l as [|n l IH]; simpl; intros Hn; [done|].
  rewrite decide_False by (intros <-; apply Hn; by left). apply IH. intros H. apply Hn. by right.
Qed.

Lemma note_of_remove_first_ne k name l : k <> name -> note_of k (remove_first name l) = note_of k l.
Proof.
  intros Hk. induction l as [|n l IH]; simpl; [done|].
  destruct (decide (n_location n = name)) as [Hn|Hn]; simpl.
  - by rewrite decide_False by congruence.
  - by rewrite IH.
Qed.

Lemma note_of_app_last k l N :
  note_of k (l ++ [N]) = match note_of k l with
                          | Some m => Some m
                          | None => if decide (n_location N = k) then Some (n_message N) else None
                          end.
Proof. induction l as [|n l IH]; simpl; [done|]. destruct (decide (n_location n = k)); [done|apply IH]. Qed.

(** [addNotification] on a firewall record whose cards can be built
    appends one notification for the site, with the message. *)
Lemma addNotification_ok msg name f st ds p fh dh :
  prop (Some f) "statusStr" = Ok st ->
  formatOpManObject (Some f) = Ok fh -> formatUnifiDeviceList ds = Ok dh ->
  exists N, n_location N = name /\ n_message N = msg /\
    addNotification msg name (Some f) ds p = (Ok tt, set_children (panel p ++ [N]) p).
Proof.
  intros Hst Hf Hd. unfold addNotification, bind, of_res, ret, modify. rewrite Hst.
  destruct (decide (st <> Some (JStr "Clear"))); rewrite ?Hf; cbn [res_bind];
    (destruct (decide (length ds <> 0)); [destruct (String.eqb _ _); rewrite Hd; cbn [res_bind]|]);
    eexists (mkNotif msg name _ _ _); split_and!; reflexivity.
Qed.

(** ** Theorems *)

(** Removing a site's notification keeps at most one notification per
    site, and leaves none for that site. *)
Lemma removeNotification_unique name p :
  unique_sites p ->
  unique_sites (snd (removeNotification name p)) /\
  name ∉ map n_location (panel (snd (removeNotification name p))).
Proof. intros H. rewrite removeNotification_run. by apply remove_first_nodup. Qed.

(** Removing a site's notification then adding one for it keeps at most
    one notification per site. *)
Lemma remove_add_unique msg name f ds p :
  unique_sites p ->
  unique_sites (snd ((removeNotification name ;;; addNotification msg name f ds) p)).
Proof.
  intros H. destruct (removeNotification_unique name p H) as [H1 H2].
  unfold bind. rewrite removeNotification_run in H1, H2 |- *.
  destruct (addNotification_run msg name f ds) as [(e & Ha)|(N & HN & Ha)];
    rewrite Ha; [done|]. unfold unique_sites in *. simpl in *.
  rewrite map_app. simpl. apply NoDup_app. split_and!; [done| |by apply NoDup_singleton].
  intros x Hx ->%list_elem_of_singleton. by rewrite HN in Hx.
Qed.

(** Recomputing a site's notification twice gives the panel of doing it
    once: the second removal takes exactly what the first addition put. *)
Lemma remove_add_idem name (a : M panel_state unit) p :
  (a = ret tt \/ exists msg f ds, a = addNotification msg name f ds) ->
  unique_sites p ->
  snd ((removeNotification name ;;; a) (snd ((removeNotification name ;;; a) p))) =
    snd ((removeNotification name ;;; a) p).
Proof.
  intros Ha Hu. destruct (removeNotification_unique name p Hu) as [_ Hn].
  rewrite removeNotification_run in Hn. unfold bind. rewrite !removeNotification_run.
  set (l := remove_first name (panel p)) in *.
  destruct Ha as [->|(msg & f & ds & ->)].
  - simpl. rewrite (remove_first_notin name l Hn). unfold set_children; cbn; by rewrite !updateOrAddBubble_spec.
  - destruct (addNotification_run msg name f ds) as [(e & Ha)|(N & HN & Ha)];
      rewrite !Ha; simpl.
    + rewrite (remove_first_notin name l Hn). unfold set_children; cbn; by rewrite !updateOrAddBubble_spec.
    + rewrite (remove_first_app_notin name l) by done. simpl.
      rewrite decide_True by done. rewrite app_nil_r. simpl.
      unfold set_children; cbn; by rewrite !updateOrAddBubble_spec.
Qed.

(** Removing then re-adding a site's notification changes the message of
    that site only: after [removeNotification name ;;; a], the site has
    the message [a] adds, or none, and every other site keeps its own. *)
Lemma remove_then_note name (a : M panel_state unit) p text :
  unique_sites p ->
  (forall q, name ∉ map n_location (panel q) ->
     exists N, (text = None /\ a q = (Ok tt, q) \/
                text = Some (n_message N) /\ n_location N = name /\
                a q = (Ok tt, set_children (panel q ++ [N]) q))) ->
  note_of name (panel (snd ((removeNotification name ;;; a) p))) = text /\
  forall k, k <> name ->
    note_of k (panel (snd ((removeNotification name ;;; a) p))) = note_of k (panel p).
Proof.
  intros Hu Ha. destruct (removeNotification_unique name p Hu) as [_ Hn].
  unfold bind. rewrite removeNotification_run in Hn |- *. cbv beta iota. cbn [fst snd] in Hn.
  destruct (Ha _ Hn) as (N & [[-> Haq]|(-> & HN & Haq)]); rewrite Haq; cbn [snd panel set_children] in Hn |- *.
  - split; [by apply note_of_notin|]. intros k Hk. by apply note_of_remove_first_ne.
  - rewrite !note_of_app_last, note_of_notin by done. rewrite decide_True by done.
    split; [done|]. intros k Hk. rewrite note_of_app_last, note_of_remove_first_ne by done.
    rewrite decide_False by congruence. by destruct (note_of k (panel p)).
Qed.

(** C17: [addNotification] on a site whose firewall record has
    [statusStr] [st] appends one card for the site and sets the bubble to
    the new count.  The card shows the firewall record unless [st] is
    ["Clear"], then the offline devices if there are any (separated by
    [<br>]); it is red when the firewall part is shown, yellow when only
    devices are, and has no colour when it shows nothing. *)
Theorem addNotification_card msg name f st ds p fh dh :
  prop (Some f) "statusStr" = Ok st ->
  formatOpManObject (Some f) = Ok fh -> formatUnifiDeviceList ds = Ok dh ->
  addNotification msg name (Some f) ds p =
    (Ok tt, mkPanel
       (panel p ++
        [mkNotif msg name
           (if bool_decide (st = Some (JStr "Clear"))
            then (if bool_decide (ds = []) then None else Some devices_yellow)
            else Some firewall_red)
           ((if bool_decide (st = Some (JStr "Clear")) then [] else [FirewallFragment f]) ++
            (if bool_decide (ds = []) then [] else [DevicesFragment ds]))
           (if bool_decide (st = Some (JStr "Clear"))
            then (if bool_decide (ds = []) then EmptyString else dh)
            else (if bool_decide (ds = []) then fh else fh +:+ "<br>" +:+ dh))])
       (Some (S (length (panel p)))) (panel_open p) (modal_open p) (modal_content p)).
Proof.
  intros Hst Hf Hd. unfold addNotification, bind, of_res, ret, modify. rewrite Hst.
  assert (Hfe : String.eqb fh EmptyString = false)
    by (apply String.eqb_neq; by apply (formatOpManObject_nonempty (Some f))).
  destruct (decide (st <> Some (JStr "Clear"))) as [Hn|Hn];
    [rewrite Hf, bool_decide_eq_false_2 by done
    |rewrite bool_decide_eq_true_2 by (destruct (decide (st = Some (JStr "Clear"))); tauto)];
    destruct ds as [|d ds]; cbn [length];
    first [rewrite decide_False by lia | rewrite decide_True by lia];
    rewrite ?Hfe, ?Hd; cbn [String.eqb res_bind];
    unfold set_children; cbn [panel bubble panel_open modal_open modal_content];
    rewrite updateOrAddBubble_spec, length_app, Nat.add_1_r; done.
Qed.

(** ** Examples *)

Lemma addNotification_card_witness :
  exists fh, formatOpManObject (Some (JObj [("statusStr", JStr "Down")])) = Ok fh /\
  addNotification "Firewall is offline at Durham" (Some (JStr "Durham"))
    (Some (JObj [("statusStr", JStr "Down")])) [] (mkPanel [] None false false EmptyString) =
  (Ok tt, mkPanel
     ([] ++ [mkNotif "Firewall is offline at Durham" (Some (JStr "Durham"))
              (if bool_decide (Some (JStr "Down") = Some (JStr "Clear"))
               then (if bool_decide (@nil json = []) then None else Some devices_yellow)
               else Some firewall_red)
              ((if bool_decide (Some (JStr "Down") = Some (JStr "Clear")) then []
                else [FirewallFragment (JObj [("statusStr", JStr "Down")])]) ++
               (if bool_decide (@nil json = []) then [] else [DevicesFragment []]))
              (if bool_decide (Some (JStr "Down") = Some (JStr "Clear"))
               then (if bool_decide (@nil json = []) then EmptyString else EmptyString)
               else (if bool_decide (@nil json = []) then fh else fh +:+ "<br>" +:+ EmptyString))])
     (Some (S (length (@nil notification)))) false false EmptyString).
Proof.
  eexists. split; [reflexivity|].
  apply (addNotification_card _ _ (JObj [("statusStr", JStr "Down")]) (Some (JStr "Down")) []
           (mkPanel [] None false false EmptyString) _ EmptyString); reflexivity.
Defined.
