(* ===== verification/Frontend.v ===== *)
(** * Frontend: the browser client of [src/FrontEnd/index.js]

    State ([fstate]): the module-level variables of [index.js]
    ([locations], [siteToDeviceMap], [locationToFirewall],
    [locationNameToMarker], [currentLocation], [deviceKind],
    [firewallOnlineStatus], [offlineUnifiDevicesByLocation], [infoWindow]),
    the notification panel of [Notifications], the device side panel of
    [DevicePanel.js] ([devicePanel], [devicePanelOpen]), the state of the
    backend the client talks to, and the log of the requests it sent.
    Markers are modelled by the colour of their pin, the info window by
    its content ([createInfoWindowHTML]), position, anchor and open
    state, panels by the HTML they show.

    The backend is any [HttpService] (section variable): the theorems of
    this file hold whatever the backend answers.  The order of the
    device list that [formatDeviceList] sorts in place is given by
    [sort_devices], the [Array.prototype.sort] call with the comparator
    of lines 39-45 (a section variable: the order is the engine's);
    the theorem that [formatDeviceList] builds the panel assumes of it
    the contract [sort_contract] with [compare_devices] of [Render].

    Operations, one per function of the source: [fetchData],
    [getOfflineUnifiDevices], [formatDeviceList], [updateDevicePanel],
    [updateMarker], [updateNotificationMenu], [requestUpdateFirewallInfo]
    and [requestUnifiDeviceInfo] with their response handlers,
    [requestLocationInfo], [requestDeviceList], and the start-up
    functions [initLocationsArray], [initSiteToDeviceMap],
    [initOfflineUnifiDevicesByLocationMap], [initMap], [callFunctions];
    the info window ([createInfoWindowHTML], [updateInfoWindow], the
    buttons of [registerButtonCallBacks], the [closeclick] listener); the
    events of the page ([run_event]).  The spec-level functions
    [marker_color], [notification_text], [derive] and the abstraction
    [site_view] state what a site refresh must show. *)

From stdpp Require Import base list strings sets.
From Stdlib Require Import ZArith.
From S2P Require Import Prelude JsString Json Render JsMap Http Notifications.

(** The three pins of [updateMarker] (and the green pin of [initMap]). *)
Inductive pin : Type := Red | Yellow | Green.

#[export] Instance pin_eq_dec : EqDecision pin.
Proof. solve_decision. Defined.

(** [Map.get] of a map whose values may themselves be [undefined]. *)
Definition jm_get_val {K} `{EqDecision K} (m : jsmap K jsval) (k : K) : jsval :=
  match jm_get m k with Some v => v | None => None end.

(** [!firewallStatus] for a status that is a boolean or [undefined]. *)
Definition status_falsy (firewallStatus : option bool) : bool :=
  match firewallStatus with Some true => false | _ => true end.

(** What [createInfoWindowHTML(siteName)] builds (lines 123-166): the
    heading text, the firewall card, and the site to which
    [registerButtonCallBacks] binds the listeners of its three buttons. *)
Record info_content : Type := mkInfo {
  info_heading : string;
  info_firewall : string;
  info_site : jsval;
}.

(** The [google.maps.InfoWindow] of [initMap]: its content, its position,
    the marker it is anchored to (named by its site; [None] when
    [locationNameToMarker.get] gave [undefined]) and whether it is open. *)
Record info_window : Type := mkIW {
  iw_content : option info_content;
  iw_position : jsval;
  iw_anchor : option jsval;
  iw_open : bool;
}.

(** [locationName === currentLocation], [null] being [None]. *)
Definition is_current (cur : option jsval) (name : jsval) : bool :=
  match cur with None => bool_decide (name = Some JNull) | Some c => bool_decide (c = name) end.

(** The client's functions, in a module of their own: [fetchData] is
    also the name of a function of the backend. *)
Module Client.
Section Frontend.
Context {St : Type} `{!HttpService St}.
Context (sort_devices : list json -> res (list json)).

Record fstate : Type := mkF {
  backend : St;
  requests : list request;
  locations : json;
  siteToDeviceMap : jsmap jsval jsval;
  locationToFirewall : jsmap jsval jsval;
  locationNameToMarker : jsmap jsval pin;
  currentLocation : option jsval;      (** [None] is [null] *)
  deviceKind : option string;          (** [None] is [null] *)
  firewallOnlineStatus : jsmap jsval bool;
  offlineUnifiDevicesByLocation : jsmap jsval (list json);
  notifications : panel_state;
  devicePanel : option string;           (** [devicePanel.innerHTML] *)
  devicePanelOpen : bool;
  infoWindow : option info_window;       (** [None] is [undefined], before [initMap] *)
}.

Definition initial_fstate (b : St) : fstate :=
  mkF b [] (JArr []) [] [] [] None None [] [] (mkPanel [] None false false EmptyString) None false None.

(** *** Assignments to the variables *)

Definition set_siteToDeviceMap m s :=
  mkF (backend s) (requests s) (locations s) m (locationToFirewall s)
    (locationNameToMarker s) (currentLocation s) (deviceKind s) (firewallOnlineStatus s)
    (offlineUnifiDevicesByLocation s) (notifications s) (devicePanel s) (devicePanelOpen s) (infoWindow s).
Definition set_locationToFirewall m s :=
  mkF (backend s) (requests s) (locations s) (siteToDeviceMap s) m
    (locationNameToMarker s) (currentLocation s) (deviceKind s) (firewallOnlineStatus s)
    (offlineUnifiDevicesByLocation s) (notifications s) (devicePanel s) (devicePanelOpen s) (infoWindow s).
Definition set_locationNameToMarker m s :=
  mkF (backend s) (requests s) (locations s) (siteToDeviceMap s) (locationToFirewall s)
    m (currentLocation s) (deviceKind s) (firewallOnlineStatus s)
    (offlineUnifiDevicesByLocation s) (notifications s) (devicePanel s) (devicePanelOpen s) (infoWindow s).
Definition set_firewallOnlineStatus m s :=
  mkF (backend s) (requests s) (locations s) (siteToDeviceMap s) (locationToFirewall s)
    (locationNameToMarker s) (currentLocation s) (deviceKind s) m
    (offlineUnifiDevicesByLocation s) (notifications s) (devicePanel s) (devicePanelOpen s) (infoWindow s).
Definition set_offlineUnifiDevicesByLocation m s :=
  mkF (backend s) (requests s) (locations s) (siteToDeviceMap s) (locationToFirewall s)
    (locationNameToMarker s) (currentLocation s) (deviceKind s) (firewallOnlineStatus s)
    m (notifications s) (devicePanel s) (devicePanelOpen s) (infoWindow s).
Definition set_notifications p s :=
  mkF (backend s) (requests s) (locations s) (siteToDeviceMap s) (locationToFirewall s)
    (locationNameToMarker s) (currentLocation s) (deviceKind s) (firewallOnlineStatus s)
    (offlineUnifiDevicesByLocation s) p (devicePanel s) (devicePanelOpen s) (infoWindow s).
Definition set_devicePanel c s :=
  mkF (backend s) (requests s) (locations s) (siteToDeviceMap s) (locationToFirewall s)
    (locationNameToMarker s) (currentLocation s) (deviceKind s) (firewallOnlineStatus s)
    (offlineUnifiDevicesByLocation s) (notifications s) (Some c) (devicePanelOpen s) (infoWindow s).
Definition set_locations l s :=
  mkF (backend s) (requests s) l (siteToDeviceMap s) (locationToFirewall s)
    (locationNameToMarker s) (currentLocation s) (deviceKind s) (firewallOnlineStatus s)
    (offlineUnifiDevicesByLocation s) (notifications s) (devicePanel s) (devicePanelOpen s) (infoWindow s).

Definition set_currentLocation c s :=
  mkF (backend s) (requests s) (locations s) (siteToDeviceMap s) (locationToFirewall s)
    (locationNameToMarker s) c (deviceKind s) (firewallOnlineStatus s)
    (offlineUnifiDevicesByLocation s) (notifications s) (devicePanel s) (devicePanelOpen s) (infoWindow s).
Definition set_deviceKind k s :=
  mkF (backend s) (requests s) (locations s) (siteToDeviceMap s) (locationToFirewall s)
    (locationNameToMarker s) (currentLocation s) k (firewallOnlineStatus s)
    (offlineUnifiDevicesByLocation s) (notifications s) (devicePanel s) (devicePanelOpen s) (infoWindow s).
Definition set_devicePanelOpen b s :=
  mkF (backend s) (requests s) (locations s) (siteToDeviceMap s) (locationToFirewall s)
    (locationNameToMarker s) (currentLocation s) (deviceKind s) (firewallOnlineStatus s)
    (offlineUnifiDevicesByLocation s) (notifications s) (devicePanel s) b (infoWindow s).
Definition set_infoWindow w s :=
  mkF (backend s) (requests s) (locations s) (siteToDeviceMap s) (locationToFirewall s)
    (locationNameToMarker s) (currentLocation s) (deviceKind s) (firewallOnlineStatus s)
    (offlineUnifiDevicesByLocation s) (notifications s) (devicePanel s) (devicePanelOpen s) w.

(** A request to the backend, answered by the service. *)
Definition send (r : request) : M fstate outcome :=
  fun s => let '(o, b) := serve r (backend s) in
           (Ok o, mkF b (requests s ++ [r]) (locations s) (siteToDeviceMap s)
                    (locationToFirewall s) (locationNameToMarker s) (currentLocation s)
                    (deviceKind s) (firewallOnlineStatus s) (offlineUnifiDevicesByLocation s)
                    (notifications s) (devicePanel s) (devicePanelOpen s) (infoWindow s)).

(** *** [fetchData] (lines 178-196) *)

(** [await fetch(uri)], [if (!response.ok) throw], [await response.json()].
    A request whose handler failed without answering is a rejected
    fetch on the client. *)
Definition client_fetch (r : request) : M fstate json :=
  let* o := send r in
  match o with
  | Unhandled _ => throw NetworkError
  | Responded resp =>
      if negb (response_ok resp) then throw (HttpError (status resp))
      else match body resp with
           | BJson data => ret data
           | BText _ => throw JsonParseError
           end
  end.

Definition fetchData (r : request) (handleResponse : json -> M fstate unit) : M fstate unit :=
  try_catch (let* data := client_fetch r in handleResponse data) (fun _ => ret tt).

(** *** Derived state *)

(** [device.state.toUpperCase() === 'OFFLINE'] *)
Definition device_is_offline (device : json) : res bool :=
  match prop (Some device) "state" with
  | Exc e => Exc e
  | Ok (Some (JStr st)) => Ok (bool_decide (to_upper st = "OFFLINE"))
  | Ok None | Ok (Some JNull) => Exc (undefined_access "toUpperCase")
  | Ok _ => Exc (TypeError "device.state.toUpperCase is not a function")
  end.

(** [getOfflineUnifiDevices(deviceList)] (lines 198-200) *)
Definition getOfflineUnifiDevices (deviceList : jsval) : res (list json) :=
  js_filter device_is_offline deviceList.

(** *** Device panel ([DevicePanel.js], [formatDeviceList]) *)

(** [formatDeviceList(siteToDeviceMap.get(locationName), kind)]: the
    array is sorted in place, so the map entry holds the sorted array
    afterwards, also when the card loop throws. *)
Definition formatDeviceList (locationName : jsval) (kind : option string) : M fstate string :=
  let* deviceList := gets (fun s => jm_get_val (siteToDeviceMap s) locationName) in
  let* sorted := of_res (match deviceList with
                         | Some (JArr xs) => sort_devices xs
                         | _ => Exc (TypeError "deviceList.sort is not a function")
                         end) in
  modify (fun s => set_siteToDeviceMap
                     (jm_set (siteToDeviceMap s) locationName (Some (JArr sorted))) s) ;;;
  of_res (formatDeviceList_html kind sorted).

(** [refreshDevicePanel(content)] *)
Definition refreshDevicePanel (content : string) : M fstate unit :=
  modify (set_devicePanel (colorStatus content)).

(** [updateDevicePanel(locationName)] (lines 270-278) *)
Definition updateDevicePanel (locationName : jsval) : M fstate unit :=
  let* kind := gets deviceKind in
  if decide (kind = Some "firewall") then
    let* firewallObj := gets (fun s => jm_get_val (locationToFirewall s) locationName) in
    let* c := of_res (formatOpManObjForDevicePanel firewallObj) in
    refreshDevicePanel c
  else
    let* c := formatDeviceList locationName kind in
    refreshDevicePanel c.

(** *** Markers and notifications *)

(** [updateMarker(locationName)] (lines 202-233) *)
Definition updateMarker (locationName : jsval) : M fstate unit :=
  let* firewallStatus := gets (fun s => jm_get (firewallOnlineStatus s) locationName) in
  let* offlineUnifiDevices := gets (fun s => jm_get (offlineUnifiDevicesByLocation s) locationName) in
  let* isUnifiDeviceOffline :=
    match offlineUnifiDevices with
    | None => throw (undefined_access "length")
    | Some l => ret (negb (length l =? 0))
    end in
  let color := if status_falsy firewallStatus then Red
               else if isUnifiDeviceOffline then Yellow else Green in
  let* marker := gets (fun s => jm_get (locationNameToMarker s) locationName) in
  match marker with
  | None => throw (undefined_access "content")
  | Some _ => modify (fun s => set_locationNameToMarker
                                 (jm_set (locationNameToMarker s) locationName color) s)
  end.

Definition on_panel {A} (m : M panel_state A) : M fstate A :=
  zoom notifications set_notifications m.

(** [updateNotificationMenu(...)] (lines 235-247) *)
Definition updateNotificationMenu (locationName : jsval) (isFirewallOffline isUnifiDeviceOffline : bool)
    (offlineUnifiDevices : list json) : M fstate unit :=
  on_panel (removeNotification locationName) ;;;
  let* firewallInfo := gets (fun s => jm_get_val (locationToFirewall s) locationName) in
  if isFirewallOffline && isUnifiDeviceOffline then
    on_panel (addNotification ("Firewall and Unifi devices offline at " +:+ to_js_string locationName)
                locationName firewallInfo offlineUnifiDevices)
  else if isFirewallOffline then
    on_panel (addNotification ("Firewall is offline at " +:+ to_js_string locationName)
                locationName firewallInfo offlineUnifiDevices)
  else if isUnifiDeviceOffline then
    on_panel (addNotification ("Unifi device(s) are offline at " +:+ to_js_string locationName)
                locationName firewallInfo offlineUnifiDevices)
  else ret tt.

(** [locations.find(obj => obj.name === name)] on the array [xs]. *)
Fixpoint find_site (name : jsval) (xs : list json) : res jsval :=
  match xs with
  | [] => Ok None
  | x :: xs' =>
      match prop (Some x) "name" with
      | Exc e => Exc e
      | Ok n => if decide (n = name) then Ok (Some x) else find_site name xs'
      end
  end.

(** [locations] as the array [find] and [forEach] are called on. *)
Definition locations_array (locs : json) : res (list json) :=
  match locs with
  | JArr xs => Ok xs
  | _ => Exc (TypeError "locations.find is not a function")
  end.

(** *** The info window *)

(** [createInfoWindowHTML(siteName)] (lines 123-166), with the binding of
    [registerButtonCallBacks(locationName, ...)] (lines 313-347). *)
Definition createInfoWindowHTML (siteName : jsval) : M fstate info_content :=
  let* firewallObj := gets (fun s => jm_get_val (locationToFirewall s) siteName) in
  let* firewallHTML := of_res (formatOpManObject_info firewallObj) in
  ret (mkInfo (to_js_string siteName) firewallHTML siteName).

(** [updateInfoWindow(content, center, marker)] (lines 168-175):
    [setContent], [setPosition] and [open]. *)
Definition updateInfoWindow (content : info_content) (center : jsval) (marker : option jsval) : M fstate unit :=
  let* iw := gets infoWindow in
  match iw with
  | None => throw (undefined_access "setContent")
  | Some _ => modify (set_infoWindow (Some (mkIW (Some content) center marker true)))
  end.

(** Lines 257-262 of [requestUpdateFirewallInfo]: the info window of the
    selected site is rebuilt and opened at the site. *)
Definition refreshInfoWindow (locationName : jsval) : M fstate unit :=
  let* content := createInfoWindowHTML locationName in
  let* locs := gets locations in
  let* xs := of_res (locations_array locs) in
  let* site := of_res (find_site locationName xs) in
  let* center := of_res (prop site "location") in
  let* marker := gets (fun s => if jm_has (locationNameToMarker s) locationName
                                then Some locationName else None) in
  updateInfoWindow content center marker.

(** *** Requests for one site *)

(** The response handler of [requestUpdateFirewallInfo] (lines 251-267). *)
Definition firewall_handler (locationName : jsval) (opManArray : json) : M fstate unit :=
  let* len := of_res (prop (Some opManArray) "length") in
  if decide (len = Some (JNum 1)) then
    let* first := of_res (index0 (Some opManArray)) in
    modify (fun s => set_locationToFirewall (jm_set (locationToFirewall s) locationName first) s) ;;;
    let* firewallStatus := of_res (prop first "statusStr") in
    modify (fun s => set_firewallOnlineStatus
                       (jm_set (firewallOnlineStatus s) locationName
                          (bool_decide (firewallStatus = Some (JStr "Clear")))) s) ;;;
    let* cur := gets currentLocation in
    if is_current cur locationName then refreshInfoWindow locationName else ret tt
  else ret tt.

Definition requestUpdateFirewallInfo (locationName : jsval) : M fstate unit :=
  fetchData (GetOpManager (Some (to_js_string locationName))) (firewall_handler locationName).

(** The response handler of [requestUnifiDeviceInfo] (lines 283-294):
    [data.data] and the map entry are one array, which the device
    panel refresh may have sorted before the offline devices are
    filtered from it. *)
Definition unifi_handler (siteName : jsval) (data : json) : M fstate unit :=
  let* devices := of_res (prop (Some data) "data") in
  modify (fun s => set_siteToDeviceMap (jm_set (siteToDeviceMap s) siteName devices) s) ;;;
  let* cur := gets currentLocation in
  (if is_current cur siteName then updateDevicePanel siteName else ret tt) ;;;
  let* deviceList := gets (fun s => jm_get_val (siteToDeviceMap s) siteName) in
  let* OfflineDevices := of_res (getOfflineUnifiDevices deviceList) in
  modify (fun s => set_offlineUnifiDevicesByLocation
                     (jm_set (offlineUnifiDevicesByLocation s) siteName OfflineDevices) s).

Definition requestUnifiDeviceInfo (siteName : jsval) : M fstate unit :=
  fetchData (GetUnifi (Some (to_js_string siteName))) (unifi_handler siteName).

(** Lines 300-304 of [requestLocationInfo]: [updateMarker] and
    [updateNotificationMenu] are called without [await]. *)
Definition refreshSiteView (locationName : jsval) : M fstate unit :=
  detach (updateMarker locationName) ;;;
  let* offlineUnifiDevices := gets (fun s => jm_get (offlineUnifiDevicesByLocation s) locationName) in
  let* offline := match offlineUnifiDevices with
                  | None => throw (undefined_access "length")
                  | Some l => ret l
                  end in
  let isUnifiDeviceOffline := negb (length offline =? 0) in
  let* firewallStatus := gets (fun s => jm_get (firewallOnlineStatus s) locationName) in
  detach (updateNotificationMenu locationName (status_falsy firewallStatus)
            isUnifiDeviceOffline offline).

(** [requestLocationInfo(locationName)] (lines 297-305) *)
Definition requestLocationInfo (locationName : jsval) : M fstate unit :=
  requestUnifiDeviceInfo locationName ;;;
  requestUpdateFirewallInfo locationName ;;;
  refreshSiteView locationName.

(** [for (const location of locations) { f(location.name) }] *)
Definition for_each_location (f : jsval -> M fstate unit) : M fstate unit :=
  let* locs := gets locations in
  let* xs := of_res (iter_of (Some locs)) in
  for_each (fun location => let* name := of_res (prop location "name") in f name) xs.

(** [requestDeviceList()] (lines 307-311): one site after the other. *)
Definition requestDeviceList : M fstate unit :=
  for_each_location requestLocationInfo.

(** *** Start-up (lines 349-427) *)

Definition initLocationsArray : M fstate unit :=
  fetchData GetLocations (fun locationArray => modify (set_locations locationArray)).

Definition initSiteToDeviceMap : M fstate unit :=
  for_each_location (fun name =>
    modify (fun s => set_siteToDeviceMap (jm_set (siteToDeviceMap s) name (Some (JArr []))) s)).

Definition initOfflineUnifiDevicesByLocationMap : M fstate unit :=
  for_each_location (fun name =>
    modify (fun s => set_offlineUnifiDevicesByLocation
                       (jm_set (offlineUnifiDevicesByLocation s) name []) s)).

(** [initMap()]: the map is centred on the site named Greensboro (its
    [location] is read, so the start-up throws without one), the info
    window is made (closed, empty), then a green marker is made for
    every site. *)
Definition initMap : M fstate unit :=
  let* locs := gets locations in
  let* xs := of_res (locations_array locs) in
  let* site := of_res (find_site (Some (JStr "Greensboro")) xs) in
  let* _center := of_res (prop site "location") in
  modify (set_infoWindow (Some (mkIW None None None false))) ;;;
  for_each (fun safgardLocation =>
              let* name := of_res (prop (Some safgardLocation) "name") in
              modify (fun s => set_locationNameToMarker
                                 (jm_set (locationNameToMarker s) name Green) s)) xs.

(** [callFunctions()]: start-up then the first sweep; later sweeps are
    the [Tick] events of the interval timer. *)
Definition callFunctions : M fstate unit :=
  initLocationsArray ;;;
  initSiteToDeviceMap ;;;
  initOfflineUnifiDevicesByLocationMap ;;;
  initMap ;;;
  requestDeviceList.

(** *** User and timer events *)

(** [addDevicePanel(content)] *)
Definition addDevicePanel (content : string) : M fstate unit :=
  modify (set_devicePanelOpen true) ;;; modify (set_devicePanel (colorStatus content)).

(** [removeDevicePanel()] *)
Definition removeDevicePanel : M fstate unit := modify (set_devicePanelOpen false).

(** The [gmp-click] listener of a marker (lines 387-395). *)
Definition markerClick (name : jsval) : M fstate unit :=
  modify (set_currentLocation (Some name)) ;;;
  requestLocationInfo name ;;;
  updateDevicePanel name.

(** The listeners of the three buttons of the info window (lines 313-347). *)
Definition firewallButtonClick (name : jsval) : M fstate unit :=
  modify (set_deviceKind (Some "firewall")) ;;;
  requestLocationInfo name ;;;
  let* firewallObj := gets (fun s => jm_get_val (locationToFirewall s) name) in
  let* c := of_res (formatOpManObjForDevicePanel firewallObj) in
  addDevicePanel c.

Definition deviceButtonClick (kind : string) (name : jsval) : M fstate unit :=
  modify (set_deviceKind (Some kind)) ;;;
  requestLocationInfo name ;;;
  let* c := formatDeviceList name (Some kind) in
  addDevicePanel c.

(** A button of the info window can be clicked while the window is open;
    its listener was bound to the site of the content. *)
Definition info_button (listener : jsval -> M fstate unit) : M fstate unit :=
  let* iw := gets infoWindow in
  match iw with
  | Some (mkIW (Some c) _ _ true) => listener (info_site c)
  | _ => ret tt
  end.

(** The close button of the open info window: the window closes and the
    [closeclick] listener of [initMap] runs (lines 364-367). *)
Definition closeInfoWindow : M fstate unit :=
  let* iw := gets infoWindow in
  match iw with
  | Some (mkIW c p a true) =>
      modify (set_infoWindow (Some (mkIW c p a false))) ;;;
      modify (set_currentLocation None) ;;; removeDevicePanel
  | _ => ret tt
  end.

Inductive event : Type :=
| Tick                            (** [setInterval(requestDeviceList, intervalMs)] *)
| MarkerClick (name : jsval)
| FirewallButton                  (** the buttons of the open info window *)
| SwitchButton                    (** [deviceKind = 'switching'] *)
| APButton                        (** [deviceKind = 'accessPoint'] *)
| InfoWindowClose                 (** [closeclick]: [currentLocation = null] *)
| CloseButton                     (** [#closeUnifiButton] *)
| NotificationClick (i : nat)     (** the [onclick] of the [i]-th notification *)
| HamburgerClick                  (** [togglePanel()] *)
| ModalClose.                     (** [closeModal()] *)

Definition run_event (e : event) : M fstate unit :=
  match e with
  | Tick => requestDeviceList
  | MarkerClick name => markerClick name
  | FirewallButton => info_button firewallButtonClick
  | SwitchButton => info_button (deviceButtonClick "switching")
  | APButton => info_button (deviceButtonClick "accessPoint")
  | InfoWindowClose => closeInfoWindow
  | CloseButton => removeDevicePanel
  | NotificationClick i => on_panel (clickNotification i)
  | HamburgerClick => on_panel togglePanel
  | ModalClose => on_panel closeModal
  end.

(** The states of the client: after start-up, then after any sequence
    of events, each handled to completion.  Any event may occur in any
    state: this includes runs the page does not have (a timer tick
    after a failed start-up, a button of an info window that is not
    open), so what holds of every reachable state holds of the page. *)
Inductive reachable : fstate -> Prop :=
| reach_init b : reachable (snd (callFunctions (initial_fstate b)))
| reach_step s e : reachable s -> reachable (snd (run_event e s)).
End Frontend.

Arguments fstate St : clear implicits.
End Client.
Import Client.

(** ** Specification-level functions *)

(** The marker colour policy, in priority order: an unhealthy firewall
    is red, otherwise any offline device is yellow, otherwise green. *)
Definition marker_color (firewallHealthy anyDeviceOffline : bool) : pin :=
  if negb firewallHealthy then Red else if anyDeviceOffline then Yellow else Green.

(** The firewall is healthy when its status was recorded as ["Clear"]. *)
Definition firewall_healthy (firewallStatus : option bool) : bool := negb (status_falsy firewallStatus).

(** The message of the notification the spec (4.4) derives for a site:
    one of three templates, by which of the firewall and the devices is
    degraded, and none when neither is. *)
Definition notification_text (name : jsval) (healthy anyOffline : bool) : option string :=
  if negb healthy && anyOffline then Some ("Firewall and Unifi devices offline at " +:+ to_js_string name)
  else if negb healthy then Some ("Firewall is offline at " +:+ to_js_string name)
  else if anyOffline then Some ("Unifi device(s) are offline at " +:+ to_js_string name)
  else None.

(** The derivation of the spec (4.4), a pure function of the derived
    state of a site: its pin and the message of its notification. *)
Definition derive (name : jsval) (healthy anyOffline : bool) : option pin * option string :=
  (Some (marker_color healthy anyOffline), notification_text name healthy anyOffline).

(** What the page shows of a site: its pin and the message of its
    notification in the panel. *)
Definition site_view {St} (s : fstate St) (name : jsval) : option pin * option string :=
  (jm_get (locationNameToMarker s) name, note_of name (panel (notifications s))).

(** An offline device: its state, upper-cased, is ["OFFLINE"]. *)
Definition offline_device (d : json) : bool :=
  match prop (Some d) "state" with
  | Ok (Some (JStr st)) => bool_decide (to_upper st = "OFFLINE")
  | _ => false
  end.

(** The body of a successful answer: an ok status and a JSON body. *)
Definition answer_json (o : outcome) : option json :=
  match o with
  | Responded resp =>
      if response_ok resp then match body resp with BJson d => Some d | BText _ => None end
      else None
  | Unhandled _ => None
  end.

(** What [updateNotificationMenu] does to the panel, given the firewall
    record of the site. *)
Definition notification_update (name : jsval) (isFirewallOffline isUnifiDeviceOffline : bool)
    (offline : list json) (firewallInfo : jsval) : M panel_state unit :=
  removeNotification name ;;;
  if isFirewallOffline && isUnifiDeviceOffline then
    addNotification ("Firewall and Unifi devices offline at " +:+ to_js_string name) name firewallInfo offline
  else if isFirewallOffline then
    addNotification ("Firewall is offline at " +:+ to_js_string name) name firewallInfo offline
  else if isUnifiDeviceOffline then
    addNotification ("Unifi device(s) are offline at " +:+ to_js_string name) name firewallInfo offline
  else ret tt.

(** The panel invariants: one notification per site, and a bubble that
    counts them. *)
Definition panel_ok (p : panel_state) : Prop := unique_sites p /\ bubble_ok p.

(** The [name] of a site object of the site list. *)
Definition site_name (x : json) : jsval :=
  match prop (Some x) "name" with Ok n => n | Exc _ => None end.

(** What a site refresh leaves alone: the request log (a response
    handler sends nothing) and the sites that have a list of offline
    devices (entries are only ever set). *)
Definition frames {St} (s0 s : fstate St) : Prop :=
  requests s = requests s0 /\
  (forall k, jm_has (offlineUnifiDevicesByLocation s0) k = true ->
             jm_has (offlineUnifiDevicesByLocation s) k = true).

(** The two requests a site refresh sends, device list first. *)
Definition site_requests (name : jsval) : list request :=
  [GetUnifi (Some (to_js_string name)); GetOpManager (Some (to_js_string name))].

(** ** A concrete client, for the examples

    A backend that lists Greensboro and Durham, answers every device
    query with one online switch and one offline access point, has a
    healthy firewall for Greensboro and answers 404 for any other
    firewall; the client is the start-up state over it. *)

Definition demo_location (name : string) : json :=
  JObj [("name", JStr name); ("location", JObj [("lat", JNum 36); ("lng", JNum (-79))])].

Definition demo_device (name st : string) : json :=
  JObj [("name", JStr name); ("state", JStr st); ("features", JArr [JStr "switching"])].

Definition demo_firewall : json :=
  JObj [("displayName", JStr "GSO-FW"); ("statusStr", JStr "Clear"); ("ipaddress", JStr "10.0.0.1")].

Definition demo_devices : list json := [demo_device "sw1" "ONLINE"; demo_device "ap1" "offline"].

Definition demo_answer (r : request) : outcome :=
  match r with
  | GetLocations => Responded (json_response 200 (JArr [demo_location "Greensboro"; demo_location "Durham"]))
  | GetUnifi _ => Responded (json_response 200 (JObj [("data", JArr demo_devices)]))
  | GetOpManager n =>
      if decide (n = Some "Greensboro") then Responded (json_response 200 (JArr [demo_firewall]))
      else Responded (text_response 404 "location not found.")
  end.

#[local] Instance demo_service : HttpService unit := {| serve r u := (demo_answer r, u) |}.

Definition demo_sort : list json -> res (list json) := Ok.

(** A backend whose site list has Durham only. *)
Definition demo_durham_only : HttpService unit :=
  {| serve r u := (Responded (json_response 200 (JArr [demo_location "Durham"])), u) |}.

Definition demo_start : fstate unit := snd (callFunctions demo_sort (initial_fstate tt)).

Section FrontendTheorems.
Context {St : Type} `{!HttpService St}.
Context (sort_devices : list json -> res (list json)).

Abbreviation fstate := (fstate St).

(** The state after a request was answered by the backend. *)
Definition sent (s : fstate) (r : request) : fstate :=
  mkF (snd (serve r (backend s))) (requests s ++ [r]) (locations s) (siteToDeviceMap s)
    (locationToFirewall s) (locationNameToMarker s) (currentLocation s)
    (deviceKind s) (firewallOnlineStatus s) (offlineUnifiDevicesByLocation s)
    (notifications s) (devicePanel s) (devicePanelOpen s) (infoWindow s).

Lemma send_run r (s : fstate) : send r s = (Ok (fst (serve r (backend s))), sent s r).
Proof. unfold send, sent. by destruct (serve r (backend s)). Qed.

(** [fetchData] never throws: the handler runs on a successful answer,
    and its exception is caught. *)
Lemma fetchData_run r h (s : fstate) :
  fetchData r h s =
    match answer_json (fst (serve r (backend s))) with
    | None => (Ok tt, sent s r)
    | Some d => try_catch (h d) (fun _ => ret tt) (sent s r)
    end.
Proof.
  unfold fetchData, try_catch, bind at 1, client_fetch, bind at 1. rewrite send_run.
  destruct (fst (serve r (backend s))) as [resp|e]; simpl; [|done].
  destruct (response_ok resp); simpl; [|done]. by destruct (body resp).
Qed.

(** *** Markers *)

Lemma updateMarker_run name (s : fstate) l :
  jm_get (offlineUnifiDevicesByLocation s) name = Some l ->
  jm_has (locationNameToMarker s) name = true ->
  updateMarker name s =
    (Ok tt, set_locationNameToMarker
              (jm_set (locationNameToMarker s) name
                 (marker_color (firewall_healthy (jm_get (firewallOnlineStatus s) name))
                               (negb (length l =? 0)))) s).
Proof.
  intros Hl Hm. unfold jm_has in Hm. unfold updateMarker, bind, gets. rewrite Hl.
  unfold ret. destruct (jm_get (locationNameToMarker s) name); [|done].
  unfold marker_color, firewall_healthy. by destruct (status_falsy _).
Qed.

(** C9: [updateMarker] implements the colour policy: it completes, the pin
    of the site becomes [marker_color] of the recorded firewall status
    and of whether any device is offline, and no other pin changes. *)
Theorem updateMarker_spec name (s : fstate) l :
  jm_get (offlineUnifiDevicesByLocation s) name = Some l ->
  jm_has (locationNameToMarker s) name = true ->
  fst (updateMarker name s) = Ok tt /\
  jm_get (locationNameToMarker (snd (updateMarker name s))) name =
    Some (marker_color (firewall_healthy (jm_get (firewallOnlineStatus s) name))
                       (negb (length l =? 0))) /\
  (forall k, k <> name ->
     jm_get (locationNameToMarker (snd (updateMarker name s))) k = jm_get (locationNameToMarker s) k).
Proof.
  intros Hl Hm. rewrite (updateMarker_run name s l Hl Hm). cbn [fst snd].
  split_and!; [done|apply jm_get_set_eq|]. intros k Hk. by apply jm_get_set_ne.
Qed.

(** *** Offline devices *)

(** C21: [getOfflineUnifiDevices] on an array whose devices all have a
    string state returns exactly the devices whose state is OFFLINE in
    any letter case, in order. *)
Theorem getOfflineUnifiDevices_spec xs :
  Forall (fun d => exists st, prop (Some d) "state" = Ok (Some (JStr st))) xs ->
  getOfflineUnifiDevices (Some (JArr xs)) = Ok (List.filter offline_device xs).
Proof.
  intros Hxs. apply js_filter_array. intros d Hd.
  rewrite Forall_forall in Hxs. destruct (Hxs d Hd) as [st Hst].
  unfold device_is_offline, offline_device. by rewrite Hst.
Qed.

(** C30: [formatDeviceList] builds the device panel of a site whose
    devices all have features (an array or a string), a state that is a
    string or falsy, and a string name, whatever the kind shown, for any
    sort that keeps the contract of [Array.prototype.sort] with the
    comparator of lines 39-45: the HTML of the cards of the sorted
    devices is returned, and the site's entry of [siteToDeviceMap] holds
    the sorted array, a permutation of the devices. *)
Theorem formatDeviceList_total lc name kind xs (s : fstate) :
  sort_contract sort_devices (compare_devices lc) ->
  jm_get_val (siteToDeviceMap s) name = Some (JArr xs) ->
  forallb device_sortable xs = true ->
  exists html zs,
    formatDeviceList sort_devices name kind s =
      (Ok html, set_siteToDeviceMap (jm_set (siteToDeviceMap s) name (Some (JArr zs))) s) /\
    formatDeviceList_html kind zs = Ok html /\ zs ≡ₚ xs.
Proof.
  intros Hsort Hx Hl.
  assert (Hs : forall d, d ∈ xs -> device_sortable d = true).
  { intros d Hd%list_elem_of_In. by apply (proj1 (List.forallb_forall _ _) Hl). }
  destruct (Hsort xs) as [zs [Ez Hz]].
  { intros a b Ha Hb. apply compare_devices_sortable; auto. }
  destruct (device_list_html_total kind zs) as [html Eh].
  { apply List.forallb_forall. intros d Hd%list_elem_of_In. rewrite Hz in Hd.
    apply Hs, andb_true_iff in Hd. tauto. }
  exists html, zs. split; [|done].
  unfold formatDeviceList, bind, gets, of_res, modify. rewrite Hx, Ez, Eh. reflexivity.
Qed.

(** A device without a string state makes the whole filter throw. *)
Lemma getOfflineUnifiDevices_missing_state xs d :
  d ∈ xs -> prop (Some d) "state" = Ok None ->
  exists e, getOfflineUnifiDevices (Some (JArr xs)) = Exc e.
Proof.
  intros Hd Hst. apply (js_filter_array_exc _ xs d (undefined_access "toUpperCase")); [done|].
  unfold device_is_offline. by rewrite Hst.
Qed.

(** *** The notification panel *)

Lemma set_notifications_twice p1 p2 (s : fstate) :
  set_notifications p2 (set_notifications p1 s) = set_notifications p2 s.
Proof. reflexivity. Qed.

Lemma on_panel_run {A} (m : M panel_state A) (s : fstate) :
  on_panel m s = (fst (m (notifications s)), set_notifications (snd (m (notifications s))) s).
Proof. apply zoom_run. Qed.

Lemma updateNotificationMenu_run name fo dev ds (s : fstate) :
  updateNotificationMenu name fo dev ds s =
    let X := notification_update name fo dev ds (jm_get_val (locationToFirewall s) name)
               (notifications s) in
    (fst X, set_notifications (snd X) s).
Proof.
  unfold updateNotificationMenu, notification_update. unfold bind at 1.
  rewrite on_panel_run. rewrite removeNotification_run. cbn [fst snd].
  unfold bind at 2. rewrite removeNotification_run. cbn [fst snd].
  unfold bind, gets. cbn [fst snd].
  destruct (fo && dev); [|destruct fo; [|destruct dev]]; rewrite ?on_panel_run; done.
Qed.

Lemma notification_update_shape name fo dev ds fw :
  exists a, notification_update name fo dev ds fw = (removeNotification name ;;; a) /\
    (a = ret tt \/ exists msg f ds', a = addNotification msg name f ds').
Proof.
  unfold notification_update. eexists. split; [reflexivity|].
  destruct (fo && dev); [|destruct fo; [|destruct dev]]; eauto 10.
Qed.

Lemma notification_update_panel_ok name fo dev ds fw p :
  panel_ok p -> panel_ok (snd (notification_update name fo dev ds fw p)).
Proof.
  intros [Hu Hb]. destruct (notification_update_shape name fo dev ds fw) as (a & -> & Ha).
  split.
  - destruct Ha as [->|(msg & f & ds' & ->)]; [|by apply remove_add_unique].
    apply (removeNotification_unique name p Hu).
  - enough (preserves bubble_ok (removeNotification name ;;; a)) as Hp by (by apply Hp).
    apply preserves_bind; [apply removeNotification_bubble_ok|]. intros [].
    destruct Ha as [->|(msg & f & ds' & ->)]; [apply preserves_ret|apply addNotification_bubble_ok].
Qed.

(** [updateNotificationMenu] keeps at most one notification per site and
    a bubble equal to their number. *)
Lemma updateNotificationMenu_panel_ok name fo dev ds :
  preserves (fun s : fstate => panel_ok (notifications s)) (updateNotificationMenu name fo dev ds).
Proof.
  intros s Hs. rewrite updateNotificationMenu_run. simpl.
  by apply notification_update_panel_ok.
Qed.

(** C16: Recomputing a site's notification twice with the same data gives
    the state of recomputing it once: one notification for the site,
    not two. *)
Theorem updateNotificationMenu_idem name fo dev ds (s : fstate) :
  unique_sites (notifications s) ->
  snd (updateNotificationMenu name fo dev ds (snd (updateNotificationMenu name fo dev ds s))) =
    snd (updateNotificationMenu name fo dev ds s).
Proof.
  intros Hu. rewrite !updateNotificationMenu_run. cbn [fst snd].
  rewrite set_notifications_twice. f_equal.
  cbn [notifications locationToFirewall set_notifications].
  destruct (notification_update_shape name fo dev ds (jm_get_val (locationToFirewall s) name))
    as (a & -> & Ha).
  by apply remove_add_idem.
Qed.

(** *** Invariant of the client *)

Lemma panel_ok_modify (f : fstate -> fstate) :
  (forall s, notifications (f s) = notifications s) ->
  preserves (fun s : fstate => panel_ok (notifications s)) (modify f).
Proof. intros Hf s Hs. simpl. by rewrite Hf. Qed.

Lemma panel_ok_send r : preserves (fun s : fstate => panel_ok (notifications s)) (send r).
Proof. intros s Hs. by rewrite send_run. Qed.

Lemma panel_ok_initial (b : St) : panel_ok (notifications (initial_fstate b)).
Proof. split; [constructor|done]. Qed.

(** The operations on the panel that leave its notifications and bubble
    alone: the modal and the panel's visibility. *)
Lemma panel_ok_chrome (m : M panel_state unit) :
  (forall p, panel (snd (m p)) = panel p /\ bubble (snd (m p)) = bubble p) ->
  preserves (fun s : fstate => panel_ok (notifications s)) (on_panel m).
Proof.
  intros Hm s [Hu Hb]. rewrite on_panel_run. cbn [snd notifications set_notifications].
  destruct (Hm (notifications s)) as [Hp Hbb]. unfold panel_ok, unique_sites, bubble_ok in *.
  by rewrite Hp, Hbb.
Qed.

Lemma chrome_ops_keep_panel (m : M panel_state unit) :
  m = togglePanel \/ m = closeModal \/ (exists i, m = clickNotification i) ->
  forall p, panel (snd (m p)) = panel p /\ bubble (snd (m p)) = bubble p.
Proof.
  intros [->|[->|[i ->]]] p; [done|done|]. unfold clickNotification, bind, gets. cbn.
  by destruct (panel p !! i).
Qed.

Lemma run_event_panel_ok e :
  preserves (fun s : fstate => panel_ok (notifications s)) (run_event sort_devices e).
Proof.
  destruct e; unfold run_event, requestDeviceList, for_each_location, markerClick,
    info_button, closeInfoWindow, firewallButtonClick, deviceButtonClick, addDevicePanel, removeDevicePanel,
    requestLocationInfo, requestUnifiDeviceInfo, requestUpdateFirewallInfo, fetchData,
    client_fetch, unifi_handler, firewall_handler, refreshSiteView, updateMarker,
    updateDevicePanel, formatDeviceList, refreshDevicePanel,
    refreshInfoWindow, createInfoWindowHTML, updateInfoWindow;
    preserves_auto;
    first [ apply updateNotificationMenu_panel_ok | apply panel_ok_send
          | apply panel_ok_modify; reflexivity
          | apply panel_ok_chrome, chrome_ops_keep_panel; eauto ].
Qed.

Lemma callFunctions_panel_ok :
  preserves (fun s : fstate => panel_ok (notifications s)) (callFunctions sort_devices).
Proof.
  unfold callFunctions, initLocationsArray, initSiteToDeviceMap,
    initOfflineUnifiDevicesByLocationMap, initMap, requestDeviceList, for_each_location,
    requestLocationInfo, requestUnifiDeviceInfo, requestUpdateFirewallInfo, fetchData,
    client_fetch, unifi_handler, firewall_handler, refreshSiteView, updateMarker,
    updateDevicePanel, formatDeviceList, refreshDevicePanel,
    refreshInfoWindow, createInfoWindowHTML, updateInfoWindow;
    preserves_auto;
    first [ apply updateNotificationMenu_panel_ok | apply panel_ok_send
          | apply panel_ok_modify; reflexivity ].
Qed.

(** C7: In every state of the client, whatever the backend answered and
    whatever the user clicked, the panel has at most one notification
    per site and the bubble shows their number. *)
Theorem reachable_panel_ok (s : fstate) :
  reachable sort_devices s -> panel_ok (notifications s).
Proof.
  induction 1 as [b|s e _ IH].
  - apply callFunctions_panel_ok, panel_ok_initial.
  - by apply run_event_panel_ok.
Qed.

(** *** Failed fetches and dropped answers *)

(** C18: A fetch that fails (no answer, an error status, a body that is not
    JSON) changes nothing but the backend and the request log: the
    derived state of the site stays as it was. *)
Theorem failed_fetch_keeps_state name (s : fstate) :
  (answer_json (fst (serve (GetOpManager (Some (to_js_string name))) (backend s))) = None ->
   requestUpdateFirewallInfo name s = (Ok tt, sent s (GetOpManager (Some (to_js_string name))))) /\
  (answer_json (fst (serve (GetUnifi (Some (to_js_string name))) (backend s))) = None ->
   requestUnifiDeviceInfo sort_devices name s = (Ok tt, sent s (GetUnifi (Some (to_js_string name))))).
Proof.
  split; intros H; unfold requestUpdateFirewallInfo, requestUnifiDeviceInfo;
    by rewrite fetchData_run, H.
Qed.

(** C19: An OpManager answer that is not an array of exactly one record is
    dropped: the handler changes nothing. *)
Theorem firewall_answer_dropped name opManArray len (s : fstate) :
  prop (Some opManArray) "length" = Ok len -> len <> Some (JNum 1) ->
  firewall_handler name opManArray s = (Ok tt, s).
Proof.
  intros Hl Hne. unfold firewall_handler, bind, of_res at 1. rewrite Hl.
  by rewrite decide_False.
Qed.

(** The state after one firewall record was stored with its status. *)
Definition firewall_recorded (name : jsval) (fw : json) (st : jsval) (s : fstate) : fstate :=
  set_firewallOnlineStatus
    (jm_set (firewallOnlineStatus s) name (bool_decide (st = Some (JStr "Clear"))))
    (set_locationToFirewall (jm_set (locationToFirewall s) name (Some fw)) s).

Lemma firewall_handler_one name fw st (s : fstate) :
  prop (Some fw) "statusStr" = Ok st ->
  firewall_handler name (JArr [fw]) s =
    (if is_current (currentLocation s) name then refreshInfoWindow name else ret tt)
      (firewall_recorded name fw st s).
Proof.
  intros Hst. unfold firewall_handler.
  rewrite (bind_ok _ _ s (Some (JNum 1)) s) by reflexivity.
  rewrite decide_True by reflexivity.
  rewrite (bind_ok _ _ s (Some fw) s) by reflexivity.
  set (s1 := set_locationToFirewall (jm_set (locationToFirewall s) name (Some fw)) s).
  rewrite (bind_ok _ _ s tt s1) by reflexivity.
  rewrite (bind_ok _ _ s1 st s1) by (unfold of_res; by rewrite Hst).
  rewrite (bind_ok _ _ s1 tt (firewall_recorded name fw st s)) by reflexivity.
  reflexivity.
Qed.

(** C20: One firewall record for a site other than the selected one sets
    the site's record and its status, healthy exactly when [statusStr]
    is ["Clear"], and nothing else. *)
Theorem firewall_answer_single name fw st (s : fstate) :
  prop (Some fw) "statusStr" = Ok st -> is_current (currentLocation s) name = false ->
  firewall_handler name (JArr [fw]) s =
    (Ok tt, set_firewallOnlineStatus
              (jm_set (firewallOnlineStatus s) name (bool_decide (st = Some (JStr "Clear"))))
              (set_locationToFirewall (jm_set (locationToFirewall s) name (Some fw)) s)).
Proof. intros Hst Hcur. rewrite (firewall_handler_one _ _ st) by done. by rewrite Hcur. Qed.

(** C36: One firewall record for the selected site also rebuilds the info
    window: it opens at the site's location, anchored to its marker,
    with the site's name as heading, the card of the new record, and its
    buttons bound to the site. *)
Theorem firewall_answer_selected name fw st html xs site center w (s : fstate) :
  prop (Some fw) "statusStr" = Ok st -> is_current (currentLocation s) name = true ->
  formatOpManObject_info (Some fw) = Ok html ->
  locations_array (locations s) = Ok xs -> find_site name xs = Ok site ->
  prop site "location" = Ok center -> infoWindow s = Some w ->
  firewall_handler name (JArr [fw]) s =
    (Ok tt, set_infoWindow
              (Some (mkIW (Some (mkInfo (to_js_string name) html name)) center
                          (if jm_has (locationNameToMarker s) name then Some name else None) true))
              (firewall_recorded name fw st s)).
Proof.
  intros Hst Hcur Hhtml Hxs Hsite Hcenter Hw. rewrite (firewall_handler_one _ _ st), Hcur by done.
  set (s1 := firewall_recorded name fw st s).
  unfold refreshInfoWindow, createInfoWindowHTML.
  rewrite (bind_ok _ _ s1 (mkInfo (to_js_string name) html name) s1).
  2: { rewrite (bind_ok _ _ s1 (Some fw) s1) by (unfold gets, jm_get_val; cbn; by rewrite jm_get_set_eq).
       by rewrite (bind_ok _ _ s1 html s1) by (unfold of_res; by rewrite Hhtml). }
  rewrite (bind_ok _ _ s1 (locations s) s1) by reflexivity.
  rewrite (bind_ok _ _ s1 xs s1) by (unfold of_res; by rewrite Hxs).
  rewrite (bind_ok _ _ s1 site s1) by (unfold of_res; by rewrite Hsite).
  rewrite (bind_ok _ _ s1 center s1) by (unfold of_res; by rewrite Hcenter).
  rewrite (bind_ok _ _ s1 _ s1) by reflexivity.
  unfold updateInfoWindow, bind, gets. cbn [s1 firewall_recorded infoWindow set_firewallOnlineStatus set_locationToFirewall].
  by rewrite Hw.
Qed.

(** *** Sites without a firewall record *)

(** Lines 300-304 of [requestLocationInfo]: the marker is recoloured,
    then the notification recomputed, from the recorded state. *)
Lemma refreshSiteView_run name (s : fstate) l :
  jm_get (offlineUnifiDevicesByLocation s) name = Some l ->
  jm_has (locationNameToMarker s) name = true ->
  refreshSiteView name s =
    (Ok tt, snd (updateNotificationMenu name (status_falsy (jm_get (firewallOnlineStatus s) name))
                   (negb (length l =? 0)) l
                   (set_locationNameToMarker
                      (jm_set (locationNameToMarker s) name
                         (marker_color (firewall_healthy (jm_get (firewallOnlineStatus s) name))
                                       (negb (length l =? 0)))) s))).
Proof.
  intros Hl Hm. unfold refreshSiteView, bind at 1.
  rewrite detach_state, (updateMarker_run name s l Hl Hm). cbn [snd].
  unfold bind, gets. cbn [offlineUnifiDevicesByLocation firewallOnlineStatus set_locationNameToMarker].
  by rewrite Hl.
Qed.

(** The panel part of a site refresh: the site gets the message of the
    spec, the other sites keep theirs. *)
Lemma notification_update_note name fo dev l f st fh dh p :
  unique_sites p -> prop (Some f) "statusStr" = Ok st ->
  formatOpManObject (Some f) = Ok fh -> formatUnifiDeviceList l = Ok dh ->
  note_of name (panel (snd (notification_update name fo dev l (Some f) p))) =
    notification_text name (negb fo) dev /\
  forall k, k <> name ->
    note_of k (panel (snd (notification_update name fo dev l (Some f) p))) = note_of k (panel p).
Proof.
  intros Hu Hst Hf Hd. unfold notification_update. apply remove_then_note; [done|]. intros q _.
  unfold notification_text.
  destruct fo, dev; cbn [andb negb];
    first [ exists (mkNotif "" None None [] ""); left; split; reflexivity
          | match goal with
            | |- exists N, Some ?m = None /\ _ \/ _ =>
                destruct (addNotification_ok m name f st l q fh dh Hst Hf Hd) as (N & HN & Hmsg & Hq);
                exists N; right; split_and!; [by rewrite Hmsg|done|exact Hq]
            end ].
Qed.

(** C37: a site refresh refines the derivation of the spec (4.4): when
    the site has its list of offline devices, its marker, and a firewall
    record whose cards can be built, the page shows for it afterwards
    exactly [derive] of its derived state (the pin of the colour policy
    and the message of the three templates, or none), and shows every
    other site as before. *)
Theorem refreshSiteView_refines name (s : fstate) l f st fh dh :
  jm_get (offlineUnifiDevicesByLocation s) name = Some l ->
  jm_has (locationNameToMarker s) name = true ->
  unique_sites (notifications s) ->
  jm_get_val (locationToFirewall s) name = Some f -> prop (Some f) "statusStr" = Ok st ->
  formatOpManObject (Some f) = Ok fh -> formatUnifiDeviceList l = Ok dh ->
  site_view (snd (refreshSiteView name s)) name =
    derive name (firewall_healthy (jm_get (firewallOnlineStatus s) name)) (negb (length l =? 0)) /\
  forall k, k <> name -> site_view (snd (refreshSiteView name s)) k = site_view s k.
Proof.
  intros Hl Hm Hu Hf Hst Hfh Hdh. rewrite (refreshSiteView_run name s l Hl Hm), updateNotificationMenu_run.
  cbn [snd notifications locationToFirewall set_locationNameToMarker]. rewrite Hf.
  destruct (notification_update_note name (status_falsy (jm_get (firewallOnlineStatus s) name))
              (negb (length l =? 0)) l f st fh dh (notifications s) Hu Hst Hfh Hdh) as [H1 H2].
  unfold site_view, derive, firewall_healthy.
  cbn [locationNameToMarker notifications set_notifications set_locationNameToMarker].
  split.
  - by rewrite jm_get_set_eq, H1.
  - intros k Hk. by rewrite jm_get_set_ne, H2 by done.
Qed.

(** C8: A site whose firewall record was never received (its OpManager
    request always failed, e.g. no firewall is configured for it) gets
    a red marker, and its notification is removed and not added again:
    [addNotification] reads [statusStr] of [undefined] and throws. *)
Theorem unknown_firewall_red_without_notification name (s : fstate) l :
  jm_get_val (locationToFirewall s) name = None ->
  jm_get (firewallOnlineStatus s) name = None ->
  jm_get (offlineUnifiDevicesByLocation s) name = Some l ->
  jm_has (locationNameToMarker s) name = true ->
  unique_sites (notifications s) ->
  jm_get (locationNameToMarker (snd (refreshSiteView name s))) name = Some Red /\
  name ∉ map n_location (panel (notifications (snd (refreshSiteView name s)))).
Proof.
  intros Hfw Hst Hl Hm Hu. rewrite (refreshSiteView_run name s l Hl Hm), Hst.
  rewrite updateNotificationMenu_run. cbn [snd].
  cbn [locationToFirewall notifications locationNameToMarker set_locationNameToMarker set_notifications].
  rewrite Hfw. split; [by rewrite jm_get_set_eq|].
  unfold notification_update. change (status_falsy None) with true. rewrite andb_true_l.
  assert (Hadd : forall msg p, addNotification msg name None l p = (Exc (undefined_access "statusStr"), p))
    by reflexivity.
  destruct (negb (length l =? 0)); unfold bind; rewrite removeNotification_run, Hadd;
    apply (removeNotification_unique name _ Hu).
Qed.

(** *** The sweep *)

Lemma frames_refl (s : fstate) : frames s s.
Proof. by split. Qed.

Lemma frames_modify (s0 : fstate) (f : fstate -> fstate) :
  (forall s, requests (f s) = requests s) ->
  (forall s k, jm_has (offlineUnifiDevicesByLocation s) k = true ->
               jm_has (offlineUnifiDevicesByLocation (f s)) k = true) ->
  preserves (frames s0) (modify f).
Proof.
  intros H1 H2 s [Hr Ho]. unfold modify. cbn [snd].
  split; [by rewrite H1, Hr|]. intros k Hk. apply H2, Ho, Hk.
Qed.

Lemma frames_updateNotificationMenu (s0 : fstate) name fo dev ds :
  preserves (frames s0) (updateNotificationMenu name fo dev ds).
Proof. intros s Hs. by rewrite updateNotificationMenu_run. Qed.

Ltac frames_close :=
  first [ apply frames_updateNotificationMenu
        | apply frames_modify; [reflexivity | intros ? ? ?;
            cbn [offlineUnifiDevicesByLocation set_siteToDeviceMap set_locationToFirewall
                 set_locationNameToMarker set_firewallOnlineStatus set_offlineUnifiDevicesByLocation
                 set_notifications set_devicePanel set_locations set_currentLocation
                 set_deviceKind set_devicePanelOpen set_infoWindow]; eauto with js] ].

Lemma unifi_handler_frames (s0 : fstate) name d : preserves (frames s0) (unifi_handler sort_devices name d).
Proof.
  unfold unifi_handler, updateDevicePanel, formatDeviceList, refreshDevicePanel.
  preserves_auto; frames_close.
Qed.

Lemma firewall_handler_frames (s0 : fstate) name a : preserves (frames s0) (firewall_handler name a).
Proof.
  unfold firewall_handler, refreshInfoWindow, createInfoWindowHTML, updateInfoWindow.
  preserves_auto; frames_close.
Qed.

Lemma updateMarker_frames (s0 : fstate) name : preserves (frames s0) (updateMarker name).
Proof. unfold updateMarker. preserves_auto; frames_close. Qed.

Lemma refreshSiteView_frames (s0 : fstate) name : preserves (frames s0) (refreshSiteView name).
Proof.
  unfold refreshSiteView. preserves_auto; first [apply updateMarker_frames | frames_close].
Qed.

Lemma fetchData_ok r h (s : fstate) : fst (fetchData r h s) = Ok tt.
Proof.
  rewrite fetchData_run. destruct (answer_json _) as [d|]; [|done].
  unfold try_catch. by destruct (h d (sent s r)) as [[[]|] ?].
Qed.

Lemma fetchData_frames r h (s : fstate) :
  (forall s0 d, preserves (frames s0) (h d)) ->
  frames (sent s r) (snd (fetchData r h s)).
Proof.
  intros Hh. rewrite fetchData_run. destruct (answer_json _) as [d|]; [|apply frames_refl].
  apply (preserves_try_catch (frames (sent s r))); [apply Hh|intros; apply preserves_ret|].
  apply frames_refl.
Qed.

Lemma refreshSiteView_ok name (s : fstate) :
  jm_has (offlineUnifiDevicesByLocation s) name = true -> fst (refreshSiteView name s) = Ok tt.
Proof.
  intros Hh. unfold refreshSiteView, bind at 1. rewrite detach_state.
  destruct (updateMarker_frames s name s (frames_refl s)) as [_ Hs1].
  specialize (Hs1 name Hh). unfold jm_has in Hs1.
  unfold bind at 1, gets. destruct (jm_get _ name); done.
Qed.

Lemma fetchData_eq r h (s : fstate) : fetchData r h s = (Ok tt, snd (fetchData r h s)).
Proof. rewrite <- (fetchData_ok r h s). apply surjective_pairing. Qed.

Lemma fetchData_site r h (s : fstate) :
  (forall s0 d, preserves (frames s0) (h d)) ->
  requests (snd (fetchData r h s)) = requests s ++ [r] /\
  (forall k, jm_has (offlineUnifiDevicesByLocation s) k = true ->
             jm_has (offlineUnifiDevicesByLocation (snd (fetchData r h s))) k = true).
Proof. intros Hh. by destruct (fetchData_frames r h s Hh) as [-> Ho]. Qed.

(** A site refresh sends the device request then the firewall request,
    never throws when the site has an offline list, and keeps the
    offline lists of all sites. *)
Lemma requestLocationInfo_run name (s : fstate) :
  jm_has (offlineUnifiDevicesByLocation s) name = true ->
  fst (requestLocationInfo sort_devices name s) = Ok tt /\
  requests (snd (requestLocationInfo sort_devices name s)) = requests s ++ site_requests name /\
  (forall k, jm_has (offlineUnifiDevicesByLocation s) k = true ->
             jm_has (offlineUnifiDevicesByLocation (snd (requestLocationInfo sort_devices name s))) k = true).
Proof.
  intros Hh.
  set (r1 := GetUnifi (Some (to_js_string name))).
  set (r2 := GetOpManager (Some (to_js_string name))).
  set (s1 := snd (fetchData r1 (unifi_handler sort_devices name) s)).
  set (s2 := snd (fetchData r2 (firewall_handler name) s1)).
  assert (E : requestLocationInfo sort_devices name s = refreshSiteView name s2).
  { unfold requestLocationInfo, requestUnifiDeviceInfo, requestUpdateFirewallInfo.
    unfold bind at 1. rewrite fetchData_eq. unfold bind at 1. rewrite fetchData_eq. done. }
  rewrite E.
  destruct (fetchData_site r1 (unifi_handler sort_devices name) s
              (fun s0 d => unifi_handler_frames s0 name d)) as [R1 H1].
  destruct (fetchData_site r2 (firewall_handler name) s1
              (fun s0 d => firewall_handler_frames s0 name d)) as [R2 H2].
  fold s1 in R1, H1. fold s2 in R2, H2.
  destruct (refreshSiteView_frames s2 name s2 (frames_refl s2)) as [R3 H3].
  split_and!.
  - apply refreshSiteView_ok. auto.
  - rewrite R3, R2, R1. by rewrite <- app_assoc.
  - intros k Hk. auto.
Qed.

(** One sweep: it completes, sends the two requests of every site in
    order, and keeps the offline lists of all sites. *)
Lemma requestDeviceList_sweep (s : fstate) xs :
  locations s = JArr xs -> Forall (fun x => x <> JNull) xs ->
  Forall (fun x => jm_has (offlineUnifiDevicesByLocation s) (site_name x) = true) xs ->
  fst (requestDeviceList sort_devices s) = Ok tt /\
  requests (snd (requestDeviceList sort_devices s)) =
    requests s ++ concat (map (fun x => site_requests (site_name x)) xs) /\
  (forall k, jm_has (offlineUnifiDevicesByLocation s) k = true ->
             jm_has (offlineUnifiDevicesByLocation (snd (requestDeviceList sort_devices s))) k = true).
Proof.
  intros Hloc Hnn Hoff. unfold requestDeviceList, for_each_location.
  rewrite (bind_ok (gets locations) _ s (JArr xs) s) by (unfold gets; by rewrite Hloc).
  rewrite (bind_ok (of_res (iter_of (Some (JArr xs)))) _ s (map Some xs) s) by done.
  clear Hloc. revert s Hoff. induction xs as [|x xs IH]; intros s Hoff; cbn [for_each map].
  - simpl. split_and!; [done|by rewrite app_nil_r|done].
  - apply Forall_cons in Hnn as [Hx Hnn]. apply Forall_cons in Hoff as [Hx' Hoff].
    assert (Hname : prop (Some x) "name" = Ok (site_name x)) by (unfold site_name; by destruct x).
    destruct (requestLocationInfo_run (site_name x) s Hx') as (Hok & Hreq & Hkeep).
    set (s' := snd (requestLocationInfo sort_devices (site_name x) s)) in *.
    assert (E1 : (let* name := of_res (prop (Some x) "name") in requestLocationInfo sort_devices name) s
                 = (Ok tt, s')).
    { rewrite (bind_ok _ _ s (site_name x) s) by (unfold of_res; by rewrite Hname).
      rewrite <- Hok. apply surjective_pairing. }
    rewrite (bind_ok _ _ s tt s' E1).
    destruct (IH Hnn s') as (IH1 & IH2 & IH3).
    + eapply Forall_impl; [exact Hoff|]. intros y Hy. by apply Hkeep.
    + split_and!; [done| |auto]. rewrite IH2, Hreq. cbn [map concat]. by rewrite <- app_assoc.
Qed.

(** C10: The sweep refreshes the sites one after the other, in the order of
    the site list, each with its device request before its firewall
    request; it completes when every site has an offline list (as
    start-up makes it). *)
Theorem requestDeviceList_sequential (s : fstate) xs :
  locations s = JArr xs -> Forall (fun x => x <> JNull) xs ->
  Forall (fun x => jm_has (offlineUnifiDevicesByLocation s) (site_name x) = true) xs ->
  fst (requestDeviceList sort_devices s) = Ok tt /\
  requests (snd (requestDeviceList sort_devices s)) =
    requests s ++ concat (map (fun x => site_requests (site_name x)) xs).
Proof. intros Hloc Hnn Hoff. by destruct (requestDeviceList_sweep s xs Hloc Hnn Hoff) as (? & ? & _). Qed.

(** *** Start-up *)

(** A loop over the sites whose body only assigns completes, sends
    nothing and keeps the site list. *)
Lemma for_each_location_modify (g : jsval -> fstate -> fstate) (s : fstate) xs :
  locations s = JArr xs -> Forall (fun x => x <> JNull) xs ->
  (forall n s', requests (g n s') = requests s' /\ locations (g n s') = locations s') ->
  exists s', for_each_location (fun n => modify (g n)) s = (Ok tt, s') /\
             requests s' = requests s /\ locations s' = locations s.
Proof.
  intros Hloc Hnn Hg. unfold for_each_location.
  rewrite (bind_ok (gets locations) _ s (JArr xs) s) by (unfold gets; by rewrite Hloc).
  rewrite (bind_ok (of_res (iter_of (Some (JArr xs)))) _ s (map Some xs) s) by done.
  clear Hloc. revert s. induction Hnn as [|x xs Hx Hnn IH]; intros s; cbn [for_each map]; [by exists s|].
  assert (E1 : (let* name := of_res (prop (Some x) "name") in modify (g name)) s
               = (Ok tt, g (site_name x) s)).
  { rewrite (bind_ok _ _ s (site_name x) s); [done|]. unfold of_res, site_name. by destruct x. }
  rewrite (bind_ok _ _ s tt _ E1).
  destruct (IH (g (site_name x) s)) as (s' & E & H1 & H2). exists s'.
  destruct (Hg (site_name x) s) as [G1 G2]. split_and!; congruence.
Qed.

Lemma find_site_absent name xs :
  Forall (fun x => x <> JNull) xs -> Forall (fun x => site_name x <> name) xs ->
  find_site name xs = Ok None.
Proof.
  induction 1 as [|x xs Hx Hnn IH]; intros Hn; [done|]. apply Forall_cons in Hn as [Hxn Hn].
  cbn [find_site]. unfold site_name in Hxn.
  destruct (prop (Some x) "name") as [n|e] eqn:E; [|by destruct x].
  rewrite decide_False by done. by apply IH.
Qed.

(** C25: Start-up needs a site named Greensboro: when the site list
    has none, [initMap] throws reading [location] of [undefined], so
    the first sweep is never run (nor, in the source, the polling timer
    set up after it); the client has sent only the site-list request. *)
Theorem callFunctions_without_greensboro (b : St) xs :
  answer_json (fst (serve GetLocations b)) = Some (JArr xs) ->
  Forall (fun x => x <> JNull) xs ->
  Forall (fun x => site_name x <> Some (JStr "Greensboro")) xs ->
  fst (callFunctions sort_devices (initial_fstate b)) = Exc (undefined_access "location") /\
  requests (snd (callFunctions sort_devices (initial_fstate b))) = [GetLocations].
Proof.
  intros Hans Hnn Hng.
  set (s1 := set_locations (JArr xs) (sent (initial_fstate b) GetLocations)).
  assert (E1 : initLocationsArray (initial_fstate b) = (Ok tt, s1)).
  { unfold initLocationsArray. rewrite fetchData_run. cbn [backend initial_fstate]. by rewrite Hans. }
  destruct (for_each_location_modify
              (fun name s => set_siteToDeviceMap (jm_set (siteToDeviceMap s) name (Some (JArr []))) s)
              s1 xs eq_refl Hnn (fun _ _ => conj eq_refl eq_refl)) as (s2 & E2 & R2 & L2).
  destruct (for_each_location_modify
              (fun name s => set_offlineUnifiDevicesByLocation (jm_set (offlineUnifiDevicesByLocation s) name []) s)
              s2 xs L2 Hnn (fun _ _ => conj eq_refl eq_refl)) as (s3 & E3 & R3 & L3).
  assert (E4 : initMap s3 = (Exc (undefined_access "location"), s3)).
  { unfold initMap.
    rewrite (bind_ok (gets locations) _ s3 (JArr xs) s3) by (unfold gets; by rewrite L3, L2).
    rewrite (bind_ok _ _ s3 xs s3) by done.
    rewrite (bind_ok _ _ s3 None s3) by (unfold of_res; by rewrite find_site_absent).
    by apply bind_exc. }
  cut (callFunctions sort_devices (initial_fstate b) = (Exc (undefined_access "location"), s3)).
  { intros ->. split; [done|]. cbn [snd]. by rewrite R3, R2. }
  unfold callFunctions.
  rewrite (bind_ok _ _ _ tt s1 E1), (bind_ok _ _ _ tt s2 E2), (bind_ok _ _ _ tt s3 E3).
  by apply bind_exc.
Qed.

(** *** Fields a computation leaves alone *)

Section Keeps.
Context {X : Type} (proj : fstate -> X) (v : X).
Hypothesis proj_sent : forall s r, proj (sent s r) = proj s.
Hypothesis proj_panel : forall s p, proj (set_notifications p s) = proj s.

Lemma keeps_modify (f : fstate -> fstate) :
  (forall s, proj (f s) = proj s) -> preserves (fun s => proj s = v) (modify f).
Proof. intros Hf s Hs. cbn. by rewrite Hf. Qed.

Lemma keeps_send r : preserves (fun s => proj s = v) (send r).
Proof. intros s Hs. rewrite send_run. cbn [snd]. by rewrite proj_sent. Qed.

Lemma keeps_on_panel {A} (m : M panel_state A) : preserves (fun s => proj s = v) (on_panel m).
Proof. intros s Hs. rewrite on_panel_run. cbn [snd]. by rewrite proj_panel. Qed.
End Keeps.

Ltac keeps_close :=
  first [ apply keeps_send; intros; reflexivity | apply keeps_on_panel; intros; reflexivity
        | apply keeps_modify; intros; reflexivity ].

(** The site list is set by [initLocationsArray] only. *)
Lemma requestDeviceList_locations L :
  preserves (fun s : fstate => locations s = L) (requestDeviceList sort_devices).
Proof.
  unfold requestDeviceList, for_each_location, requestLocationInfo, requestUnifiDeviceInfo,
    requestUpdateFirewallInfo, fetchData, client_fetch, unifi_handler, firewall_handler,
    refreshSiteView, updateMarker, updateNotificationMenu, updateDevicePanel, formatDeviceList,
    refreshDevicePanel, refreshInfoWindow, createInfoWindowHTML, updateInfoWindow.
  preserves_auto; keeps_close.
Qed.

Lemma init_locations L :
  preserves (fun s : fstate => locations s = L)
    (initSiteToDeviceMap ;;; initOfflineUnifiDevicesByLocationMap ;;; initMap ;;; requestDeviceList sort_devices).
Proof.
  apply preserves_bind; [|intros _; apply preserves_bind; [|intros _; apply preserves_bind;
    [|intros _; apply requestDeviceList_locations]]];
  unfold initSiteToDeviceMap, initOfflineUnifiDevicesByLocationMap, initMap, for_each_location;
  preserves_auto; keeps_close.
Qed.

(** The site list of the client is the body of the [/locations] answer,
    and no later step of start-up changes it. *)
Lemma callFunctions_locations (b : St) d :
  answer_json (fst (serve GetLocations b)) = Some d ->
  locations (snd (callFunctions sort_devices (initial_fstate b))) = d.
Proof.
  intros Hd. set (s1 := set_locations d (sent (initial_fstate b) GetLocations)).
  assert (E1 : initLocationsArray (initial_fstate b) = (Ok tt, s1)).
  { unfold initLocationsArray. rewrite fetchData_run. cbn [backend initial_fstate]. by rewrite Hd. }
  unfold callFunctions. rewrite (bind_ok _ _ _ tt s1 E1). by apply init_locations.
Qed.

(** Events handled one after the other, each to completion. *)
Fixpoint run_all (es : list event) (s : fstate) : fstate :=
  match es with
  | [] => s
  | e :: es' => run_all es' (snd (run_event sort_devices e s))
  end.

(** C38: The polling timer keeps every site refreshed: after [k] ticks,
    whatever the backend answered, the client has sent [k] times over
    the device request then the firewall request of every site, in the
    order of the site list; no sweep stops the next one.  This holds
    from any state in which every site has its offline list, as
    start-up leaves it. *)
Theorem ticks_poll_every_site k (s : fstate) xs :
  locations s = JArr xs -> Forall (fun x => x <> JNull) xs ->
  Forall (fun x => jm_has (offlineUnifiDevicesByLocation s) (site_name x) = true) xs ->
  requests (run_all (repeat Tick k) s) =
    requests s ++ concat (repeat (concat (map (fun x => site_requests (site_name x)) xs)) k).
Proof.
  revert s. induction k as [|k IH]; intros s Hloc Hnn Hoff; cbn [repeat run_all].
  - by rewrite app_nil_r.
  - destruct (requestDeviceList_sweep s xs Hloc Hnn Hoff) as (_ & Hreq & Hkeep).
    cbn [run_event]. rewrite IH.
    + rewrite Hreq, <- app_assoc. reflexivity.
    + by apply requestDeviceList_locations.
    + done.
    + eapply Forall_impl; [exact Hoff|]. intros y Hy. by apply Hkeep.
Qed.

(** What leaves the info window alone: everything but the firewall
    answer of the selected site. *)
Lemma unifi_handler_infoWindow w name d :
  preserves (fun s : fstate => infoWindow s = w) (unifi_handler sort_devices name d).
Proof.
  unfold unifi_handler, updateDevicePanel, formatDeviceList, refreshDevicePanel.
  preserves_auto; keeps_close.
Qed.

Lemma refreshSiteView_infoWindow w name :
  preserves (fun s : fstate => infoWindow s = w) (refreshSiteView name).
Proof. unfold refreshSiteView, updateMarker, updateNotificationMenu. preserves_auto; keeps_close. Qed.

Lemma updateDevicePanel_infoWindow w name :
  preserves (fun s : fstate => infoWindow s = w) (updateDevicePanel sort_devices name).
Proof. unfold updateDevicePanel, formatDeviceList, refreshDevicePanel. preserves_auto; keeps_close. Qed.

End FrontendTheorems.

(** ** Examples *)

Lemma reachable_panel_ok_witness : panel_ok (notifications demo_start).
Proof. apply (reachable_panel_ok demo_sort). apply reach_init. Defined.

Lemma unknown_firewall_red_without_notification_witness :
  jm_get (locationNameToMarker (snd (refreshSiteView (Some (JStr "Durham")) demo_start))) (Some (JStr "Durham"))
    = Some Red /\
  Some (JStr "Durham") ∉ map n_location (panel (notifications (snd (refreshSiteView (Some (JStr "Durham")) demo_start)))).
Proof.
  apply (unknown_firewall_red_without_notification (Some (JStr "Durham")) demo_start
           [demo_device "ap1" "offline"]); try (vm_compute; reflexivity).
  apply (bool_decide_unpack _). vm_compute. reflexivity.
Defined.

Lemma updateMarker_spec_witness :
  fst (updateMarker (Some (JStr "Greensboro")) demo_start) = Ok tt /\
  jm_get (locationNameToMarker (snd (updateMarker (Some (JStr "Greensboro")) demo_start))) (Some (JStr "Greensboro")) =
    Some (marker_color (firewall_healthy (jm_get (firewallOnlineStatus demo_start) (Some (JStr "Greensboro"))))
                       (negb (length [demo_device "ap1" "offline"] =? 0))) /\
  (forall k, k <> Some (JStr "Greensboro") ->
     jm_get (locationNameToMarker (snd (updateMarker (Some (JStr "Greensboro")) demo_start))) k =
     jm_get (locationNameToMarker demo_start) k).
Proof. apply updateMarker_spec; vm_compute; reflexivity. Defined.

Lemma requestDeviceList_sequential_witness :
  fst (requestDeviceList demo_sort demo_start) = Ok tt /\
  requests (snd (requestDeviceList demo_sort demo_start)) =
    requests demo_start ++ concat (map (fun x => site_requests (site_name x))
                                     [demo_location "Greensboro"; demo_location "Durham"]).
Proof.
  apply requestDeviceList_sequential; [vm_compute; reflexivity| |];
    repeat constructor; try discriminate; vm_compute; reflexivity.
Defined.

Lemma updateNotificationMenu_idem_witness :
  snd (updateNotificationMenu (Some (JStr "Greensboro")) false true [demo_device "ap1" "offline"]
         (snd (updateNotificationMenu (Some (JStr "Greensboro")) false true [demo_device "ap1" "offline"] demo_start))) =
  snd (updateNotificationMenu (Some (JStr "Greensboro")) false true [demo_device "ap1" "offline"] demo_start).
Proof. apply updateNotificationMenu_idem. apply (bool_decide_unpack _). vm_compute. reflexivity. Defined.

Lemma failed_fetch_keeps_state_witness :
  requestUpdateFirewallInfo (Some (JStr "Durham")) demo_start =
    (Ok tt, sent demo_start (GetOpManager (Some (to_js_string (Some (JStr "Durham")))))).
Proof. apply (proj1 (failed_fetch_keeps_state demo_sort (Some (JStr "Durham")) demo_start)). vm_compute. reflexivity. Defined.

Lemma firewall_answer_dropped_witness :
  firewall_handler (Some (JStr "Durham")) (JArr []) demo_start = (Ok tt, demo_start).
Proof. apply (firewall_answer_dropped _ _ (Some (JNum 0))); [reflexivity|discriminate]. Defined.

Lemma firewall_answer_single_witness :
  firewall_handler (Some (JStr "Greensboro")) (JArr [demo_firewall]) demo_start =
    (Ok tt, set_firewallOnlineStatus
              (jm_set (firewallOnlineStatus demo_start) (Some (JStr "Greensboro"))
                 (bool_decide (Some (JStr "Clear") = Some (JStr "Clear"))))
              (set_locationToFirewall
                 (jm_set (locationToFirewall demo_start) (Some (JStr "Greensboro")) (Some demo_firewall))
                 demo_start)).
Proof. apply firewall_answer_single; reflexivity. Defined.

(** The start-up state with Greensboro selected, as after a click on its marker. *)
Definition demo_selected : fstate unit := set_currentLocation (Some (Some (JStr "Greensboro"))) demo_start.

Lemma firewall_answer_selected_witness :
  exists html center,
  firewall_handler (Some (JStr "Greensboro")) (JArr [demo_firewall]) demo_selected =
    (Ok tt, set_infoWindow
              (Some (mkIW (Some (mkInfo (to_js_string (Some (JStr "Greensboro"))) html (Some (JStr "Greensboro"))))
                          center
                          (if jm_has (locationNameToMarker demo_selected) (Some (JStr "Greensboro"))
                           then Some (Some (JStr "Greensboro")) else None) true))
              (firewall_recorded (Some (JStr "Greensboro")) demo_firewall (Some (JStr "Clear")) demo_selected))
  /\ infoWindow demo_selected = Some (mkIW None None None false).
Proof.
  eexists _, _. split.
  - apply (firewall_answer_selected _ _ _ _ [demo_location "Greensboro"; demo_location "Durham"]
             (Some (demo_location "Greensboro")) _ (mkIW None None None false));
      first [vm_compute; reflexivity | reflexivity].
  - reflexivity.
Defined.

(** The start-up state with the two devices of [demo_devices] listed
    for Greensboro, sorted by the insertion sort [sort_by]. *)
Definition demo_listed : fstate unit :=
  set_siteToDeviceMap (jm_set (siteToDeviceMap demo_start) (Some (JStr "Greensboro")) (Some (JArr demo_devices)))
    demo_start.

Lemma formatDeviceList_total_witness :
  exists html zs,
    formatDeviceList (sort_by (compare_devices (fun _ _ => 0%Z))) (Some (JStr "Greensboro")) (Some "switching")
      demo_listed =
      (Ok html, set_siteToDeviceMap (jm_set (siteToDeviceMap demo_listed) (Some (JStr "Greensboro"))
                                       (Some (JArr zs))) demo_listed) /\
    formatDeviceList_html (Some "switching") zs = Ok html /\ zs ≡ₚ demo_devices.
Proof.
  apply (formatDeviceList_total _ (fun _ _ => 0%Z)); [apply sort_by_contract|vm_compute; reflexivity..].
Defined.

Lemma getOfflineUnifiDevices_spec_witness :
  getOfflineUnifiDevices (Some (JArr demo_devices)) = Ok (List.filter offline_device demo_devices).
Proof. apply getOfflineUnifiDevices_spec. repeat constructor; eexists; reflexivity. Defined.

Lemma callFunctions_without_greensboro_witness :
  fst (@callFunctions unit demo_durham_only demo_sort (initial_fstate tt)) = Exc (undefined_access "location") /\
  requests (snd (@callFunctions unit demo_durham_only demo_sort (initial_fstate tt))) = [GetLocations].
Proof.
  apply (@callFunctions_without_greensboro unit demo_durham_only demo_sort tt [demo_location "Durham"]);
    [reflexivity|repeat constructor; discriminate|repeat constructor; vm_compute; discriminate].
Defined.

Lemma refreshSiteView_refines_witness :
  exists fh dh,
  formatOpManObject (Some demo_firewall) = Ok fh /\ formatUnifiDeviceList [demo_device "ap1" "offline"] = Ok dh /\
  site_view (snd (refreshSiteView (Some (JStr "Greensboro")) demo_start)) (Some (JStr "Greensboro")) =
    derive (Some (JStr "Greensboro"))
      (firewall_healthy (jm_get (firewallOnlineStatus demo_start) (Some (JStr "Greensboro"))))
      (negb (length [demo_device "ap1" "offline"] =? 0)) /\
  (forall k, k <> Some (JStr "Greensboro") ->
     site_view (snd (refreshSiteView (Some (JStr "Greensboro")) demo_start)) k = site_view demo_start k).
Proof.
  eexists _, _. split; [reflexivity|]. split; [reflexivity|].
  eapply (refreshSiteView_refines _ _ _ demo_firewall (Some (JStr "Clear"))); try reflexivity.
  apply (bool_decide_unpack _). vm_compute. reflexivity.
Defined.

Lemma ticks_poll_every_site_witness :
  requests (run_all demo_sort (repeat Tick 2) demo_start) =
    requests demo_start ++ concat (repeat (concat (map (fun x => site_requests (site_name x))
                                                     [demo_location "Greensboro"; demo_location "Durham"])) 2).
Proof.
  apply ticks_poll_every_site; [vm_compute; reflexivity| |];
    repeat constructor; try discriminate; vm_compute; reflexivity.
Defined.
