(* ===== verification/System.v ===== *)
(** * System: the browser client against the backend of this repository

    The two halves composed.  The backend is started from its four files
    by [load_server_config] ([Locations]: the key table, the site file,
    the firewall table and the UniFi name table, lines 14-18 of
    [server.js]); it answers the client through the [HttpService]
    instance [Server_service] of [Server], and the client of [Frontend]
    ([callFunctions], the marker and button listeners) runs against it.

    The theorems follow data across both halves: the site list the
    browser works on is the site file, object for object and in file
    order; and a click on the marker of a site that the firewall table
    does not list never builds an info window for that site, so the
    buttons that open its device panel are never shown. *)

From stdpp Require Import base list strings.
From S2P Require Import Prelude JsString Json JsMap Config Locations Http Server Notifications Frontend.
Import Backend Client.

Section System.
Context (JSON_parse : string -> res json) (upstream : up_request -> up_result)
        (sort_devices : list json -> res (list json)).

(** The [/locations] answer of the backend is the site list it loaded. *)
Lemma serve_locations cfg (b : bstate) :
  answer_json (fst (@serve _ (Server_service cfg upstream) GetLocations b)) =
    Some (JArr (Config.locations cfg)).
Proof. reflexivity. Qed.

(** The firewall query of a site the firewall table does not list is
    answered 404, which the client drops: the info window stays. *)
Lemma firewall_404_keeps_infoWindow cfg n w :
  jm_get (siteFirewallMap cfg) n = None ->
  preserves (fun s : Client.fstate bstate => infoWindow s = w)
    (@requestUpdateFirewallInfo _ (Server_service cfg upstream) (Some (JStr n))).
Proof.
  intros Hn s Hs. unfold requestUpdateFirewallInfo. rewrite fetchData_run.
  assert (E : answer_json (fst (@serve _ (Server_service cfg upstream)
                                  (GetOpManager (Some (to_js_string (Some (JStr n))))) (backend s))) = None).
  { cbn [serve Server_service to_js_string json_to_string handle get_opmanager].
    unfold get_opmanager, jm_get_str. rewrite Hn. reflexivity. }
  by rewrite E.
Qed.

(** C39: The site list of the browser is the site file.  For a site file
    of declarations as [buildLocationsArray] reads them (distinct word
    names, bare keys, single-quoted plain strings, any blanks after commas
    and colons), whose repaired objects [JSON.parse] accepts, the backend
    starts, and after the client's start-up its site list is the parsed
    objects, in the order of the file, whatever the upstream services
    answer. *)
Theorem client_sites_from_file sc sp decls vs keys firewalls unifi_names :
  str_forall is_blank sc = true -> str_forall is_blank sp = true ->
  Forall (fun d => decl_ok d = true) decls -> NoDup (map fst decls) ->
  Forall2 (fun d v => JSON_parse (strict sc sp (LObj d.2)) = Ok v) decls vs ->
  exists cfg,
    load_server_config JSON_parse keys (join newline (map (render_decl sc sp) decls))
      firewalls unifi_names = Ok cfg /\
    Client.locations (snd (@callFunctions _ (Server_service cfg upstream) sort_devices
                             (initial_fstate initial_bstate))) = JArr vs.
Proof.
  intros Hsc Hsp Hds Hnd Hvs. exists (load_config keys firewalls unifi_names vs). split.
  - unfold load_server_config. by rewrite (read_rendered_file JSON_parse sc sp Hsc Hsp decls vs Hds Hnd Hvs).
  - by apply callFunctions_locations.
Qed.

(** C40: A click on the marker of a site that the firewall table does not
    list leaves the info window as it was: closed if it was closed, or
    still showing, with its buttons bound to, the site clicked before,
    while [currentLocation] is the new site.  The info window is only
    built in the handler of a one-record firewall answer. *)
Theorem markerClick_without_firewall cfg n (s : Client.fstate bstate) :
  jm_get (siteFirewallMap cfg) n = None ->
  infoWindow (snd (@markerClick _ (Server_service cfg upstream) sort_devices (Some (JStr n)) s)) =
    infoWindow s.
Proof.
  intros Hn. set (w := infoWindow s).
  enough (H : preserves (fun s : Client.fstate bstate => infoWindow s = w)
                (@markerClick _ (Server_service cfg upstream) sort_devices (Some (JStr n)))) by (by apply H).
  unfold markerClick, requestLocationInfo, requestUnifiDeviceInfo, fetchData, client_fetch.
  preserves_auto;
    first [ apply firewall_404_keeps_infoWindow, Hn | apply unifi_handler_infoWindow
          | apply refreshSiteView_infoWindow | apply updateDevicePanel_infoWindow
          | apply keeps_send; intros; reflexivity | apply keeps_modify; intros; reflexivity ].
Qed.

End System.

(** ** Examples *)

(** The spec's example site and a second one, as the site file writes
    them, and a backend whose firewall table lists Greensboro only. *)
Definition demo_site_file : string := join newline (map (render_decl "" "") [greensboro; raleigh]).

Definition demo_firewalls : string := "Greensboro:GSO-FW".

Lemma client_sites_from_file_witness :
  exists cfg,
    load_server_config demo_parse "" demo_site_file demo_firewalls "" = Ok cfg /\
    Client.locations (snd (@callFunctions _ (Server_service cfg (fun _ => UpNetError)) Ok
                             (initial_fstate initial_bstate))) = JArr [JStr "greensboro"; JStr "raleigh"].
Proof.
  apply (client_sites_from_file demo_parse (fun _ => UpNetError) Ok "" "" [greensboro; raleigh]); try reflexivity.
  - repeat constructor.
  - cbn. constructor; [|constructor; [apply not_elem_of_nil|constructor]].
    apply not_elem_of_cons. split; [discriminate|apply not_elem_of_nil].
  - constructor; [vm_compute; reflexivity|]. constructor; [vm_compute; reflexivity|]. constructor.
Defined.

Lemma markerClick_without_firewall_witness :
  infoWindow (snd (@markerClick _ (Server_service (load_config "" demo_firewalls "" []) (fun _ => UpNetError))
                     Ok (Some (JStr "Raleigh")) (initial_fstate initial_bstate))) =
    infoWindow (initial_fstate initial_bstate).
Proof. apply markerClick_without_firewall. reflexivity. Defined.
